(** * GreenGuard raw loader: a shallow embedding of [greenguard/loader.py]

    The development follows [GreenGuardRawLoader]: the resolver of time
    windows ([_get_times]), the selection of log files by name
    ([_filter_by_filename]), the ingestion and the two row filters
    ([_load_readings_file], [_filter_by_signal], [_filter_by_timestamp]),
    the per-turbine assembly ([_load_turbine_readings]) and the two
    top-level methods ([_load_readings], [load]).  It then covers the
    relational loader [GreenGuardLoader] ([_read_csv], [load]) and
    [load_demo], over a reader of tables and a disk that are parameters.

    Conventions of the embedding.
    - A time is an integer number of nanoseconds since 1970-01-01.  A
      column of pandas timestamps (datetime64) holds the times that fit
      in 64 bits, from 1677-09-21 to 2262-04-11; a time out of this
      range, as [datetime.min] is, stands for a Python [datetime]
      object, and a column that holds one is a column of objects.
    - Strings are byte strings; Python compares [str] values by code
      point, which is the order of their UTF-8 bytes, so [String.leb] is
      the comparison the loader performs on file names and turbine ids.
    - A table is a list of column names and a list of rows; a row carries
      its index label and one cell per column.  A missing value (NaN,
      NaT, None) is the cell [NA].
    - The text readers of pandas ([pd.to_datetime] without and with the
      format of the logs, [pd.to_timedelta]) are parameters of the loader.
    - Exceptions are values of [exn]; a method returns [Ok] or [Raise]. *)

From Stdlib Require Import Ascii String.
From stdpp Require Import base numbers strings list gmap sorting.

Open Scope string_scope.
Open Scope list_scope.
Open Scope Z_scope.

(** ** Calendar: what [strftime('%Y-%m-.csv')] reads off a timestamp *)

Module Calendar.

Definition ns_per_second : Z := 1000000000.
Definition ns_per_day : Z := 86400 * ns_per_second.

(** Day number (days since 1970-01-01) of a proleptic Gregorian date. *)
Definition days_from_civil (y m d : Z) : Z :=
  let y' := if decide (m ≤ 2) then y - 1 else y in
  let era := y' `div` 400 in
  let yoe := y' - era * 400 in
  let mp := if decide (2 < m) then m - 3 else m + 9 in
  let doy := (153 * mp + 2) `div` 5 + d - 1 in
  let doe := yoe * 365 + yoe `div` 4 - yoe `div` 100 + doy in
  era * 146097 + doe - 719468.

(** Year, month and day of a day number. *)
Definition civil_from_days (z : Z) : Z * Z * Z :=
  let z := z + 719468 in
  let era := z `div` 146097 in
  let doe := z - era * 146097 in
  let yoe := (doe - doe `div` 1460 + doe `div` 36524 - doe `div` 146096) `div` 365 in
  let doy := doe - (365 * yoe + yoe `div` 4 - yoe `div` 100) in
  let mp := (5 * doy + 2) `div` 153 in
  let d := doy - (153 * mp + 2) `div` 5 + 1 in
  let m := if decide (mp < 10) then mp + 3 else mp - 9 in
  (if decide (m ≤ 2) then yoe + era * 400 + 1 else yoe + era * 400, m, d).

(** A timestamp from its calendar fields. *)
Definition timestamp (y m d hh mm ss : Z) : Z :=
  days_from_civil y m d * ns_per_day + (hh * 3600 + mm * 60 + ss) * ns_per_second.

Definition year_month (t : Z) : Z * Z :=
  let '(y, m, _) := civil_from_days (t `div` ns_per_day) in (y, m).

(** [datetime.min], 0001-01-01 00:00:00. *)
Definition datetime_min : Z := timestamp 1 1 1 0 0 0.

(** [pd.Timestamp.min] and [pd.Timestamp.max]: a datetime64[ns] value is
    a 64-bit count of nanoseconds, and the least 64-bit integer is the
    code of NaT. *)
Definition timestamp_min : Z := - (2 ^ 63 - 1).
Definition timestamp_max : Z := 2 ^ 63 - 1.

(** The time can be held by a datetime64[ns] column.  A time out of
    this range, as [datetime.min] is, can only be held as a [datetime]
    object, and a column that holds one is a column of objects. *)
Definition in_bounds (t : Z) : Prop := timestamp_min ≤ t ≤ timestamp_max.

#[global] Instance in_bounds_dec t : Decision (in_bounds t).
Proof. unfold in_bounds. apply _. Defined.

Definition days (n : Z) : Z := n * ns_per_day.

Definition digit (n : Z) : ascii := ascii_of_N (Z.to_N (48 + n `mod` 10)).

(** The last [w] decimal digits of [n], zero padded. *)
Fixpoint zero_padded (w : nat) (n : Z) : string :=
  match w with
  | O => ""
  | S w' => zero_padded w' (n `div` 10) +:+ String (digit n) ""
  end.

(** [t.strftime('%Y-%m-.csv')]: four digits of year, two of month. *)
Definition strftime_Ym_csv (t : Z) : string :=
  let '(y, m) := year_month t in
  zero_padded 4 y +:+ "-" +:+ zero_padded 2 m +:+ "-.csv".

End Calendar.

(** ** Strings *)

(** The order of Python's [<=] on [str]. *)
Definition str_le (a b : string) : Prop := String.leb a b = true.

#[global] Instance str_le_dec a b : Decision (str_le a b).
Proof. unfold str_le. apply _. Defined.

Definition lower_ascii (c : ascii) : ascii :=
  let n := N_of_ascii c in
  if decide (65 ≤ n ≤ 90)%N then ascii_of_N (n + 32) else c.

(** [str.lower] on a text of ASCII characters.  The bytes of any other
    character are left as they are, where Python lower-cases every cased
    character: what is stated on the case of a name is stated for
    ASCII names ([ascii_text]). *)
Fixpoint lower (s : string) : string :=
  match s with
  | EmptyString => EmptyString
  | String c s' => String (lower_ascii c) (lower s')
  end.

(** The text holds ASCII characters only. *)
Fixpoint ascii_text (s : string) : Prop :=
  match s with
  | EmptyString => True
  | String c s' => (N_of_ascii c < 128)%N ∧ ascii_text s'
  end.

#[global] Instance ascii_text_dec s : Decision (ascii_text s).
Proof. induction s; simpl; apply _. Defined.

Definition ends_with_slash (s : string) : bool :=
  match String.rev s with
  | String "/" _ => true
  | _ => false
  end.

(** [os.path.join(a, b)] on a POSIX system. *)
Definition path_join (a b : string) : string :=
  match b with
  | String "/" _ => b
  | _ => if bool_decide (a = "") || ends_with_slash a then a +:+ b
         else a +:+ "/" +:+ b
  end.

(** ** Exceptions and results *)

Inductive exn :=
| ValueError (msg : string)
| KeyError (key : string)
| AttributeError (name : string)
| FileNotFoundError (path : string)
| ParserError (path : string)
| TypeError
| IndexError
| ReferenceError
| OverflowError.

Inductive result (A : Type) :=
| Ok (a : A)
| Raise (e : exn).
Arguments Ok {A} a.
Arguments Raise {A} e.

#[global] Instance result_ret : MRet result := λ A a, Ok a.
#[global] Instance result_bind : MBind result := λ A B f m,
  match m with
  | Ok a => f a
  | Raise e => Raise e
  end.
#[global] Instance result_fmap : FMap result := λ A B f m,
  match m with
  | Ok a => Ok (f a)
  | Raise e => Raise e
  end.

Definition from_option {A} (e : exn) (o : option A) : result A :=
  match o with
  | Some a => Ok a
  | None => Raise e
  end.

Definition duplicate_rows : exn := ValueError "Duplicate rows found in target_times".
Definition no_objects : exn := ValueError "No objects to concatenate".
Definition bad_time_data : exn := ValueError "time data does not match format".
Definition bad_timedelta : exn := ValueError "unit abbreviation w/o a number".

(** ** Tables *)

Inductive cell :=
| NA
| Text (s : string)
| Stamp (t : Z).

#[global] Instance cell_eq_dec : EqDecision cell.
Proof. solve_decision. Defined.

Abbreviation row := (Z * list cell)%type.

Record DataFrame := {
  columns : list string;
  rows : list row;
}.

#[global] Instance DataFrame_eq_dec : EqDecision DataFrame.
Proof. solve_decision. Defined.

Module Frame.

Definition index (df : DataFrame) : list Z := fst <$> rows df.

(** Position of the first column called [name]. *)
Definition position (name : string) (cols : list string) : option nat :=
  fst <$> list_find (λ c, c = name) cols.

Definition at_position (i : nat) (cells : list cell) : cell :=
  default NA (cells !! i).

(** [df[name]] and [df.name]: the cells of a column, or the exception
    the accessor raises when the table has no such column. *)
Definition column (e : exn) (name : string) (df : DataFrame) : result (list cell) :=
  match position name (columns df) with
  | Some i => Ok ((λ r : row, at_position i r.2) <$> rows df)
  | None => Raise e
  end.

Definition getitem (df : DataFrame) (name : string) : result (list cell) :=
  column (KeyError name) name df.

Definition getattr (df : DataFrame) (name : string) : result (list cell) :=
  column (AttributeError name) name df.

(** [df[name] = values]: the column is overwritten in place when it
    exists and appended as the last column when it does not. *)
Definition setitem (df : DataFrame) (name : string) (values : list cell) : DataFrame :=
  let n := length (columns df) in
  match position name (columns df) with
  | Some i =>
      {| columns := columns df;
         rows := zip_with (λ (r : row) v, (r.1, <[i := v]> (resize n NA r.2)))
                          (rows df) values |}
  | None =>
      {| columns := columns df ++ [name];
         rows := zip_with (λ (r : row) v, (r.1, resize n NA r.2 ++ [v]))
                          (rows df) values |}
  end.

(** [df[name] = value] with a scalar. *)
Definition setitem_scalar (df : DataFrame) (name : string) (value : cell) : DataFrame :=
  setitem df name (replicate (length (rows df)) value).

(** [del df[name]]. *)
Definition delitem (df : DataFrame) (name : string) : result DataFrame :=
  match position name (columns df) with
  | Some i =>
      Ok {| columns := delete i (columns df);
            rows := (λ r : row, (r.1, delete i (resize (length (columns df)) NA r.2)))
                      <$> rows df |}
  | None => Raise (KeyError name)
  end.

(** [df.pop(name)]: the column and the table without it. *)
Definition pop (df : DataFrame) (name : string) : result (list cell * DataFrame) :=
  values ← getitem df name;
  df' ← delitem df name;
  mret (values, df').

(** [df.rename(columns={old: new})]. *)
Definition rename (old new : string) (df : DataFrame) : DataFrame :=
  {| columns := (λ c, if decide (c = old) then new else c) <$> columns df;
     rows := rows df |}.

(** Selection of the elements whose flag is set. *)
Fixpoint select {A} (l : list A) (flags : list bool) : list A :=
  match l, flags with
  | x :: l', b :: flags' => if b then x :: select l' flags' else select l' flags'
  | _, _ => []
  end.

(** [df[flags]] with a boolean series. *)
Definition mask (df : DataFrame) (flags : list bool) : DataFrame :=
  {| columns := columns df; rows := select (rows df) flags |}.

(** Columns of a concatenation: those of the first table, then the new
    ones of each following table, in order of appearance. *)
Definition union_columns (dfs : list DataFrame) : list string :=
  foldl (λ acc df, acc ++ remove_dups (filter (λ c, c ∉ acc) (columns df))) [] dfs.

Definition reindex (src all : list string) (cells : list cell) : list cell :=
  (λ c, match position c src with
        | Some i => at_position i cells
        | None => NA
        end) <$> all.

Definition concat_rows (all : list string) (dfs : list DataFrame) : list row :=
  dfs ≫= (λ df, (λ r : row, (r.1, reindex (columns df) all r.2)) <$> rows df).

(** [pd.concat(dfs)]. *)
Definition concat (dfs : list DataFrame) : result DataFrame :=
  match dfs with
  | [] => Raise no_objects
  | _ =>
      let all := union_columns dfs in
      Ok {| columns := all; rows := concat_rows all dfs |}
  end.

(** [pd.DataFrame(columns=cols)]. *)
Definition empty (cols : list string) : DataFrame :=
  {| columns := cols; rows := [] |}.

(** [pd.DataFrame({name: values})]. *)
Definition of_column (name : string) (values : list cell) : DataFrame :=
  {| columns := [name]; rows := imap (λ i v, (Z.of_nat i, [v])) values |}.

(** [series.unique()]: the distinct values in order of first appearance. *)
Fixpoint unique {A} `{EqDecision A} (seen l : list A) : list A :=
  match l with
  | [] => []
  | x :: l' => if decide (x ∈ seen) then unique seen l'
               else x :: unique (x :: seen) l'
  end.

(** [df.drop_duplicates(subset=...)] on rows paired with their key: the
    first row of every key is kept. *)
Fixpoint drop_duplicates {K A} `{EqDecision K} (seen : list K) (l : list (K * A)) : list A :=
  match l with
  | [] => []
  | (k, x) :: l' => if decide (k ∈ seen) then drop_duplicates seen l'
                    else x :: drop_duplicates (k :: seen) l'
  end.

End Frame.

(** ** The file system and the caller's objects *)

(** A CSV file after lexing: the header line and the records; an empty
    field is [None].  The loader never looks inside the cells of the
    value column, so numbers are kept as the text the file holds. *)
Record CsvFile := {
  header : list string;
  records : list (list (option string));
}.

(** [directories] maps a directory path to the names [os.listdir]
    returns, in the order the system returns them; [csv_files] maps a
    file path to its content. *)
Record FileSystem := {
  directories : gmap string (list string);
  csv_files : gmap string CsvFile;
}.

Definition csv_cell (field : option string) : cell :=
  match field with
  | Some s => Text s
  | None => NA
  end.

(** [os.listdir(path)]. *)
Definition listdir (fs : FileSystem) (path : string) : result (list string) :=
  from_option (FileNotFoundError path) (directories fs !! path).

(** [pd.read_csv(path)] on a file whose header holds distinct names
    and whose records are not longer than the header: a fresh table
    with the index 0, 1, ..., a short record padded with missing values.
    A record longer than the header is modelled as the error
    [ParserError], which pandas raises for such a record after the
    first ones; when the first records are the longer ones pandas takes
    their leading fields as row labels, a table this model does not
    hold.  The cells keep the text of their fields.  What is stated on
    the table a file is read as is stated for the files with no record
    longer than the header ([plain]). *)
Definition read_csv (fs : FileSystem) (path : string) : result DataFrame :=
  file ← from_option (FileNotFoundError path) (csv_files fs !! path);
  let n := length (header file) in
  if decide (Forall (λ r, (length r ≤ n)%nat) (records file)) then
    mret {| columns := header file;
            rows := imap (λ i r, (Z.of_nat i, resize n NA (csv_cell <$> r)))
                         (records file) |}
  else Raise (ParserError path).

(** [sorted(names)] on strings. *)
Definition sorted (names : list string) : list string := merge_sort str_le names.

(** A row of the table [_get_times] builds: its columns are fixed by the
    constructor call, [turbine_id], [start] and [end].  Both [start] and
    [end] are read as times, and a missing time (NaT) is [None]. *)
Record TimeWindow := {
  w_index : Z;
  turbine_id : cell;
  start : option Z;
  end_ : option Z;
}.

#[global] Instance TimeWindow_eq_dec : EqDecision TimeWindow.
Proof. solve_decision. Defined.

(** [X['turbine_id'] == turbine_id] on one row. *)
Definition has_turbine_id (id : cell) (w : TimeWindow) : Prop := turbine_id w = id.

#[global] Instance has_turbine_id_dec id w : Decision (has_turbine_id id w).
Proof. unfold has_turbine_id. apply _. Defined.

(** [a <= b] on two times, false when one is missing. *)
Definition time_le (a b : option Z) : bool :=
  match a, b with
  | Some a, Some b => bool_decide (a ≤ b)
  | _, _ => false
  end.

(** [a <= b] on two strings of a series, false when one is missing. *)
Definition name_le (a b : option string) : bool :=
  match a, b with
  | Some a, Some b => String.leb a b
  | _, _ => false
  end.

(** [series.any()]. *)
Definition any (flags : list bool) : bool := foldr orb false flags.

(** The column of times is a datetime64 column: every time it holds is
    within the bounds of datetime64[ns] (NaT is).  The column [start]
    that [_get_times] fills with [datetime.min] is not. *)
Definition datetime64 (t : option Z) : Prop :=
  match t with
  | Some t => Calendar.in_bounds t
  | None => True
  end.

#[global] Instance datetime64_dec t : Decision (datetime64 t).
Proof. destruct t; simpl; apply _. Defined.

Definition datetimelike (column : list (option Z)) : Prop := Forall datetime64 column.

#[global] Instance datetimelike_dec column : Decision (datetimelike column).
Proof. unfold datetimelike. apply _. Defined.

(** [series.dt.strftime('%Y-%m-.csv')]: the accessor [.dt] raises
    [AttributeError] on a column that is not a datetime64 column; the
    encoded name of NaT is missing. *)
Definition dt_strftime (column : list (option Z)) : result (list (option string)) :=
  if decide (datetimelike column)
  then Ok ((λ t : option Z, Calendar.strftime_Ym_csv <$> t) <$> column)
  else Raise (AttributeError "dt").

Definition time_cell (t : option Z) : cell :=
  match t with
  | Some t => Stamp t
  | None => NA
  end.

(** The time a cell of a datetime column holds. *)
Definition cell_time (c : cell) : result (option Z) :=
  match c with
  | NA => Ok None
  | Stamp t => Ok (Some t)
  | Text _ => Raise TypeError
  end.

Definition cell_text (c : cell) : result string :=
  match c with
  | Text s => Ok s
  | _ => Raise TypeError
  end.

Definition canonical_columns : list string :=
  ["timestamp"; "signal_id"; "value"; "turbine_id"].

(** References to the tables the caller holds. *)
Abbreviation loc := positive.

Inductive target_times_arg :=
| TargetFrame (l : loc)
| TargetPath (path : string).

Inductive signals_arg :=
| SignalsNone
| SignalsList (names : list cell)
| SignalsPath (path : string)
| SignalsFrame (df : DataFrame).

(** ** Computations on the store of tables *)

Definition Heap (A : Type) : Type :=
  gmap loc DataFrame → gmap loc DataFrame * result A.

#[global] Instance Heap_ret : MRet Heap := λ A a σ, (σ, Ok a).
#[global] Instance Heap_bind : MBind Heap := λ A B f m σ,
  match m σ with
  | (σ', Ok a) => f a σ'
  | (σ', Raise e) => (σ', Raise e)
  end.

Module Store.

Definition lift {A} (r : result A) : Heap A := λ σ, (σ, r).

Definition deref (l : loc) : Heap DataFrame := λ σ,
  (σ, from_option ReferenceError (σ !! l)).

(** A new object holding [df]. *)
Definition alloc (df : DataFrame) : Heap loc := λ σ,
  let l := fresh (dom σ) in (<[l := df]> σ, Ok l).

Definition assign (l : loc) (df : DataFrame) : Heap unit := λ σ,
  (<[l := df]> σ, Ok ()).

(** [df.copy()]. *)
Definition copy (l : loc) : Heap loc :=
  df ← deref l; alloc df.

End Store.

(** ** GreenGuardRawLoader *)

Section GreenGuardRawLoader.

(** The files the loader reads. *)
Variable fs : FileSystem.

(** [pd.to_datetime] on a text, [pd.to_datetime] with the format
    ['%m/%d/%y %H:%M:%S'] on a text, and [pd.to_timedelta] on a text;
    [None] when pandas raises. *)
Variable to_datetime_text : string → option Z.
Variable strptime : string → option Z.
Variable to_timedelta : string → option Z.

(** [self._readings_path]. *)
Variable _readings_path : string.

(** [pd.to_datetime(cell)]. *)
Definition to_datetime (c : cell) : result cell :=
  match c with
  | NA => Ok NA
  | Stamp t => Ok (Stamp t)
  | Text s => Stamp <$> from_option bad_time_data (to_datetime_text s)
  end.

(** [pd.to_datetime(cell, format='%m/%d/%y %H:%M:%S')]. *)
Definition to_datetime_format (c : cell) : result (option Z) :=
  match c with
  | NA => Ok None
  | Stamp t => Ok (Some t)
  | Text s => Some <$> from_option bad_time_data (strptime s)
  end.

(** Lines 144-150.  The method is a generator: its body runs when the
    caller starts to iterate, and the result is the list of the names
    it yields, or the exception the body raises before the first of
    them.  The two series hold one encoded name per window; [.dt] fails
    on the column [start] of a call without lookback, which holds
    [datetime.min] objects.  A file name is yielded when some window has
    its encoded start below the name and its encoded end above it.  (A
    table of windows with no row never reaches the method, line 194
    raises on it first; its columns are taken for datetime64 columns.) *)
Definition _filter_by_filename (X : list TimeWindow) (filenames : list string) : result (list string) :=
  max_csv ← dt_strftime (end_ <$> X);
  min_csv ← dt_strftime (start <$> X);
  mret (filter (λ filename,
                  any (zip_with andb ((λ lo, name_le lo (Some filename)) <$> min_csv)
                                     ((λ hi, name_le (Some filename) hi) <$> max_csv)))
               filenames).

(** Lines 152-165. *)
Definition _load_readings_file (turbine_file : string) : result DataFrame :=
  data ← read_csv fs turbine_file;
  let data := {| columns := lower <$> columns data; rows := rows data |} in
  let data := Frame.rename "signal" "signal_id" data in
  if decide ("unnamed: 0" ∈ columns data) then Frame.delitem data "unnamed: 0"
  else mret data.

(** Lines 167-174. *)
Definition _filter_by_signal (data : DataFrame) (signals : option DataFrame) : result DataFrame :=
  match signals with
  | Some signals =>
      ids ← Frame.getattr data "signal_id";
      wanted ← Frame.getattr signals "signal_id";
      mret (Frame.mask data ((λ c, bool_decide (c ∈ wanted)) <$> ids))
  | None => mret data
  end.

(** One turn of the loop of lines 184-185:
    [related |= (row.start <= timestamps) & (timestamps <= row.end)]. *)
Definition related_step (timestamps : list (option Z)) (related : list bool) (w : TimeWindow) : list bool :=
  zip_with orb related
           ((λ t, time_le (start w) t && time_le t (end_ w)) <$> timestamps).

(** Lines 176-191.  With no window and no row, [related] is still the
    empty Python list and [data[[]]] selects no column. *)
Definition _filter_by_timestamp (data : DataFrame) (X : list TimeWindow) : result DataFrame :=
  column ← Frame.getitem data "timestamp";
  timestamps ← mapM to_datetime_format column;
  let data := Frame.setitem data "timestamp" (time_cell <$> timestamps) in
  let related := foldl (related_step timestamps)
                       (replicate (length timestamps) false) X in
  match X, timestamps with
  | [], [] => mret (Frame.empty [])
  | _, _ => mret (Frame.mask data related)
  end.

(** Lines 201-207, the body of the loop over the selected files. *)
Definition load_file (turbine_path : string) (X : list TimeWindow) (signals : option DataFrame) (readings_file : string) : result DataFrame :=
  let readings_file_path := path_join turbine_path readings_file in
  data ← _load_readings_file readings_file_path;
  data ← _filter_by_signal data signals;
  _filter_by_timestamp data X.

(** Lines 193-216. *)
Definition _load_turbine_readings (X : list TimeWindow) (signals : option DataFrame) : result DataFrame :=
  first ← from_option IndexError (head X);
  turbine_id ← cell_text (turbine_id first);
  let turbine_path := path_join _readings_path turbine_id in
  names ← listdir fs turbine_path;
  let filenames := sorted names in
  filenames ← _filter_by_filename X filenames;
  readings ← mapM (load_file turbine_path X signals) filenames;
  match readings with
  | [] => mret (Frame.empty canonical_columns)
  | _ => Frame.concat readings
  end.

(** [cutoff_times - window_size] on one time: NaT stays NaT, and the
    subtraction is made on 64-bit integers; pandas raises
    [OverflowError] when the difference does not fit, and a difference
    that is the least 64-bit integer is the code of NaT. *)
Definition minus_timedelta (window_size : Z) (cutoff : option Z) : result (option Z) :=
  match cutoff with
  | None => Ok None
  | Some t =>
      let difference := t - window_size in
      if decide (Calendar.in_bounds difference) then Ok (Some difference)
      else if decide (difference = Calendar.timestamp_min - 1) then Ok None
      else Raise OverflowError
  end.

(** Lines 218-230.  [if window_size:] is false for [None] and for the
    empty text; the column [start] then holds [datetime.min] objects, a
    time that no datetime64 column holds.  The cutoff times are those
    [load] has converted: a cell that still holds a text makes the call
    fail. *)
Definition _get_times (X : DataFrame) (window_size : option string) : result (list TimeWindow) :=
  cells ← Frame.getattr X "cutoff_time";
  min_times ←
    match window_size with
    | Some (String c s) =>
        window_size ← from_option bad_timedelta (to_timedelta (String c s));
        cutoff_times ← mapM cell_time cells;
        mapM (minus_timedelta window_size) cutoff_times
    | _ => mret (replicate (length cells) (Some Calendar.datetime_min))
    end;
  ids ← Frame.getattr X "turbine_id";
  cutoff_times ← mapM cell_time cells;
  mret (zip_with (λ '(i, id) '(lo, hi),
                    {| w_index := i; turbine_id := id; start := lo; end_ := hi |})
                 (zip (Frame.index X) ids) (zip min_times cutoff_times)).

(** Lines 239-243, the body of the loop over the turbines. *)
Definition load_turbine (X : list TimeWindow) (signals : option DataFrame) (turbine_id : string) : result DataFrame :=
  let turbine_X := filter (has_turbine_id (Text turbine_id)) X in
  turbine_readings ← _load_turbine_readings turbine_X signals;
  mret (Frame.setitem_scalar turbine_readings "turbine_id" (Text turbine_id)).

(** Lines 232-245.  [sorted] compares the ids as texts, and an id that
    is not a text makes the call fail (it cannot be joined to the path
    of the readings). *)
Definition _load_readings (X : DataFrame) (signals : option DataFrame) (window_size : option string) : result DataFrame :=
  ids ← Frame.getattr X "turbine_id";
  let turbine_ids := Frame.unique [] ids in
  X ← _get_times X window_size;
  turbine_ids ← mapM cell_text turbine_ids;
  readings ← mapM (load_turbine X signals) (sorted turbine_ids);
  Frame.concat readings.

(** Lines 280-282: the rows of [X] paired with their
    [(cutoff_time, turbine_id)] key, and the check. *)
Definition check_duplicates (X : DataFrame) : result unit :=
  cutoffs ← Frame.getitem X "cutoff_time";
  ids ← Frame.getitem X "turbine_id";
  let without_duplicates := Frame.drop_duplicates [] (zip (zip cutoffs ids) (rows X)) in
  if decide (length (rows X) ≠ length without_duplicates) then Raise duplicate_rows
  else mret ().

(** Lines 284-287. *)
Definition normalize_signals (signals : signals_arg) : result (option DataFrame) :=
  match signals with
  | SignalsNone => mret None
  | SignalsList names => mret (Some (Frame.of_column "signal_id" names))
  | SignalsPath path => Some <$> read_csv fs path
  | SignalsFrame df => mret (Some df)
  end.

(** Lines 247-297.  The result holds the reference to [X], the target
    column when it is split off, and the readings. *)
Definition load (target_times : target_times_arg) (signals : signals_arg) (window_size : option string) (return_target : bool) : Heap (loc * option (list cell) * DataFrame) :=
  X ← match target_times with
      | TargetFrame l => Store.copy l
      | TargetPath path => df ← Store.lift (read_csv fs path); Store.alloc df
      end;
  df ← Store.deref X;
  cells ← Store.lift (Frame.getitem df "cutoff_time");
  cutoff_time ← Store.lift (mapM to_datetime cells);
  Store.assign X (Frame.setitem df "cutoff_time" cutoff_time);;
  df ← Store.deref X;
  Store.lift (check_duplicates df);;
  signals ← Store.lift (normalize_signals signals);
  readings ← Store.lift (_load_readings df signals window_size);
  if return_target then
    df ← Store.deref X;
    '(y, df) ← Store.lift (Frame.pop df "target");
    Store.assign X df;;
    mret (X, Some y, readings)
  else
    mret (X, None, readings).

End GreenGuardRawLoader.

(** ** Readers for the scenarios

    Instances of the three readers of pandas for the scenarios and the
    examples, on ASCII texts: ["YYYY-MM-DD HH:MM:SS"] for cutoff times,
    the format ['%m/%d/%y %H:%M:%S'] for the timestamps of the logs and
    ["<n>d"] for a number of days.  On a text they read they give the
    time pandas gives; pandas reads more texts (other layouts of a date,
    other units of a duration, digits and blanks that are not ASCII),
    and no scenario holds one.  The statements are made for any
    readers. *)

Module Readers.

Definition digit_value (c : ascii) : option Z :=
  let n := N_of_ascii c in
  if decide (48 ≤ n ≤ 57)%N then Some (Z.of_N n - 48) else None.

Fixpoint number_from (acc : Z) (s : string) : option Z :=
  match s with
  | EmptyString => Some acc
  | String c s' => d ← digit_value c; number_from (10 * acc + d) s'
  end.

Definition number (s : string) : option Z :=
  match s with
  | EmptyString => None
  | _ => number_from 0 s
  end.

Definition field (from len : nat) (s : string) : option Z :=
  number (String.substring from len s).

Definition separator (at_ : nat) (c : ascii) (s : string) : option unit :=
  match String.get at_ s with
  | Some c' => if decide (c' = c) then Some () else None
  | None => None
  end.

Definition leap (y : Z) : bool :=
  bool_decide (y `mod` 4 = 0) && (bool_decide (y `mod` 100 ≠ 0) || bool_decide (y `mod` 400 = 0)).

Definition days_in_month (y m : Z) : Z :=
  if decide (m = 2) then (if leap y then 29 else 28)
  else if decide (m = 4 ∨ m = 6 ∨ m = 9 ∨ m = 11) then 30 else 31.

Definition civil (y m d hh mm ss : Z) : option Z :=
  if decide (1 ≤ m ≤ 12 ∧ 1 ≤ d ≤ days_in_month y m ∧ hh < 24 ∧ mm < 60 ∧ ss < 60)
  then Some (Calendar.timestamp y m d hh mm ss) else None.

Definition iso_datetime (s : string) : option Z :=
  if decide (String.length s = 19%nat) then
    y ← field 0 4 s; separator 4 "-" s;;
    m ← field 5 2 s; separator 7 "-" s;;
    d ← field 8 2 s; separator 10 " " s;;
    hh ← field 11 2 s; separator 13 ":" s;;
    mm ← field 14 2 s; separator 16 ":" s;;
    ss ← field 17 2 s;
    civil y m d hh mm ss
  else None.

(** [%y]: 69-99 are the years 1969-1999, 00-68 the years 2000-2068. *)
Definition century (yy : Z) : Z := if decide (69 ≤ yy) then 1900 + yy else 2000 + yy.

(** The text before the first [c] and the text after it. *)
Fixpoint split_at (c : ascii) (s : string) : option (string * string) :=
  match s with
  | EmptyString => None
  | String c' s' =>
      if decide (c' = c) then Some (EmptyString, s')
      else '(before, after) ← split_at c s'; Some (String c' before, after)
  end.

(** A field of one or two digits. *)
Definition short_number (s : string) : option Z :=
  if decide (String.length s ≤ 2)%nat then number s else None.

(** [%d] also reads a blank and one digit. *)
Definition day_number (s : string) : option Z :=
  match s with
  | String " " (String c EmptyString) => digit_value c
  | _ => short_number s
  end.

Definition blank (c : ascii) : bool :=
  let n := N_of_ascii c in bool_decide (9 ≤ n ≤ 13 ∨ 28 ≤ n ≤ 32)%N.

Fixpoint skip_blanks (s : string) : string :=
  match s with
  | EmptyString => EmptyString
  | String c s' => if blank c then skip_blanks s' else s
  end.

(** The format ['%m/%d/%y %H:%M:%S']: fields of one or two digits, a
    year of two, and one blank or more between the date and the time. *)
Definition log_datetime (s : string) : option Z :=
  '(month, s) ← split_at "/" s; m ← short_number month;
  '(day, s) ← split_at "/" s; d ← day_number day;
  yy ← field 0 2 s;
  if decide (String.length s < 2)%nat then None else
  match String.substring 2 (String.length s - 2) s with
  | String c s =>
      if blank c then
        '(hour, s) ← split_at ":" (skip_blanks s); hh ← short_number hour;
        '(minute, second) ← split_at ":" s; mm ← short_number minute;
        ss ← short_number second;
        civil (century yy) m d hh mm ss
      else None
  | EmptyString => None
  end.

Definition unsigned_days (s : string) : option Z :=
  match String.rev s with
  | String "d" digits => Calendar.days <$> number (String.rev digits)
  | _ => None
  end.

(** ["<n>d"] and ["-<n>d"]. *)
Definition day_timedelta (s : string) : option Z :=
  match s with
  | String "-" s' => Z.opp <$> unsigned_days s'
  | _ => unsigned_days s
  end.

End Readers.

(** ** The scenario of one turbine and one monthly log *)

Module Scenario.

Definition log : CsvFile :=
  {| header := ["timestamp"; "signal"; "value"];
     records := [[Some "02/10/20 00:00:00"; Some "S1"; Some "3.2"];
                 [Some "01/01/20 00:00:00"; Some "S1"; Some "9.9"]] |}.

(** The turbine folder holds one log under [name]. *)
Definition disk (name : string) : FileSystem :=
  {| directories := {[ "T1" := [name] ]};
     csv_files := {[ "T1/" +:+ name := log ]} |}.

Definition target_times : DataFrame :=
  {| columns := ["turbine_id"; "cutoff_time"];
     rows := [(0, [Text "T1"; Text "2020-02-15 00:00:00"])] |}.

Definition caller : loc := 1%positive.

Definition heap : gmap loc DataFrame := {[ caller := target_times ]}.

Definition run (name : string) :=
  load (disk name) Readers.iso_datetime Readers.log_datetime Readers.day_timedelta ""
       (TargetFrame caller) SignalsNone (Some "30d") false heap.

(** The window of the target event: thirty days up to the cutoff. *)
Definition window : TimeWindow :=
  {| w_index := 0; turbine_id := Text "T1";
     start := Some (Calendar.timestamp 2020 1 16 0 0 0);
     end_ := Some (Calendar.timestamp 2020 2 15 0 0 0) |}.

(** The window of a second event of the turbine, five days later. *)
Definition later_window : TimeWindow :=
  {| w_index := 1; turbine_id := Text "T1";
     start := Some (Calendar.timestamp 2020 1 21 0 0 0);
     end_ := Some (Calendar.timestamp 2020 2 20 0 0 0) |}.

(** A window of early February: it selects the log of the month and
    holds none of its rows. *)
Definition early_window : TimeWindow :=
  {| w_index := 0; turbine_id := Text "T1";
     start := Some (Calendar.timestamp 2020 2 4 0 0 0);
     end_ := Some (Calendar.timestamp 2020 2 5 0 0 0) |}.

(** The log as [_load_readings_file] returns it. *)
Definition data : DataFrame :=
  {| columns := ["timestamp"; "signal_id"; "value"];
     rows := [(0, [Text "02/10/20 00:00:00"; Text "S1"; Text "3.2"]);
              (1, [Text "01/01/20 00:00:00"; Text "S1"; Text "9.9"])] |}.

(** Readings at the two ends of [window]. *)
Definition boundary_data : DataFrame :=
  {| columns := ["timestamp"; "signal_id"; "value"];
     rows := [(0, [Text "01/16/20 00:00:00"; Text "S1"; Text "1.0"]);
              (1, [Text "02/15/20 00:00:00"; Text "S1"; Text "2.0"])] |}.

End Scenario.

(** Two target events of one turbine, in January and in May 2020, and
    their windows for a lookback of ten days: no window holds February,
    March or April. *)

Module Gap.

Definition target_times : DataFrame :=
  {| columns := ["turbine_id"; "cutoff_time"];
     rows := [(0, [Text "T1"; Stamp (Calendar.timestamp 2020 1 20 0 0 0)]);
              (1, [Text "T1"; Stamp (Calendar.timestamp 2020 5 20 0 0 0)])] |}.

Definition windows : list TimeWindow :=
  [ {| w_index := 0; turbine_id := Text "T1";
       start := Some (Calendar.timestamp 2020 1 10 0 0 0);
       end_ := Some (Calendar.timestamp 2020 1 20 0 0 0) |};
    {| w_index := 1; turbine_id := Text "T1";
       start := Some (Calendar.timestamp 2020 5 10 0 0 0);
       end_ := Some (Calendar.timestamp 2020 5 20 0 0 0) |} ].

End Gap.

(** A turbine whose folder holds no log, and the window of the target
    event of the scenario when the call is given no lookback. *)

Module Bare.

Definition disk : FileSystem :=
  {| directories := {[ "T1" := [] ]}; csv_files := ∅ |}.

Definition open_window : TimeWindow :=
  {| w_index := 0; turbine_id := Text "T1";
     start := Some Calendar.datetime_min;
     end_ := Some (Calendar.timestamp 2020 2 15 0 0 0) |}.

End Bare.

(** A target event ten days after the least timestamp,
    1677-09-21 00:12:43.145224193. *)

Module Early.

Definition target_times : DataFrame :=
  {| columns := ["turbine_id"; "cutoff_time"];
     rows := [(0, [Text "T1"; Stamp (Calendar.timestamp 1677 10 1 0 0 0)])] |}.

End Early.

(** Two turbines, listed in the target events in the order T2, T1, each
    with one monthly log. *)

Module Fleet.

Definition log (value : string) : CsvFile :=
  {| header := ["timestamp"; "signal"; "value"];
     records := [[Some "02/10/20 00:00:00"; Some "S1"; Some value]] |}.

Definition disk : FileSystem :=
  {| directories := {[ "T1" := ["2020-02-.csv"]; "T2" := ["2020-02-.csv"] ]};
     csv_files := {[ "T1/2020-02-.csv" := log "1.5"; "T2/2020-02-.csv" := log "2.5" ]} |}.

Definition target_times : DataFrame :=
  {| columns := ["turbine_id"; "cutoff_time"; "target"];
     rows := [(0, [Text "T2"; Stamp (Calendar.timestamp 2020 2 15 0 0 0); Text "1"]);
              (1, [Text "T1"; Stamp (Calendar.timestamp 2020 2 15 0 0 0); Text "0"])] |}.

Definition windows : list TimeWindow :=
  [ {| w_index := 0; turbine_id := Text "T2";
       start := Some (Calendar.timestamp 2020 1 16 0 0 0);
       end_ := Some (Calendar.timestamp 2020 2 15 0 0 0) |};
    {| w_index := 1; turbine_id := Text "T1";
       start := Some (Calendar.timestamp 2020 1 16 0 0 0);
       end_ := Some (Calendar.timestamp 2020 2 15 0 0 0) |} ].

Definition reading (turbine value : string) : DataFrame :=
  {| columns := canonical_columns;
     rows := [(0, [Stamp (Calendar.timestamp 2020 2 10 0 0 0); Text "S1";
                   Text value; Text turbine])] |}.

Definition caller : loc := 1%positive.

Definition heap : gmap loc DataFrame := {[ caller := target_times ]}.

End Fleet.

(** ** Notions of the statements *)

(** The time [t] falls within the interval of the window, both ends
    included. *)
Definition inside (w : TimeWindow) (t : option Z) : Prop :=
  ∃ s e τ, start w = Some s ∧ end_ w = Some e ∧ t = Some τ ∧ s ≤ τ ≤ e.

(** The window has both its times, and its start is not after its end. *)
Definition ordered (w : TimeWindow) : Prop :=
  ∃ s e, start w = Some s ∧ end_ w = Some e ∧ s ≤ e.

(** The file name lies between the encoded start and the encoded end of
    the window. *)
Definition covers (w : TimeWindow) (filename : string) : Prop :=
  ∃ s e, start w = Some s ∧ end_ w = Some e ∧
         str_le (Calendar.strftime_Ym_csv s) filename ∧
         str_le filename (Calendar.strftime_Ym_csv e).

(** The windows of a call with a lookback: their two columns of times
    are datetime64 columns. *)
Definition timestamped (X : list TimeWindow) : Prop :=
  datetimelike (end_ <$> X) ∧ datetimelike (start <$> X).

#[global] Instance timestamped_dec X : Decision (timestamped X).
Proof. unfold timestamped. apply _. Defined.

(** The names among [filenames] that some window covers, in the order
    of [filenames]. *)
Definition selection (X : list TimeWindow) (filenames : list string) : list string :=
  filter (λ filename,
            any (zip_with andb
                   ((λ lo, name_le lo (Some filename)) <$>
                      ((λ w, Calendar.strftime_Ym_csv <$> start w) <$> X))
                   ((λ hi, name_le (Some filename) hi) <$>
                      ((λ w, Calendar.strftime_Ym_csv <$> end_ w) <$> X))))
         filenames.

Definition str_lt (a b : string) : Prop := str_le a b ∧ a ≠ b.

Definition name_min (a b : string) : string := if String.leb a b then a else b.
Definition name_max (a b : string) : string := if String.leb a b then b else a.

Definition least (names : list string) : option string :=
  match names with
  | [] => None
  | x :: names' => Some (foldr name_min x names')
  end.

Definition greatest (names : list string) : option string :=
  match names with
  | [] => None
  | x :: names' => Some (foldr name_max x names')
  end.

(** The single interval of the specification: from the least encoded
    start to the greatest encoded end of the windows. *)
Definition within_hull (X : list TimeWindow) (filename : string) : bool :=
  name_le (least (omap (λ w, Calendar.strftime_Ym_csv <$> start w) X)) (Some filename)
  && name_le (Some filename) (greatest (omap (λ w, Calendar.strftime_Ym_csv <$> end_ w) X)).

Definition succeeds {A} (r : result A) : Prop := ∃ a, r = Ok a.

(** The columns of the table read from a log with the given header:
    lower case, [signal] renamed, the leftover index column dropped. *)
Definition log_columns (header : list string) : list string :=
  let cols := (λ c, if decide (c = "signal") then "signal_id" else c) <$> (lower <$> header) in
  match Frame.position "unnamed: 0" cols with
  | Some i => delete i cols
  | None => cols
  end.

(** The columns of a raw log as the loader documents them. *)
Definition reading_columns : list string := ["timestamp"; "signal_id"; "value"].

(** A file that pandas reads with the names of its header and the row
    labels 0, 1, ...: ASCII names that stay distinct in lower case, and
    no record longer than the header. *)
Definition plain (file : CsvFile) : Prop :=
  Forall ascii_text (header file)
  ∧ NoDup (lower <$> header file)
  ∧ Forall (λ r, (length r ≤ length (header file))%nat) (records file).

#[global] Instance plain_dec file : Decision (plain file).
Proof. unfold plain. apply _. Defined.

(** The table the target events come from. *)
Definition resolves (fs : FileSystem) (σ : gmap loc DataFrame) (target_times : target_times_arg) (df : DataFrame) : Prop :=
  match target_times with
  | TargetFrame l => σ !! l = Some df
  | TargetPath path => read_csv fs path = Ok df
  end.

(** The pair of a row whose cutoff time is at position [i] and whose
    turbine is at position [j]. *)
Definition pair_of (to_datetime_text : string → option Z) (i j : nat) (r : row) : cell * cell :=
  (match to_datetime to_datetime_text (Frame.at_position i r.2) with
   | Ok c => c
   | Raise _ => NA
   end,
   Frame.at_position j r.2).

(** The lookback duration a call is given: none for [None] and for the
    empty text, the reading of the text otherwise. *)
Definition lookback (to_timedelta : string → option Z) (window_size : option string) : result (option Z) :=
  match window_size with
  | Some (String c s) => Some <$> from_option bad_timedelta (to_timedelta (String c s))
  | _ => Ok None
  end.


(** The [(cutoff_time, turbine_id)] pairs of a table of target events
    once its cutoff times are converted. *)
Definition event_pairs (to_datetime_text : string → option Z) (df : DataFrame) : result (list (cell * cell)) :=
  cells ← Frame.getitem df "cutoff_time";
  cutoffs ← mapM (to_datetime to_datetime_text) cells;
  ids ← Frame.getitem df "turbine_id";
  mret (zip cutoffs ids).

(** ** Further notions *)

(** [datetime.max] to the second, 9999-12-31 23:59:59. *)
Definition datetime_max : Z := Calendar.timestamp 9999 12 31 23 59 59.

(** Months since the year 0 of the month a timestamp falls in. *)
Definition month_number (t : Z) : Z :=
  let '(y, m) := Calendar.year_month t in 12 * y + m.

(** A log with readings of two signals; the timestamp of the reading of
    S2 is not in the format of the logs. *)

Module Mixed.

Definition data : DataFrame :=
  {| columns := ["timestamp"; "signal_id"; "value"];
     rows := [(0, [Text "02/10/20 00:00:00"; Text "S1"; Text "3.2"]);
              (1, [Text "2020-02-11"; Text "S2"; Text "1.0"]);
              (2, [Text "02/12/20 00:00:00"; Text "S1"; Text "4.0"])] |}.

Definition signals : DataFrame := Frame.of_column "signal_id" [Text "S1"].

End Mixed.

(** The folder of T1 with a second log, of July 2019, that cannot be
    parsed: its third record is longer than its header and than the
    records before it. *)

Module Cluttered.

Definition broken : CsvFile :=
  {| header := ["timestamp"; "signal"; "value"];
     records := [[Some "07/01/19 00:00:00"; Some "S1"; Some "1.0"];
                 [Some "07/02/19 00:00:00"; Some "S1"; Some "1.1"];
                 [Some "07/03/19 00:00:00"; Some "S1"; Some "1.2"; Some "?"]] |}.

Definition disk : FileSystem :=
  {| directories := {[ "T1" := ["2020-02-.csv"; "2019-07-.csv"] ]};
     csv_files := {[ "T1/2020-02-.csv" := Scenario.log; "T1/2019-07-.csv" := broken ]} |}.

(** The same folder where the second name leads to no file. *)
Definition dangling : FileSystem :=
  {| directories := {[ "T1" := ["2020-02-.csv"; "2019-07-.csv"] ]};
     csv_files := {[ "T1/2020-02-.csv" := Scenario.log ]} |}.

(** A window of the summer of 2019 up to February 2020: both logs are
    selected. *)
Definition long_window : TimeWindow :=
  {| w_index := 0; turbine_id := Text "T1";
     start := Some (Calendar.timestamp 2019 6 1 0 0 0);
     end_ := Some (Calendar.timestamp 2020 2 15 0 0 0) |}.

End Cluttered.

(** The log of the scenario as a table saved with its index: a first
    column without a name, which pandas reads as [Unnamed: 0]. *)

Module Indexed.

Definition log : CsvFile :=
  {| header := "Unnamed: 0" :: header Scenario.log;
     records := zip_with cons [Some "0"; Some "1"] (records Scenario.log) |}.

Definition disk : FileSystem :=
  {| directories := {[ "T1" := ["2020-02-.csv"] ]};
     csv_files := {[ "T1/2020-02-.csv" := log ]} |}.

End Indexed.

(** ** GreenGuardLoader *)

(** [sub in s] on strings. *)
Fixpoint contains (sub s : string) : bool :=
  String.prefix sub s
  || match s with
     | EmptyString => false
     | String _ s' => contains sub s'
     end.

(** The truth value of an optional text in a condition: [None] and the
    empty text are false. *)
Definition truthy (o : option string) : option string :=
  match o with
  | Some (String c s) => Some (String c s)
  | _ => None
  end.

(** A [dict] with text keys, in the order of insertion. *)
Abbreviation dict A := (list (string * A)).

Fixpoint dict_setitem {A} (d : dict A) (key : string) (value : A) : dict A :=
  match d with
  | [] => [(key, value)]
  | (k, v) :: d' => if decide (k = key) then (key, value) :: d'
                    else (k, v) :: dict_setitem d' key value
  end.

Fixpoint dict_getitem {A} (d : dict A) (key : string) : result A :=
  match d with
  | [] => Raise (KeyError key)
  | (k, v) :: d' => if decide (k = key) then Ok v else dict_getitem d' key
  end.

Module GreenGuardLoader.

(** The attributes set by [__init__], lines 40-46. *)
Record t := {
  _dataset_path : string;
  _target_times : string;
  _target_column : string;
  _readings : string;
  _turbines : option string;
  _signals : option string;
  _gzip : bool;
}.

(** Lines 37-46.  A keyword parameter that the call does not give is
    [None] here and takes its default. *)
Definition __init__ (dataset_path : string) (target_times target_column readings turbines signals : option string) (gzip : option bool) : t :=
  {| _dataset_path := dataset_path;
     _target_times := default "target_times" target_times;
     _target_column := default "target" target_column;
     _readings := default "readings" readings;
     _turbines := turbines;
     _signals := signals;
     _gzip := default false gzip |}.

(** Lines 54-57: the name of the file of a table. *)
Definition table_file (self : t) (table : string) : string :=
  if contains ".csv" table then table
  else
    let table := table +:+ ".csv" in
    if _gzip self then table +:+ ".gz" else table.

Section Methods.

(** [pd.read_csv(path, parse_dates=..., infer_datetime_format=True)];
    the second argument is the column of [parse_dates], [None] for
    [False]. *)
Variable pd_read_csv : string → option string → result DataFrame.

(** Lines 48-61. *)
Definition _read_csv (self : t) (table : string) (timestamp : option string) : result DataFrame :=
  let parse_dates := truthy timestamp in
  let table := table_file self table in
  let path := path_join (_dataset_path self) table in
  pd_read_csv path parse_dates.

(** Lines 63-97. *)
Definition load (self : t) (return_target : bool) : result (DataFrame * option (list cell) * dict DataFrame) :=
  readings ← _read_csv self (_readings self) (Some "timestamp");
  let tables := [("readings", readings)] in
  tables ← match truthy (_signals self) with
           | Some signals =>
               signals ← _read_csv self signals None;
               mret (dict_setitem tables "signals" signals)
           | None => mret tables
           end;
  tables ← match truthy (_turbines self) with
           | Some turbines =>
               turbines ← _read_csv self turbines None;
               mret (dict_setitem tables "turbines" turbines)
           | None => mret tables
           end;
  X ← _read_csv self (_target_times self) (Some "cutoff_time");
  if return_target then
    '(y, X) ← Frame.pop X (_target_column self);
    mret (X, Some y, tables)
  else
    mret (X, None, tables).

(** A call of [load] with keyword arguments: the only keyword the
    signature [load(self, return_target=True)] accepts is
    [return_target]. *)
Definition call_load (self : t) (kwargs : dict bool) : result (DataFrame * option (list cell) * dict DataFrame) :=
  return_target ←
    match kwargs with
    | [] => mret true
    | [(name, value)] =>
        if decide (name = "return_target") then mret value else Raise TypeError
    | _ => Raise TypeError
    end;
  load self return_target.

End Methods.

End GreenGuardLoader.

(** ** load_demo *)

(** Computations on a disk. *)
Definition OS (Disk A : Type) : Type := Disk → Disk * result A.

#[global] Instance OS_ret {Disk} : MRet (OS Disk) | 100 := λ A a d, (d, Ok a).
#[global] Instance OS_bind {Disk} : MBind (OS Disk) | 100 := λ A B f m d,
  match m d with
  | (d', Ok a) => f a d'
  | (d', Raise e) => (d', Raise e)
  end.

Module Os.

(** A computation that only looks at the disk. *)
Definition read {Disk A} (f : Disk → result A) : OS Disk A := λ d, (d, f d).

Definition lift {Disk A} (r : result A) : OS Disk A := λ d, (d, r).

(** [try: body / except Exception: handler]. *)
Definition try_except {Disk A} (body : OS Disk A) (handler : exn → OS Disk A) : OS Disk A := λ d,
  match body d with
  | (d', Ok a) => (d', Ok a)
  | (d', Raise e) => handler e d'
  end.

(** [for x in l: body(x)]. *)
Fixpoint for_each {Disk A} (l : list A) (body : A → OS Disk unit) : OS Disk unit :=
  match l with
  | [] => mret ()
  | x :: l' => body x;; for_each l' body
  end.

End Os.

(** [X, y, tables = ...] and [X, tables = ...] on what [load] returns, a
    tuple of three or of two. *)
Definition unpack3 {A B C} (r : A * option B * C) : result (A * B * C) :=
  match r with
  | (a, Some b, c) => Ok (a, b, c)
  | (_, None, _) => Raise (ValueError "not enough values to unpack (expected 3, got 2)")
  end.

Definition unpack2 {A B C} (r : A * option B * C) : result (A * C) :=
  match r with
  | (a, None, c) => Ok (a, c)
  | (_, Some _, _) => Raise (ValueError "too many values to unpack (expected 2)")
  end.

Section load_demo.

(** The disk and the network, and the calls the function makes on them:
    [os.path.exists], [os.mkdir], [shutil.rmtree], [DataFrame.to_csv]
    with [index=False], and [pd.read_csv], which looks and does not
    write. *)
Variable Disk : Type.
Variable exists_ : Disk → string → bool.
Variable mkdir : string → OS Disk unit.
Variable rmtree : string → OS Disk unit.
Variable to_csv : DataFrame → string → OS Disk unit.
Variable pd_read_csv : Disk → string → option string → result DataFrame.

(** The folder of the module, [os.path.dirname(os.path.abspath(__file__))]. *)
Variable module_path : string.

(** Lines 300-326. *)
Definition load_demo : OS Disk (DataFrame * list cell * DataFrame) := λ d,
  let demo_path := path_join module_path "demo" in
  if exists_ d demo_path then
    (let loader := GreenGuardLoader.__init__ demo_path None None None None None (Some true) in
     r ← Os.read (λ d, GreenGuardLoader.call_load (pd_read_csv d) loader []);
     '(X, y, tables) ← Os.lift (unpack3 r);
     readings ← Os.lift (dict_getitem tables "readings");
     mret (X, y, readings)) d
  else
    (mkdir demo_path;;
     Os.try_except
       (let loader := GreenGuardLoader.__init__ "https://d3-ai-greenguard.s3.amazonaws.com/"
                        None None None None None (Some true) in
        r ← Os.read (λ d, GreenGuardLoader.call_load (pd_read_csv d) loader [("target", false)]);
        '(X, tables) ← Os.lift (unpack2 r);
        to_csv X (path_join demo_path "targets.csv.gz");;
        Os.for_each tables (λ '(name, table),
          to_csv table (path_join demo_path (name +:+ ".csv.gz")));;
        '(y, X) ← Os.lift (Frame.pop X "target");
        readings ← Os.lift (dict_getitem tables "readings");
        mret (X, y, readings))
       (λ e, rmtree demo_path;; Os.lift (Raise e))) d.

End load_demo.

(** A disk for the examples: folders and CSV files, with instances of
    [DataFrame.to_csv(path, index=False)] and of [pd.read_csv] with
    [parse_dates] for tables of texts and of times. *)

Module Cache.

Record Disk := {
  folders : list string;
  files : gmap string CsvFile;
}.

Definition exists_ (d : Disk) (path : string) : bool :=
  bool_decide (path ∈ folders d) || bool_decide (is_Some (files d !! path)).

Definition mkdir (path : string) : OS Disk unit := λ d,
  ({| folders := path :: folders d; files := files d |}, Ok ()).

Definition rmtree (path : string) : OS Disk unit := λ d,
  ({| folders := filter (λ p, p ≠ path) (folders d);
      files := filter (λ kv, String.prefix (path +:+ "/") kv.1 = false) (files d) |},
   Ok ()).

(** The date and the time of day of a timestamp, and its fraction of a
    second in [digits] digits. *)
Definition date_text (t : Z) : string :=
  let '(y, m, d) := Calendar.civil_from_days (t `div` Calendar.ns_per_day) in
  Calendar.zero_padded 4 y +:+ "-" +:+ Calendar.zero_padded 2 m +:+ "-"
  +:+ Calendar.zero_padded 2 d.

Definition time_text (t : Z) : string :=
  let s := (t `mod` Calendar.ns_per_day) `div` Calendar.ns_per_second in
  Calendar.zero_padded 2 (s `div` 3600) +:+ ":"
  +:+ Calendar.zero_padded 2 ((s `div` 60) `mod` 60) +:+ ":"
  +:+ Calendar.zero_padded 2 (s `mod` 60).

(** The digits of the fraction that the times need: none, three, six
    or nine. *)
Definition resolution (times : list Z) : nat :=
  if decide (Forall (λ t, t `mod` 1000000000 = 0) times) then 0%nat
  else if decide (Forall (λ t, t `mod` 1000000 = 0) times) then 3%nat
  else if decide (Forall (λ t, t `mod` 1000 = 0) times) then 6%nat
  else 9%nat.

Definition stamp_text (digits : nat) (t : Z) : string :=
  let whole := date_text t +:+ " " +:+ time_text t in
  match digits with
  | O => whole
  | _ => whole +:+ "."
         +:+ Calendar.zero_padded digits ((t `mod` 1000000000) `div` 10 ^ Z.of_nat (9 - digits))
  end.

Definition stamps (cells : list cell) : list Z :=
  omap (λ c, match c with Stamp t => Some t | _ => None end) cells.

(** The fields of a column.  A column of times is written as dates when
    every time is a midnight, and with the fraction its times need
    otherwise; a time in a column that also holds texts is written with
    the fraction of its own. *)
Definition column_fields (cells : list cell) : list (option string) :=
  let times := stamps cells in
  let datetimes := forallb (λ c, match c with Text _ => false | _ => true end) cells in
  let dates := bool_decide (Forall (λ t, t `mod` Calendar.ns_per_day = 0) times) in
  (λ c, match c with
        | NA => None
        | Text s => Some s
        | Stamp t =>
            Some (if datetimes
                  then (if dates then date_text t else stamp_text (resolution times) t)
                  else stamp_text (match resolution [t] with 3%nat => 6%nat | n => n end) t)
        end) <$> cells.

(** The rows of a table from its columns. *)
Fixpoint transpose {A} (n : nat) (columns : list (list A)) : list (list A) :=
  match columns with
  | [] => replicate n []
  | column :: columns' => zip_with cons column (transpose n columns')
  end.

Definition to_csv (df : DataFrame) (path : string) : OS Disk unit := λ d,
  let n := length (columns df) in
  let fields :=
    imap (λ i _, column_fields ((λ r : row, Frame.at_position i r.2) <$> rows df))
         (columns df) in
  ({| folders := folders d;
      files := <[path := {| header := columns df;
                            records := transpose (length (rows df)) fields |}]>
                 (files d) |},
   Ok ()).

(** The reader of dates: a date, a date and a time to the second, or
    with a fraction of one to nine digits. *)
Definition read_time (s : string) : option Z :=
  let n := String.length s in
  if decide (n = 10%nat) then Readers.iso_datetime (s +:+ " 00:00:00")
  else if decide (n ≤ 19)%nat then Readers.iso_datetime s
  else
    whole ← Readers.iso_datetime (String.substring 0 19 s);
    Readers.separator 19 "." s;;
    let digits := (n - 20)%nat in
    fraction ← Readers.number (String.substring 20 digits s);
    if decide (digits ≤ 9)%nat
    then Some (whole + fraction * 10 ^ Z.of_nat (9 - digits))
    else None.

(** [parse_dates=[name]]: a missing column is an error, and a column
    with a text that is no date is left as it is. *)
Definition pd_read_csv (d : Disk) (path : string) (parse_dates : option string) : result DataFrame :=
  data ← read_csv {| directories := ∅; csv_files := files d |} path;
  match parse_dates with
  | None => mret data
  | Some name =>
      cells ← Frame.column (ValueError "Missing column provided to 'parse_dates'") name data;
      match mapM (to_datetime read_time) cells with
      | Ok times => mret (Frame.setitem data name times)
      | Raise _ => mret data
      end
  end.

(** The disk before the first use, and a disk with the two tables the
    cached call reads. *)
Definition blank : Disk := {| folders := ["/greenguard"]; files := ∅ |}.

Definition readings : CsvFile :=
  {| header := canonical_columns;
     records := [[Some "2020-02-10"; Some "S1"; Some "1.5"; Some "T1"]] |}.

Definition target_times : CsvFile :=
  {| header := ["turbine_id"; "cutoff_time"; "target"];
     records := [[Some "T2"; Some "2020-02-15"; Some "1"];
                 [Some "T1"; Some "2020-02-15"; Some "0"]] |}.

Definition filled : Disk :=
  {| folders := ["/greenguard"; "/greenguard/demo"];
     files := {[ "/greenguard/demo/readings.csv.gz" := readings;
                 "/greenguard/demo/target_times.csv.gz" := target_times ]} |}.

End Cache.

(** ** Properties *)

(** *** The order on strings *)

Lemma ascii_compare_refl c : Ascii.compare c c = Eq.
Proof. unfold Ascii.compare. apply N.compare_refl. Qed.

Lemma ascii_compare_trans c1 c2 c3 o :
  Ascii.compare c1 c2 = o → Ascii.compare c2 c3 = o → Ascii.compare c1 c3 = o.
Proof.
  unfold Ascii.compare. destruct o; intros H1 H2.
  - apply N.compare_eq_iff in H1, H2. apply N.compare_eq_iff. congruence.
  - rewrite N.compare_lt_iff in *. lia.
  - rewrite N.compare_gt_iff in *. lia.
Qed.

Lemma string_compare_refl s : String.compare s s = Eq.
Proof. induction s as [|c s IH]; simpl; [done|]. by rewrite ascii_compare_refl. Qed.

Lemma string_compare_lt_trans s1 s2 s3 :
  String.compare s1 s2 = Lt → String.compare s2 s3 = Lt → String.compare s1 s3 = Lt.
Proof.
  revert s2 s3. induction s1 as [|c1 s1 IH]; intros [|c2 s2] [|c3 s3]; simpl; try done.
  destruct (Ascii.compare c1 c2) eqn:H12; try done;
    destruct (Ascii.compare c2 c3) eqn:H23; try done; intros H1 H2.
  - rewrite (ascii_compare_trans _ _ _ _ H12 H23). eauto.
  - apply Ascii.compare_eq_iff in H12 as ->. by rewrite H23.
  - apply Ascii.compare_eq_iff in H23 as <-. by rewrite H12.
  - by rewrite (ascii_compare_trans _ _ _ _ H12 H23).
Qed.

Lemma str_le_refl s : str_le s s.
Proof. unfold str_le, String.leb. by rewrite string_compare_refl. Qed.

Lemma str_le_trans s1 s2 s3 : str_le s1 s2 → str_le s2 s3 → str_le s1 s3.
Proof.
  unfold str_le, String.leb. intros H1 H2.
  destruct (String.compare s1 s2) eqn:H12; try done.
  - apply String.compare_eq_iff in H12 as ->. done.
  - destruct (String.compare s2 s3) eqn:H23; try done.
    + apply String.compare_eq_iff in H23 as <-. by rewrite H12.
    + by rewrite (string_compare_lt_trans _ _ _ H12 H23).
Qed.

Lemma str_le_total s1 s2 : str_le s1 s2 ∨ str_le s2 s1.
Proof. apply String.leb_total. Qed.

Lemma str_le_antisym s1 s2 : str_le s1 s2 → str_le s2 s1 → s1 = s2.
Proof. apply String.leb_antisym. Qed.

#[global] Instance str_le_transitive : Transitive str_le.
Proof. intros ???. apply str_le_trans. Qed.

#[global] Instance str_le_total_inst : Total str_le.
Proof. intros ??. apply str_le_total. Qed.

Lemma str_lt_trans s1 s2 s3 : str_lt s1 s2 → str_lt s2 s3 → str_lt s1 s3.
Proof.
  intros [H1 N1] [H2 N2]. split; [by eapply str_le_trans|].
  intros ->. apply N1. by apply str_le_antisym.
Qed.

#[global] Instance str_lt_transitive : Transitive str_lt.
Proof. intros ???. apply str_lt_trans. Qed.

(** *** Results *)

Lemma bind_Ok_inv {A B} (m : result A) (f : A → result B) b :
  m ≫= f = Ok b → ∃ a, m = Ok a ∧ f a = Ok b.
Proof. destruct m as [a|e]; simpl; [eauto|done]. Qed.

Lemma from_option_Ok {A} e (o : option A) a : from_option e o = Ok a ↔ o = Some a.
Proof. destruct o; simpl; split; congruence. Qed.

Lemma mapM_Ok_Forall2 {A B} (f : A → result B) l k :
  mapM f l = Ok k ↔ Forall2 (λ x y, f x = Ok y) l k.
Proof.
  revert k. induction l as [|x l IH]; intros k; simpl.
  - split; [intros [= <-]; constructor | by inversion 1].
  - split.
    + intros H. apply bind_Ok_inv in H as (y & Hy & H).
      apply bind_Ok_inv in H as (k' & Hk & H). injection H as <-.
      constructor; [done | by apply IH].
    + inversion 1 as [|?? k' ? Hy Hk]; subst.
      rewrite Hy. simpl. apply IH in Hk. rewrite Hk. done.
Qed.

Lemma mapM_Ok_length {A B} (f : A → result B) l k :
  mapM f l = Ok k → length k = length l.
Proof. rewrite mapM_Ok_Forall2. intros H. symmetry. by eapply Forall2_length. Qed.

(** *** Tables *)

Lemma position_Some name cols i :
  Frame.position name cols = Some i → cols !! i = Some name.
Proof.
  unfold Frame.position. intros H.
  destruct (list_find _ cols) as [[j c]|] eqn:Hf; simplify_eq/=.
  apply list_find_Some in Hf as (? & -> & _). done.
Qed.

Lemma position_None name cols :
  Frame.position name cols = None ↔ name ∉ cols.
Proof.
  unfold Frame.position. destruct (list_find _ cols) as [[j c]|] eqn:Hf; simpl.
  - apply list_find_Some in Hf as (Hj & -> & _).
    split; [done|]. intros []. by eapply list_elem_of_lookup_2.
  - split; [|done]. intros _ Hin.
    apply list_find_None in Hf. rewrite Forall_forall in Hf. by eapply Hf.
Qed.

Lemma position_is_Some name cols :
  name ∈ cols → is_Some (Frame.position name cols).
Proof.
  intros Hin. destruct (Frame.position name cols) eqn:H; [eauto|].
  by apply position_None in H.
Qed.

Lemma position_lt name cols i :
  Frame.position name cols = Some i → (i < length cols)%nat.
Proof. intros H%position_Some. by eapply lookup_lt_Some. Qed.

Lemma position_app_l name cols more i :
  Frame.position name cols = Some i → Frame.position name (cols ++ more) = Some i.
Proof.
  unfold Frame.position. intros H.
  destruct (list_find _ cols) as [[j c]|] eqn:Hf; simplify_eq/=.
  by erewrite list_find_app_l.
Qed.

Lemma position_app_new name cols :
  name ∉ cols → Frame.position name (cols ++ [name]) = Some (length cols).
Proof.
  intros Hnot%position_None. unfold Frame.position in *.
  destruct (list_find _ cols) as [[j c]|] eqn:Hf; simplify_eq/=.
  rewrite list_find_app_r by done. simpl.
  by rewrite decide_True.
Qed.

Lemma column_length e name df cells :
  Frame.column e name df = Ok cells → length cells = length (rows df).
Proof.
  unfold Frame.column. destruct (Frame.position _ _); intros [= <-].
  by rewrite length_fmap.
Qed.

Lemma index_length df : length (Frame.index df) = length (rows df).
Proof. unfold Frame.index. by rewrite length_fmap. Qed.

(** *** Selection of the files by name *)

Lemma name_le_covers w filename :
  name_le (Calendar.strftime_Ym_csv <$> start w) (Some filename)
  && name_le (Some filename) (Calendar.strftime_Ym_csv <$> end_ w) = true
  ↔ covers w filename.
Proof.
  unfold covers, str_le. rewrite andb_true_iff.
  destruct (start w) as [s|], (end_ w) as [e|]; simpl; split;
    try (intros (? & ?); done);
    try (intros (? & ? & ? & ? & ? & ?); simplify_eq; done).
  intros (? & ?). by exists s, e.
Qed.

Lemma any_window_covers X filename :
  any (zip_with andb
         ((λ lo, name_le lo (Some filename)) <$>
            ((λ w, Calendar.strftime_Ym_csv <$> start w) <$> X))
         ((λ hi, name_le (Some filename) hi) <$>
            ((λ w, Calendar.strftime_Ym_csv <$> end_ w) <$> X))) = true
  ↔ ∃ w, w ∈ X ∧ covers w filename.
Proof.
  induction X as [|w X IH]; simpl.
  - split; [done|]. intros (w & Hw & _). by inversion Hw.
  - rewrite orb_true_iff, IH, name_le_covers. split.
    + intros [H|(w' & ? & ?)]; [exists w | exists w']; split; try done; by constructor.
    + intros (w' & Hw' & Hc). apply elem_of_cons in Hw' as [->|?]; eauto.
Qed.

Lemma filter_by_filename_timestamped X filenames :
  timestamped X → _filter_by_filename X filenames = Ok (selection X filenames).
Proof.
  intros [Hend Hstart]. unfold _filter_by_filename, dt_strftime.
  rewrite !decide_True by done. simpl. unfold selection.
  by rewrite <- !list_fmap_compose.
Qed.

Lemma filter_by_filename_objects X filenames :
  ¬ timestamped X → _filter_by_filename X filenames = Raise (AttributeError "dt").
Proof.
  intros Hno. unfold _filter_by_filename, dt_strftime.
  destruct (decide (datetimelike (end_ <$> X))) as [Hend|Hend]; [|done]. simpl.
  destruct (decide (datetimelike (start <$> X))) as [Hstart|Hstart]; [|done].
  by destruct Hno.
Qed.

Lemma filter_by_filename_Ok X filenames selected :
  _filter_by_filename X filenames = Ok selected
  ↔ timestamped X ∧ selected = selection X filenames.
Proof.
  split.
  - intros Hsel. destruct (decide (timestamped X)) as [HX|HX].
    + rewrite filter_by_filename_timestamped in Hsel by done. by injection Hsel as <-.
    + by rewrite filter_by_filename_objects in Hsel.
  - intros [HX ->]. by apply filter_by_filename_timestamped.
Qed.

Lemma elem_of_selection X filenames filename :
  filename ∈ selection X filenames
  ↔ filename ∈ filenames ∧ ∃ w, w ∈ X ∧ covers w filename.
Proof.
  unfold selection. rewrite list_elem_of_filter.
  rewrite Is_true_true, any_window_covers. tauto.
Qed.

Lemma name_min_le_l a b : str_le (name_min a b) a.
Proof.
  unfold name_min. destruct (String.leb a b) eqn:H; [apply str_le_refl|].
  destruct (str_le_total a b) as [H'|H']; [unfold str_le in H'; congruence | done].
Qed.

Lemma name_min_le_r a b : str_le (name_min a b) b.
Proof. unfold name_min. destruct (String.leb a b) eqn:H; [done | apply str_le_refl]. Qed.

Lemma name_max_ge_l a b : str_le a (name_max a b).
Proof. unfold name_max. destruct (String.leb a b) eqn:H; [done | apply str_le_refl]. Qed.

Lemma name_max_ge_r a b : str_le b (name_max a b).
Proof.
  unfold name_max. destruct (String.leb a b) eqn:H; [apply str_le_refl|].
  destruct (str_le_total a b) as [H'|H']; [unfold str_le in H'; congruence | done].
Qed.

Lemma least_le names x : x ∈ names → ∃ m, least names = Some m ∧ str_le m x.
Proof.
  destruct names as [|y names]; [by inversion 1|]. simpl. intros Hx.
  eexists; split; [done|]. revert Hx. rewrite elem_of_cons.
  induction names as [|z names IH]; simpl.
  - intros [->|H]; [apply str_le_refl | by inversion H].
  - rewrite elem_of_cons. intros [->|[->|H]].
    + etrans; [apply name_min_le_r | apply IH; by left].
    + apply name_min_le_l.
    + etrans; [apply name_min_le_r | apply IH; by right].
Qed.

Lemma greatest_ge names x : x ∈ names → ∃ m, greatest names = Some m ∧ str_le x m.
Proof.
  destruct names as [|y names]; [by inversion 1|]. simpl. intros Hx.
  eexists; split; [done|]. revert Hx. rewrite elem_of_cons.
  induction names as [|z names IH]; simpl.
  - intros [->|H]; [apply str_le_refl | by inversion H].
  - rewrite elem_of_cons. intros [->|[->|H]].
    + etrans; [apply IH; by left | apply name_max_ge_r].
    + apply name_max_ge_l.
    + etrans; [apply IH; by right | apply name_max_ge_r].
Qed.

Lemma covers_within_hull X w filename :
  w ∈ X → covers w filename → within_hull X filename = true.
Proof.
  intros Hw (s & e & Hs & He & Hlo & Hhi). unfold within_hull.
  destruct (least_le (omap (λ w, Calendar.strftime_Ym_csv <$> start w) X)
                     (Calendar.strftime_Ym_csv s)) as (lo & -> & Hlo').
  { apply list_elem_of_omap. exists w. by rewrite Hs. }
  destruct (greatest_ge (omap (λ w, Calendar.strftime_Ym_csv <$> end_ w) X)
                        (Calendar.strftime_Ym_csv e)) as (hi & -> & Hhi').
  { apply list_elem_of_omap. exists w. by rewrite He. }
  simpl. apply andb_true_iff. split.
  - by apply (str_le_trans _ _ _ Hlo').
  - by apply (str_le_trans _ _ _ Hhi).
Qed.

(** C4, as the code has it, for a turbine with at least one window and
    the windows of a call with a lookback (their times are timestamps):
    the selector yields a list of names, and a file name is yielded
    exactly when it is one of the names given and lies, in the order of
    strings, between the encoded start and the encoded end of at least
    one window of the turbine.  A yielded name therefore lies within
    the interval from the least encoded start to the greatest encoded
    end; the converse fails for a name in a gap between two windows. *)
Theorem filter_by_filename_selects_per_window (X : list TimeWindow) (filenames : list string) :
  X ≠ [] → timestamped X →
  ∃ selected,
    _filter_by_filename X filenames = Ok selected
    ∧ ∀ filename,
        (filename ∈ selected
         ↔ filename ∈ filenames ∧ ∃ w, w ∈ X ∧ covers w filename)
        ∧ (filename ∈ selected → within_hull X filename = true).
Proof.
  intros _ HX. exists (selection X filenames).
  split; [by apply filter_by_filename_timestamped|]. intros filename.
  split; [apply elem_of_selection|].
  rewrite elem_of_selection. intros (_ & w & Hw & Hc).
  by eapply covers_within_hull.
Qed.

Lemma filter_by_filename_per_window_witness :
  ∃ selected,
    _filter_by_filename Gap.windows ["2020-01-.csv"; "2020-03-.csv"; "2020-05-.csv"]
    = Ok selected
    ∧ ∀ filename,
        (filename ∈ selected
         ↔ filename ∈ ["2020-01-.csv"; "2020-03-.csv"; "2020-05-.csv"]
           ∧ ∃ w, w ∈ Gap.windows ∧ covers w filename)
        ∧ (filename ∈ selected → within_hull Gap.windows filename = true).
Proof.
  apply (filter_by_filename_selects_per_window Gap.windows
           ["2020-01-.csv"; "2020-03-.csv"; "2020-05-.csv"]).
  - discriminate.
  - apply (bool_decide_unpack _). vm_compute. reflexivity.
Defined.

(** C4, the claim refuted: with one window in January and one in May
    2020 the name of March lies within the single interval from the
    least encoded start to the greatest encoded end, and it is not
    yielded: the selector yields no name. *)
Lemma hull_file_not_selected :
  within_hull Gap.windows "2020-03-.csv" = true
  ∧ "2020-03-.csv" ∈ ["2020-03-.csv"]
  ∧ _filter_by_filename Gap.windows ["2020-03-.csv"] = Ok [].
Proof.
  split; [by vm_compute|]. split; [by left|]. by vm_compute.
Qed.

(** The three names of the same two windows: those of January and of
    May are yielded. *)
Example gap_selection :
  _filter_by_filename Gap.windows ["2020-01-.csv"; "2020-03-.csv"; "2020-05-.csv"]
  = Ok ["2020-01-.csv"; "2020-05-.csv"].
Proof. by vm_compute. Qed.

(** *** The windows of the target events *)


Lemma lookback_cases to_timedelta window_size d :
  lookback to_timedelta window_size = Ok d →
  match d with
  | Some δ => ∃ c s, window_size = Some (String c s) ∧ to_timedelta (String c s) = Some δ
  | None => window_size = None ∨ window_size = Some ""
  end.
Proof.
  destruct window_size as [[|c s]|]; simpl; try (intros [= <-]; auto).
  destruct (to_timedelta (String c s)) as [δ|] eqn:H; simpl; [|done].
  intros [= <-]. eauto.
Qed.






(** A lookback of minus one day is accepted and gives a window whose
    start is one day after its end. *)
Example negative_lookback_inverts_window :
  ∃ w1 w2 s e,
    _get_times Readers.day_timedelta Gap.target_times (Some "-1d") = Ok [w1; w2]
    ∧ start w1 = Some s ∧ end_ w1 = Some e ∧ e < s ∧ ¬ ordered w1.
Proof.
  eexists _, _, _, _. split; [by vm_compute|]. simpl. repeat split.
  intros (s & e & [= <-] & [= <-] & Hle). revert Hle. by vm_compute.
Qed.


(** *** Selection by a boolean series *)

Lemma select_nil_r {A} (l : list A) : Frame.select l [] = [].
Proof. by destruct l. Qed.

Lemma elem_of_select {A} (l : list A) flags x :
  x ∈ Frame.select l flags ↔ ∃ i, l !! i = Some x ∧ flags !! i = Some true.
Proof.
  revert flags. induction l as [|y l IH]; intros [|b flags]; simpl.
  - split; [by inversion 1 | by intros (i & ? & ?)].
  - split; [by inversion 1 | by intros (i & ? & ?)].
  - split; [by inversion 1 | by intros (i & ? & ?)].
  - destruct b.
    + rewrite elem_of_cons, IH. split.
      * intros [->|(i & ? & ?)]; [by exists 0%nat | by exists (S i)].
      * intros ([|i] & Hl & Hf); simplify_eq/=; [by left | right; eauto].
    + rewrite IH. split.
      * intros (i & ? & ?). by exists (S i).
      * intros ([|i] & Hl & Hf); simplify_eq/=. eauto.
Qed.

Lemma select_fmap {A B} (g : A → B) (l : list A) flags :
  g <$> Frame.select l flags = Frame.select (g <$> l) flags.
Proof.
  revert flags. induction l as [|y l IH]; intros [|[] flags]; simpl; try done.
  by rewrite IH.
Qed.

Lemma select_sublist {A} (l : list A) flags : Frame.select l flags `sublist_of` l.
Proof.
  revert flags. induction l as [|y l IH]; intros [|[] flags]; simpl;
    auto using sublist_nil_l, sublist_skip, sublist_cons.
Qed.

Lemma NoDup_select {A} (l : list A) flags : NoDup l → NoDup (Frame.select l flags).
Proof. intros H. eapply sublist_NoDup; [done | apply select_sublist]. Qed.

Lemma elem_of_select_NoDup {A} (l : list A) flags i x :
  NoDup l → l !! i = Some x →
  x ∈ Frame.select l flags ↔ flags !! i = Some true.
Proof.
  intros Hnd Hx. rewrite elem_of_select. split; [|eauto].
  intros (j & Hj & Hf). by rewrite (NoDup_lookup _ _ _ _ Hnd Hx Hj).
Qed.

Lemma fst_zip_with_label {B} (h : row → B → list cell) (l : list row) (k : list B) :
  length l = length k →
  fst <$> zip_with (λ r v, (r.1, h r v)) l k = fst <$> l.
Proof.
  revert k. induction l as [|r l IH]; intros [|v k] Hlen; simplify_eq/=; [done|].
  f_equal. by apply IH.
Qed.

Lemma index_setitem df name values :
  length values = length (rows df) →
  Frame.index (Frame.setitem df name values) = Frame.index df.
Proof.
  unfold Frame.index, Frame.setitem. intros Hlen.
  destruct (Frame.position _ _); simpl; by rewrite fst_zip_with_label.
Qed.

Lemma length_rows_setitem df name values :
  length values = length (rows df) →
  length (rows (Frame.setitem df name values)) = length (rows df).
Proof.
  intros H. rewrite <- !index_length. by rewrite index_setitem.
Qed.

(** *** The window filter *)

Lemma time_le_inside w t :
  time_le (start w) t && time_le t (end_ w) = true ↔ inside w t.
Proof.
  unfold inside, time_le. rewrite andb_true_iff.
  destruct (start w) as [s|], t as [τ|], (end_ w) as [e|];
    rewrite ?bool_decide_eq_true; split;
    try (intros (? & ?); done);
    try (intros (? & ? & ? & ? & ? & ? & ?); simplify_eq; done).
  intros (? & ?). by exists s, e, τ.
Qed.

Lemma length_related timestamps related X :
  length related = length timestamps →
  length (foldl (related_step timestamps) related X) = length timestamps.
Proof.
  revert related. induction X as [|w X IH]; intros related Hlen; simpl; [done|].
  apply IH. unfold related_step. rewrite length_zip_with, length_fmap. lia.
Qed.

Lemma related_lookup timestamps X related i t b :
  length related = length timestamps →
  timestamps !! i = Some t → related !! i = Some b →
  foldl (related_step timestamps) related X !! i = Some true
  ↔ b = true ∨ ∃ w, w ∈ X ∧ inside w t.
Proof.
  revert related b. induction X as [|w X IH]; intros related b Hlen Ht Hb; simpl.
  - rewrite Hb. split.
    + intros [= ->]. by left.
    + intros [->|(w & Hw & _)]; [done | by inversion Hw].
  - assert (related_step timestamps related w !! i
            = Some (b || (time_le (start w) t && time_le t (end_ w)))) as Hstep.
    { unfold related_step. apply lookup_zip_with_Some. eexists _, _.
      split; [done|]. split; [done|]. by rewrite list_lookup_fmap, Ht. }
    assert (length (related_step timestamps related w) = length timestamps) as Hlen'.
    { unfold related_step. rewrite length_zip_with, length_fmap. lia. }
    rewrite (IH _ _ Hlen' Ht Hstep).
    rewrite orb_true_iff, time_le_inside. split.
    + intros [[->|H]|(w' & Hw' & H)]; [by left | right..].
      * exists w. split; [by left | done].
      * exists w'. split; [by right | done].
    + intros [->|(w' & Hw' & H)]; [by left; left|].
      apply elem_of_cons in Hw' as [->|Hw']; [left; by right | right; eauto].
Qed.

(** The boolean series of lines 183-185. *)
Lemma related_spec timestamps X i t :
  timestamps !! i = Some t →
  foldl (related_step timestamps) (replicate (length timestamps) false) X !! i = Some true
  ↔ ∃ w, w ∈ X ∧ inside w t.
Proof.
  intros Ht. rewrite (related_lookup timestamps X _ i t false).
  - split; [intros [?|?]; done | by right].
  - by rewrite length_replicate.
  - done.
  - apply lookup_replicate_2. by eapply lookup_lt_Some.
Qed.

Lemma filter_by_timestamp_Ok strptime data X column timestamps :
  Frame.getitem data "timestamp" = Ok column →
  mapM (to_datetime_format strptime) column = Ok timestamps →
  ∃ out,
    _filter_by_timestamp strptime data X = Ok out
    ∧ rows out
      = Frame.select (rows (Frame.setitem data "timestamp" (time_cell <$> timestamps)))
          (foldl (related_step timestamps) (replicate (length timestamps) false) X)
    ∧ (X ≠ [] → columns out
                = columns (Frame.setitem data "timestamp" (time_cell <$> timestamps))).
Proof.
  intros Hcol Hts. unfold _filter_by_timestamp. rewrite Hcol. simpl. rewrite Hts. simpl.
  destruct X as [|w X]; [destruct timestamps as [|t timestamps]|]; simpl;
    eexists; (split; [done|]); split; try done.
  by rewrite select_nil_r.
Qed.

(** C6: once the timestamps of the table are read, the filter returns
    the rows picked by a boolean series that is true at a position
    exactly when the timestamp there falls within the interval of at
    least one window.  Every row is picked at most once, however many
    windows hold it: the index labels of the result are the picked
    labels in their order, and they are distinct when those of the
    table are. *)
Theorem filter_by_timestamp_keeps_rows_in_a_window (strptime : string → option Z) (data : DataFrame) (X : list TimeWindow) (column : list cell) (timestamps : list (option Z)) :
  Frame.getitem data "timestamp" = Ok column →
  mapM (to_datetime_format strptime) column = Ok timestamps →
  ∃ out related,
    _filter_by_timestamp strptime data X = Ok out
    ∧ length related = length (rows data)
    ∧ (∀ i t, timestamps !! i = Some t →
         (related !! i = Some true ↔ ∃ w, w ∈ X ∧ inside w t))
    ∧ rows out
      = Frame.select (rows (Frame.setitem data "timestamp" (time_cell <$> timestamps)))
                     related
    ∧ Frame.index out = Frame.select (Frame.index data) related
    ∧ (NoDup (Frame.index data) →
       NoDup (Frame.index out)
       ∧ ∀ i label t, Frame.index data !! i = Some label → timestamps !! i = Some t →
           (label ∈ Frame.index out ↔ ∃ w, w ∈ X ∧ inside w t)).
Proof.
  intros Hcol Hts.
  pose proof (column_length _ _ _ _ Hcol) as Lcol.
  pose proof (mapM_Ok_length _ _ _ Hts) as Lts.
  destruct (filter_by_timestamp_Ok strptime data X column timestamps Hcol Hts)
    as (out & Hout & Hrows & _).
  set (related := foldl (related_step timestamps)
                        (replicate (length timestamps) false) X) in *.
  assert (Frame.index out = Frame.select (Frame.index data) related) as Hindex.
  { unfold Frame.index at 1. rewrite Hrows, select_fmap.
    fold (Frame.index (Frame.setitem data "timestamp" (time_cell <$> timestamps))).
    rewrite index_setitem; [done|]. rewrite length_fmap. lia. }
  exists out, related. split; [done|]. split.
  { unfold related. rewrite length_related; [lia|]. by rewrite length_replicate. }
  split; [intros i t Ht; by apply related_spec|].
  split; [done|]. split; [done|].
  intros Hnd. rewrite Hindex. split; [by apply NoDup_select|].
  intros i label t Hl Ht.
  rewrite (elem_of_select_NoDup _ _ _ _ Hnd Hl). by apply related_spec.
Qed.

Lemma filter_by_timestamp_witness :
  ∃ out related,
    _filter_by_timestamp Readers.log_datetime Scenario.data
      [Scenario.window; Scenario.later_window] = Ok out
    ∧ length related = length (rows Scenario.data)
    ∧ (∀ i t, [Some (Calendar.timestamp 2020 2 10 0 0 0);
               Some (Calendar.timestamp 2020 1 1 0 0 0)] !! i = Some t →
         (related !! i = Some true
          ↔ ∃ w, w ∈ [Scenario.window; Scenario.later_window] ∧ inside w t))
    ∧ rows out
      = Frame.select
          (rows (Frame.setitem Scenario.data "timestamp"
                   (time_cell <$> [Some (Calendar.timestamp 2020 2 10 0 0 0);
                                   Some (Calendar.timestamp 2020 1 1 0 0 0)])))
          related
    ∧ Frame.index out = Frame.select (Frame.index Scenario.data) related
    ∧ (NoDup (Frame.index Scenario.data) →
       NoDup (Frame.index out)
       ∧ ∀ i label t, Frame.index Scenario.data !! i = Some label →
           [Some (Calendar.timestamp 2020 2 10 0 0 0);
            Some (Calendar.timestamp 2020 1 1 0 0 0)] !! i = Some t →
           (label ∈ Frame.index out
            ↔ ∃ w, w ∈ [Scenario.window; Scenario.later_window] ∧ inside w t)).
Proof.
  apply (filter_by_timestamp_keeps_rows_in_a_window Readers.log_datetime
           Scenario.data [Scenario.window; Scenario.later_window]
           [Text "02/10/20 00:00:00"; Text "01/01/20 00:00:00"]);
    vm_compute; reflexivity.
Defined.

(** The reading of 2020-02-10 lies in both windows and is returned
    once. *)
Example reading_in_two_windows_once :
  inside Scenario.window (Some (Calendar.timestamp 2020 2 10 0 0 0))
  ∧ inside Scenario.later_window (Some (Calendar.timestamp 2020 2 10 0 0 0))
  ∧ _filter_by_timestamp Readers.log_datetime Scenario.data
      [Scenario.window; Scenario.later_window]
    = Ok {| columns := ["timestamp"; "signal_id"; "value"];
            rows := [(0, [Stamp (Calendar.timestamp 2020 2 10 0 0 0);
                          Text "S1"; Text "3.2"])] |}.
Proof.
  split; [|split].
  - eexists _, _, _. repeat split; by vm_compute.
  - eexists _, _, _. repeat split; by vm_compute.
  - by vm_compute.
Qed.

(** C7: a reading whose timestamp is the start, or is the end, of a
    window of the turbine is in the result of the filter; the window is
    an interval, its start not after its end. *)
Theorem filter_by_timestamp_keeps_endpoints (strptime : string → option Z) (data : DataFrame) (X : list TimeWindow) (column : list cell) (timestamps : list (option Z)) (w : TimeWindow) (s e : Z) (i : nat) (t : Z) :
  Frame.getitem data "timestamp" = Ok column →
  mapM (to_datetime_format strptime) column = Ok timestamps →
  w ∈ X → start w = Some s → end_ w = Some e → s ≤ e →
  timestamps !! i = Some (Some t) →
  t = s ∨ t = e →
  ∃ out r,
    _filter_by_timestamp strptime data X = Ok out
    ∧ rows (Frame.setitem data "timestamp" (time_cell <$> timestamps)) !! i = Some r
    ∧ Frame.index data !! i = Some r.1
    ∧ r ∈ rows out.
Proof.
  intros Hcol Hts Hw Hs He Hle Ht Hends.
  pose proof (column_length _ _ _ _ Hcol) as Lcol.
  pose proof (mapM_Ok_length _ _ _ Hts) as Lts.
  destruct (filter_by_timestamp_Ok strptime data X column timestamps Hcol Hts)
    as (out & Hout & Hrows & _).
  assert (length (time_cell <$> timestamps) = length (rows data)) as Hlen.
  { rewrite length_fmap. lia. }
  destruct (lookup_lt_is_Some_2
              (rows (Frame.setitem data "timestamp" (time_cell <$> timestamps))) i)
    as [r Hr].
  { rewrite length_rows_setitem by done. rewrite <- Lcol, <- Lts.
    by eapply lookup_lt_Some. }
  exists out, r. split; [done|]. split; [done|]. split.
  - rewrite <- (index_setitem data "timestamp" (time_cell <$> timestamps)) by done.
    unfold Frame.index. by rewrite list_lookup_fmap, Hr.
  - rewrite Hrows. apply elem_of_select. exists i. split; [done|].
    apply (related_spec timestamps X i (Some t) Ht). exists w. split; [done|].
    exists s, e, t. repeat split; try done; lia.
Qed.

Lemma filter_by_timestamp_endpoint_witness :
  ∃ out r,
    _filter_by_timestamp Readers.log_datetime Scenario.boundary_data [Scenario.window]
    = Ok out
    ∧ rows (Frame.setitem Scenario.boundary_data "timestamp"
              (time_cell <$> [Some (Calendar.timestamp 2020 1 16 0 0 0);
                              Some (Calendar.timestamp 2020 2 15 0 0 0)])) !! 1%nat
      = Some r
    ∧ Frame.index Scenario.boundary_data !! 1%nat = Some r.1
    ∧ r ∈ rows out.
Proof.
  apply (filter_by_timestamp_keeps_endpoints Readers.log_datetime
           Scenario.boundary_data [Scenario.window]
           [Text "01/16/20 00:00:00"; Text "02/15/20 00:00:00"] _
           Scenario.window
           (Calendar.timestamp 2020 1 16 0 0 0) (Calendar.timestamp 2020 2 15 0 0 0)
           1%nat (Calendar.timestamp 2020 2 15 0 0 0)).
  - vm_compute; reflexivity.
  - vm_compute; reflexivity.
  - left.
  - reflexivity.
  - reflexivity.
  - vm_compute. discriminate.
  - reflexivity.
  - right. reflexivity.
Defined.

(** *** Reading a column back after an assignment *)

Lemma at_position_resize i n cells :
  (i < n)%nat → Frame.at_position i (resize n NA cells) = Frame.at_position i cells.
Proof.
  intros Hi. unfold Frame.at_position.
  destruct (decide (i < length cells)%nat) as [Hlt|Hge].
  - by rewrite lookup_resize.
  - rewrite (lookup_ge_None_2 cells) by lia.
    rewrite resize_ge by lia. rewrite lookup_app_r by lia.
    destruct (replicate _ _ !! _) as [c|] eqn:Hc; [|done].
    by apply lookup_replicate in Hc as [-> _].
Qed.

Lemma at_position_insert_eq i n v cells :
  (i < n)%nat → Frame.at_position i (<[i := v]> (resize n NA cells)) = v.
Proof.
  intros Hi. unfold Frame.at_position.
  rewrite list_lookup_insert_eq; [done|]. by rewrite length_resize.
Qed.

Lemma at_position_insert_ne i j n v cells :
  i ≠ j → (j < n)%nat →
  Frame.at_position j (<[i := v]> (resize n NA cells)) = Frame.at_position j cells.
Proof.
  intros Hne Hj. unfold Frame.at_position at 1.
  rewrite list_lookup_insert_ne by done. by apply at_position_resize.
Qed.

Lemma at_position_snoc_new n v cells :
  Frame.at_position n (resize n NA cells ++ [v]) = v.
Proof.
  unfold Frame.at_position. rewrite lookup_app_r by (rewrite length_resize; lia).
  by rewrite length_resize, Nat.sub_diag.
Qed.

Lemma at_position_snoc_old j n v cells :
  (j < n)%nat →
  Frame.at_position j (resize n NA cells ++ [v]) = Frame.at_position j cells.
Proof.
  intros Hj. unfold Frame.at_position at 1.
  rewrite lookup_app_l by (by rewrite length_resize). by apply at_position_resize.
Qed.

Lemma fmap_zip_with_row {B C} (g : row → C) (h : row → B → row) (l : list row) (k : list B) :
  length l = length k → (∀ r v, g (h r v) = g r) →
  g <$> zip_with h l k = g <$> l.
Proof.
  intros Hlen Hg. revert k Hlen.
  induction l as [|r l IH]; intros [|v k] Hlen; simplify_eq/=; [done|].
  by rewrite Hg, IH.
Qed.

Lemma fmap_zip_with_new {B C} (g : row → C) (h : row → B → row) (f : B → C) (l : list row) (k : list B) :
  length l = length k → (∀ r v, g (h r v) = f v) →
  g <$> zip_with h l k = f <$> k.
Proof.
  intros Hlen Hg. revert k Hlen.
  induction l as [|r l IH]; intros [|v k] Hlen; simplify_eq/=; [done|].
  by rewrite Hg, IH.
Qed.

Lemma column_setitem_eq e df name values :
  length values = length (rows df) →
  Frame.column e name (Frame.setitem df name values) = Ok values.
Proof.
  intros Hlen. unfold Frame.setitem, Frame.column.
  destruct (Frame.position name (columns df)) as [i|] eqn:Hpos; simpl.
  - rewrite Hpos. f_equal.
    rewrite (fmap_zip_with_new _ _ id); [by rewrite list_fmap_id | done |].
    intros r v. simpl. apply at_position_insert_eq. by eapply position_lt.
  - apply position_None in Hpos. rewrite (position_app_new _ _ Hpos). f_equal.
    rewrite (fmap_zip_with_new _ _ id); [by rewrite list_fmap_id | done |].
    intros r v. simpl. apply at_position_snoc_new.
Qed.

Lemma column_setitem_ne e df name name' values :
  name ≠ name' → length values = length (rows df) →
  Frame.column e name' (Frame.setitem df name values) = Frame.column e name' df.
Proof.
  intros Hne Hlen. unfold Frame.setitem, Frame.column.
  destruct (Frame.position name (columns df)) as [i|] eqn:Hpos; simpl.
  - destruct (Frame.position name' (columns df)) as [j|] eqn:Hpos'; [|done].
    f_equal. apply fmap_zip_with_row; [done|]. intros r v. simpl.
    apply at_position_insert_ne; [|by eapply position_lt].
    intros ->. apply position_Some in Hpos, Hpos'. congruence.
  - destruct (Frame.position name' (columns df)) as [j|] eqn:Hpos'.
    + rewrite (position_app_l _ _ _ _ Hpos'). f_equal.
      apply fmap_zip_with_row; [done|]. intros r v. simpl.
      apply at_position_snoc_old. by eapply position_lt.
    + assert (Frame.position name' (columns df ++ [name]) = None) as ->; [|done].
      apply position_None. apply position_None in Hpos'.
      rewrite elem_of_app, list_elem_of_singleton. intros [?|?]; done.
Qed.

Lemma columns_setitem_present df name values :
  name ∈ columns df → columns (Frame.setitem df name values) = columns df.
Proof.
  intros [i Hi]%position_is_Some. unfold Frame.setitem. by rewrite Hi.
Qed.

Lemma column_Ok_elem e name df cells :
  Frame.column e name df = Ok cells → name ∈ columns df.
Proof.
  unfold Frame.column. destruct (Frame.position _ _) eqn:H; [|done].
  intros _. apply position_Some in H. by eapply list_elem_of_lookup_2.
Qed.

Lemma column_setitem_scalar e df name v :
  Frame.column e name (Frame.setitem_scalar df name v)
  = Ok (replicate (length (rows df)) v).
Proof. apply column_setitem_eq. by rewrite length_replicate. Qed.

(** *** Concatenation *)

Lemma elem_of_union_columns_from acc dfs c :
  c ∈ foldl (λ acc df, acc ++ remove_dups (filter (λ c, c ∉ acc) (columns df))) acc dfs
  ↔ c ∈ acc ∨ ∃ df, df ∈ dfs ∧ c ∈ columns df.
Proof.
  revert acc. induction dfs as [|df dfs IH]; intros acc; simpl.
  - split; [by left|]. intros [?|(df & Hdf & _)]; [done | by inversion Hdf].
  - rewrite IH, elem_of_app, elem_of_remove_dups, list_elem_of_filter. split.
    + intros [[?|[? ?]]|(df' & ? & ?)]; [by left| right..].
      * exists df. split; [by left | done].
      * exists df'. split; [by right | done].
    + intros [?|(df' & Hdf' & Hc)]; [by left; left|].
      apply elem_of_cons in Hdf' as [->|?]; [|right; eauto].
      left. destruct (decide (c ∈ acc)); [by left | by right].
Qed.

Lemma elem_of_union_columns dfs c :
  c ∈ Frame.union_columns dfs ↔ ∃ df, df ∈ dfs ∧ c ∈ columns df.
Proof.
  unfold Frame.union_columns. rewrite elem_of_union_columns_from. split.
  - intros [H|?]; [by inversion H | done].
  - by right.
Qed.

Lemma at_position_reindex name src all cells j :
  all !! j = Some name →
  Frame.at_position j (Frame.reindex src all cells)
  = match Frame.position name src with
    | Some i => Frame.at_position i cells
    | None => NA
    end.
Proof.
  intros Hj. unfold Frame.at_position at 1, Frame.reindex.
  by rewrite list_lookup_fmap, Hj.
Qed.

Lemma concat_rows_column e name all dfs cols j :
  all !! j = Some name →
  Forall2 (λ df col, Frame.column e name df = Ok col) dfs cols →
  (λ r : row, Frame.at_position j r.2) <$> Frame.concat_rows all dfs = mjoin cols.
Proof.
  intros Hj. unfold Frame.concat_rows.
  induction 1 as [|df col dfs cols Hcol _ IH]; [done|].
  rewrite bind_cons, fmap_app, IH. simpl. f_equal.
  unfold Frame.column in Hcol.
  destruct (Frame.position name (columns df)) as [i|] eqn:Hpos; simplify_eq/=.
  rewrite <- list_fmap_compose. apply list_fmap_ext. intros k r _. simpl.
  by rewrite (at_position_reindex name), Hpos.
Qed.

Lemma concat_rows_index all dfs :
  fst <$> Frame.concat_rows all dfs = mjoin (Frame.index <$> dfs).
Proof.
  unfold Frame.concat_rows, Frame.index.
  induction dfs as [|df dfs IH]; [done|].
  rewrite bind_cons, fmap_app, IH. simpl. f_equal. by rewrite <- list_fmap_compose.
Qed.

Lemma concat_Ok dfs :
  dfs ≠ [] →
  Frame.concat dfs
  = Ok {| columns := Frame.union_columns dfs;
          rows := Frame.concat_rows (Frame.union_columns dfs) dfs |}.
Proof. by destruct dfs. Qed.

(** A column every table has is, in the concatenation, the
    concatenation of that column of the tables, in their order. *)
Lemma concat_column e name dfs cols :
  dfs ≠ [] →
  Forall2 (λ df col, Frame.column e name df = Ok col) dfs cols →
  ∃ out,
    Frame.concat dfs = Ok out
    ∧ Frame.column e name out = Ok (mjoin cols)
    ∧ Frame.index out = mjoin (Frame.index <$> dfs).
Proof.
  intros Hne Hcols. rewrite concat_Ok by done. eexists. split; [done|]. split.
  - assert (name ∈ Frame.union_columns dfs) as Hin.
    { apply elem_of_union_columns. destruct Hcols as [|df col ? ? Hcol _]; [done|].
      exists df. split; [by left|]. by eapply column_Ok_elem. }
    apply position_is_Some in Hin as [j Hj].
    unfold Frame.column. simpl. rewrite Hj. f_equal.
    eapply concat_rows_column; [|done]. by apply position_Some.
  - unfold Frame.index at 1. simpl. apply concat_rows_index.
Qed.

(** *** Sorting and distinct values *)

#[global] Instance Text_inj : Inj (=) (=) Text.
Proof. by intros ?? [= ->]. Qed.

Lemma sorted_Permutation names : sorted names ≡ₚ names.
Proof. apply merge_sort_Permutation. Qed.

Lemma sorted_StronglySorted names : StronglySorted str_le (sorted names).
Proof. apply StronglySorted_merge_sort; apply _. Qed.

Lemma StronglySorted_strict names :
  NoDup names → StronglySorted str_le names → StronglySorted str_lt names.
Proof.
  induction 2 as [|x names Hs IH Hx]; [constructor|].
  apply NoDup_cons in H as [Hnot Hnd]. constructor; [by apply IH|].
  rewrite Forall_forall in Hx |- *. intros y Hy. split; [by apply Hx|].
  by intros ->.
Qed.

Lemma elem_of_unique {A} `{EqDecision A} (seen l : list A) x :
  x ∈ Frame.unique seen l ↔ x ∈ l ∧ x ∉ seen.
Proof.
  revert seen. induction l as [|y l IH]; intros seen; simpl.
  - split; [by inversion 1 | by intros [H _]; inversion H].
  - destruct (decide (y ∈ seen)) as [Hy|Hy].
    + rewrite IH, elem_of_cons. split; [by intros [? ?]; auto|].
      intros [[->|?] ?]; done.
    + rewrite elem_of_cons, IH, !elem_of_cons. split.
      * intros [->|[? Hn]]; [auto|]. split; [by right|]. intros ?. apply Hn. by right.
      * intros [[->|?] ?]; [by left|].
        destruct (decide (x = y)) as [->|Hne]; [by left|]. right. split; [done|].
        by intros [?|?].
Qed.

Lemma NoDup_unique {A} `{EqDecision A} (seen l : list A) : NoDup (Frame.unique seen l).
Proof.
  revert seen. induction l as [|y l IH]; intros seen; simpl; [constructor|].
  destruct (decide (y ∈ seen)); [done|]. constructor; [|done].
  rewrite elem_of_unique. intros [_ Hn]. apply Hn. by left.
Qed.

Lemma mapM_cell_text cells names :
  mapM cell_text cells = Ok names → cells = Text <$> names.
Proof.
  rewrite mapM_Ok_Forall2. induction 1 as [|c s cells names Hc _ IH]; simpl; [done|].
  destruct c; simplify_eq/=. by f_equal.
Qed.

Lemma mapM_Raise_first {A B} (f : A → result B) before x after e :
  Forall (λ y, succeeds (f y)) before → f x = Raise e →
  mapM f (before ++ x :: after) = Raise e.
Proof.
  intros Hb Hx. induction Hb as [|y before [b Hy] _ IH]; simpl.
  - by rewrite Hx.
  - rewrite Hy. simpl. by rewrite IH.
Qed.

(** *** The readings of all the turbines *)

Lemma load_turbine_tagged fs strptime rp windows signals id t :
  load_turbine fs strptime rp windows signals id = Ok t →
  Frame.getitem t "turbine_id" = Ok (replicate (length (rows t)) (Text id)).
Proof.
  unfold load_turbine. intros (r & _ & [= <-])%bind_Ok_inv.
  unfold Frame.getitem. rewrite column_setitem_scalar. do 2 f_equal.
  unfold Frame.setitem_scalar. rewrite length_rows_setitem; [done|].
  by rewrite length_replicate.
Qed.

(** C9: the turbines are handled in the strictly increasing order of
    their ids, each id of the target events once.  When every turbine
    assembles, the call returns the concatenation of the tables of the
    turbines in that order: its index labels are those of the tables one
    after the other, and its [turbine_id] column is the id of the first
    turbine repeated for its rows, then that of the second, and so on.
    When a turbine fails after all the smaller ones assembled, the call
    raises the exception of that turbine. *)
Theorem load_readings_in_sorted_turbine_order (fs : FileSystem) (strptime to_timedelta : string → option Z) (rp : string) (X : DataFrame) (signals : option DataFrame) (window_size : option string) (cells : list cell) (windows : list TimeWindow) (names : list string) :
  Frame.getattr X "turbine_id" = Ok cells →
  _get_times to_timedelta X window_size = Ok windows →
  mapM cell_text (Frame.unique [] cells) = Ok names →
  StronglySorted str_lt (sorted names)
  ∧ (∀ id, id ∈ sorted names ↔ Text id ∈ cells)
  ∧ (∀ tables,
       Forall2 (λ id t, load_turbine fs strptime rp windows signals id = Ok t)
               (sorted names) tables →
       names ≠ [] →
       ∃ out,
         _load_readings fs strptime to_timedelta rp X signals window_size = Ok out
         ∧ Frame.concat tables = Ok out
         ∧ Frame.index out = mjoin (Frame.index <$> tables)
         ∧ Frame.getitem out "turbine_id"
           = Ok (mjoin (zip_with (λ id t, replicate (length (rows t)) (Text id))
                                 (sorted names) tables)))
  ∧ (∀ before id after e,
       sorted names = before ++ id :: after →
       Forall (λ id', succeeds (load_turbine fs strptime rp windows signals id')) before →
       load_turbine fs strptime rp windows signals id = Raise e →
       _load_readings fs strptime to_timedelta rp X signals window_size = Raise e).
Proof.
  intros Hids Hwin Hnames.
  pose proof (mapM_cell_text _ _ Hnames) as Htext.
  assert (NoDup names) as Hnd.
  { apply (NoDup_fmap_1 Text). rewrite <- Htext. apply NoDup_unique. }
  assert (∀ tables, mapM (load_turbine fs strptime rp windows signals) (sorted names) = tables →
          _load_readings fs strptime to_timedelta rp X signals window_size
          = tables ≫= Frame.concat) as Hrun.
  { intros tables <-. unfold _load_readings.
    rewrite Hids. simpl. rewrite Hwin. simpl. by rewrite Hnames. }
  split; [|split; [|split]].
  - apply StronglySorted_strict; [|apply sorted_StronglySorted].
    by rewrite sorted_Permutation.
  - intros id. rewrite sorted_Permutation.
    rewrite <- (list_elem_of_fmap_inj Text), <- Htext, elem_of_unique.
    split; [by intros [? _] | split; [done | by inversion 1]].
  - intros tables Htables Hne.
    assert (tables ≠ []) as Hne'.
    { intros ->. apply Forall2_nil_inv_r in Htables.
      apply Hne. apply Permutation_nil_r. by rewrite <- sorted_Permutation, Htables. }
    assert (Forall2 (λ t col, Frame.getitem t "turbine_id" = Ok col) tables
              (zip_with (λ id t, replicate (length (rows t)) (Text id))
                        (sorted names) tables)) as Hcols.
    { clear -Htables. induction Htables as [|id t ids tables Ht _ IH]; simpl;
        constructor; [|done]. by eapply load_turbine_tagged. }
    destruct (concat_column _ _ _ _ Hne' Hcols) as (out & Hout & Hcol & Hindex).
    exists out. split; [|done].
    rewrite (Hrun (Ok tables)); [done|]. by apply mapM_Ok_Forall2.
  - intros before id after e Horder Hbefore Hid.
    rewrite (Hrun (Raise e)); [done|]. rewrite Horder. by apply mapM_Raise_first.
Qed.

Lemma load_readings_order_witness :
  StronglySorted str_lt (sorted ["T2"; "T1"])
  ∧ (∀ id, id ∈ sorted ["T2"; "T1"] ↔ Text id ∈ [Text "T2"; Text "T1"])
  ∧ (∀ tables,
       Forall2 (λ id t, load_turbine Fleet.disk Readers.log_datetime ""
                          Fleet.windows None id = Ok t)
               (sorted ["T2"; "T1"]) tables →
       ["T2"; "T1"] ≠ [] →
       ∃ out,
         _load_readings Fleet.disk Readers.log_datetime Readers.day_timedelta ""
           Fleet.target_times None (Some "30d") = Ok out
         ∧ Frame.concat tables = Ok out
         ∧ Frame.index out = mjoin (Frame.index <$> tables)
         ∧ Frame.getitem out "turbine_id"
           = Ok (mjoin (zip_with (λ id t, replicate (length (rows t)) (Text id))
                                 (sorted ["T2"; "T1"]) tables)))
  ∧ (∀ before id after e,
       sorted ["T2"; "T1"] = before ++ id :: after →
       Forall (λ id', succeeds (load_turbine Fleet.disk Readers.log_datetime ""
                                  Fleet.windows None id')) before →
       load_turbine Fleet.disk Readers.log_datetime "" Fleet.windows None id = Raise e →
       _load_readings Fleet.disk Readers.log_datetime Readers.day_timedelta ""
         Fleet.target_times None (Some "30d") = Raise e).
Proof.
  apply (load_readings_in_sorted_turbine_order Fleet.disk Readers.log_datetime
           Readers.day_timedelta "" Fleet.target_times None (Some "30d")
           [Text "T2"; Text "T1"] Fleet.windows ["T2"; "T1"]);
    vm_compute; reflexivity.
Defined.

(** The target events name T2 before T1; the readings of T1 come
    first. *)
Example fleet_readings :
  _load_readings Fleet.disk Readers.log_datetime Readers.day_timedelta ""
    Fleet.target_times None (Some "30d")
  = Frame.concat [Fleet.reading "T1" "1.5"; Fleet.reading "T2" "2.5"].
Proof. by vm_compute. Qed.

(** *** The readings of one turbine *)

Lemma remove_dups_NoDup {A} `{EqDecision A} (l : list A) : NoDup l → remove_dups l = l.
Proof.
  induction 1 as [|x l Hx _ IH]; simpl; [done|].
  destruct (decide_rel _ _ _); [done|]. by rewrite IH.
Qed.

Lemma filter_all {A} (P : A → Prop) `{∀ x, Decision (P x)} (l : list A) :
  Forall P l → filter P l = l.
Proof.
  induction 1 as [|x l Hx _ IH]; [done|].
  by rewrite filter_cons, decide_True, IH.
Qed.

Lemma filter_none {A} (P : A → Prop) `{∀ x, Decision (P x)} (l : list A) :
  Forall (λ x, ¬ P x) l → filter P l = [].
Proof.
  induction 1 as [|x l Hx _ IH]; [done|].
  by rewrite filter_cons, decide_False, IH.
Qed.

Lemma union_columns_same c tables :
  NoDup c → tables ≠ [] → Forall (λ t, columns t = c) tables →
  Frame.union_columns tables = c.
Proof.
  intros Hnd Hne Hall. destruct Hall as [|t tables Ht Hall]; [done|].
  unfold Frame.union_columns. simpl. rewrite Ht.
  rewrite filter_all by (apply Forall_true; by inversion 1).
  rewrite remove_dups_NoDup by done.
  clear t Ht Hne. induction Hall as [|t tables Ht _ IH]; simpl; [done|].
  rewrite Ht, filter_none by (apply Forall_forall; by intros x Hx Hn).
  simpl. by rewrite app_nil_r.
Qed.

Lemma concat_rows_empty all tables :
  Forall (λ t, rows t = []) tables → Frame.concat_rows all tables = [].
Proof.
  unfold Frame.concat_rows. induction 1 as [|t tables Ht _ IH]; [done|].
  by rewrite bind_cons, IH, Ht.
Qed.

Lemma load_readings_file_columns fs path data :
  _load_readings_file fs path = Ok data →
  ∃ file, csv_files fs !! path = Some file
          ∧ columns data = log_columns (header file).
Proof.
  unfold _load_readings_file, read_csv.
  intros (df & Hread & Hdata)%bind_Ok_inv.
  apply bind_Ok_inv in Hread as (file & Hfile%from_option_Ok & Hdf).
  exists file. split; [done|].
  destruct (decide (Forall _ _)); [|done]. injection Hdf as <-.
  unfold log_columns, Frame.delitem in *. simpl in *.
  set (cols := (λ c, if decide (c = "signal") then "signal_id" else c)
                 <$> (lower <$> header file)) in *.
  destruct (decide ("unnamed: 0" ∈ cols)) as [Hin|Hnot].
  - destruct (Frame.position "unnamed: 0" cols) eqn:Hpos; by simplify_eq/=.
  - apply position_None in Hnot. rewrite Hnot. by injection Hdata as <-.
Qed.

Lemma filter_by_signal_columns data signals data' :
  _filter_by_signal data signals = Ok data' → columns data' = columns data.
Proof.
  unfold _filter_by_signal. destruct signals as [s|]; [|by intros [= <-]].
  intros (ids & _ & (wanted & _ & [= <-])%bind_Ok_inv)%bind_Ok_inv. done.
Qed.

Lemma filter_by_timestamp_columns strptime data X out :
  X ≠ [] → _filter_by_timestamp strptime data X = Ok out →
  columns out = columns data.
Proof.
  intros HX. unfold _filter_by_timestamp.
  intros (column & Hcol & (timestamps & _ & Hout)%bind_Ok_inv)%bind_Ok_inv.
  destruct X as [|w X]; [done|]. injection Hout as <-. simpl.
  apply columns_setitem_present. by eapply column_Ok_elem.
Qed.

Lemma load_file_columns fs strptime path X signals readings_file t :
  X ≠ [] → load_file fs strptime path X signals readings_file = Ok t →
  ∃ file, csv_files fs !! path_join path readings_file = Some file
          ∧ columns t = log_columns (header file).
Proof.
  intros HX. unfold load_file.
  intros (data & Hdata & (data' & Hsig & Hts)%bind_Ok_inv)%bind_Ok_inv.
  destruct (load_readings_file_columns _ _ _ Hdata) as (file & Hfile & Hcols).
  exists file. split; [done|].
  rewrite (filter_by_timestamp_columns _ _ _ _ HX Hts).
  by rewrite (filter_by_signal_columns _ _ _ Hsig).
Qed.

Lemma head_filter_turbine id X first :
  head (filter (has_turbine_id id) X) = Some first → turbine_id first = id.
Proof.
  intros H. assert (first ∈ filter (has_turbine_id id) X) as Hin.
  { destruct (filter _ X); simplify_eq/=. by left. }
  by apply list_elem_of_filter in Hin as [? _].
Qed.

(** X18: for a turbine that has target events and a folder and whose
    windows hold timestamps (the selector yields), when no file of the
    folder is selected, or when the selected files are raw logs with
    the documented columns and every one of them is filtered down to no
    row, the assembly of the turbine ([_load_turbine_readings] and the
    attachment of the turbine id, lines 239-243) raises nothing and
    returns the table with no row and the columns timestamp, signal_id,
    value, turbine_id. *)
Theorem load_turbine_empty_canonical (fs : FileSystem) (strptime : string → option Z) (rp : string) (X : list TimeWindow) (signals : option DataFrame) (id : string) (names selected : list string) :
  filter (has_turbine_id (Text id)) X ≠ [] →
  listdir fs (path_join rp id) = Ok names →
  _filter_by_filename (filter (has_turbine_id (Text id)) X) (sorted names) = Ok selected →
  (selected = []
   ∨ ∃ tables,
       Forall2 (λ f t, load_file fs strptime (path_join rp id)
                         (filter (has_turbine_id (Text id)) X) signals f = Ok t
                       ∧ rows t = [])
               selected tables
       ∧ Forall (λ f, ∀ file,
                   csv_files fs !! path_join (path_join rp id) f = Some file →
                   log_columns (header file) = reading_columns)
                selected) →
  load_turbine fs strptime rp X signals id = Ok (Frame.empty canonical_columns).
Proof.
  intros HX Hdir Hselected Hsel. unfold load_turbine, _load_turbine_readings.
  set (turbine_X := filter (has_turbine_id (Text id)) X) in *.
  destruct (head turbine_X) as [first|] eqn:Hhead; [|by destruct turbine_X].
  simpl. rewrite (head_filter_turbine _ _ _ Hhead). simpl. rewrite Hdir. simpl.
  rewrite Hselected. simpl.
  destruct Hsel as [->|(tables & Hload & Hheaders)]; [done|].
  assert (mapM (load_file fs strptime (path_join rp id) turbine_X signals) selected
          = Ok tables) as ->.
  { apply mapM_Ok_Forall2. eapply Forall2_impl; [done|]. by intros ?? [? _]. }
  simpl. destruct tables as [|t tables]; [done|].
  assert (Forall (λ t, rows t = []) (t :: tables)) as Hempty.
  { eapply Forall2_Forall_r; [done|]. apply Forall_true. by intros ?? [_ ?]. }
  assert (Forall (λ t, columns t = reading_columns) (t :: tables)) as Hcols.
  { revert Hheaders. clear -Hload HX.
    induction Hload as [|f t' fs' ts' [Hf _] _ IH]; [done|].
    intros [Hh Hhs]%Forall_cons. constructor; [|by apply IH].
    destruct (load_file_columns _ _ _ _ _ _ _ HX Hf) as (file & Hfile & ->).
    by apply Hh. }
  rewrite concat_Ok by done.
  rewrite (union_columns_same reading_columns) by (done || compute_done).
  by rewrite concat_rows_empty.
Qed.

Lemma load_turbine_empty_witness :
  load_turbine (Scenario.disk "2020-02-.csv") Readers.log_datetime ""
    [Scenario.early_window] None "T1"
  = Ok (Frame.empty canonical_columns).
Proof.
  apply (load_turbine_empty_canonical (Scenario.disk "2020-02-.csv")
           Readers.log_datetime "" [Scenario.early_window] None "T1" ["2020-02-.csv"]
           ["2020-02-.csv"]).
  - vm_compute. discriminate.
  - reflexivity.
  - vm_compute. reflexivity.
  - right. exists [Frame.empty reading_columns]. split.
    + constructor; [|constructor]. split; by vm_compute.
    + constructor; [|constructor]. intros file Hfile.
      vm_compute in Hfile. injection Hfile as <-. reflexivity.
Defined.

(** C8, at the input where the code departs from it: the target event
    of the scenario, no lookback, and a folder of T1 that holds no log.
    The window of the event starts at [datetime.min], the selector
    raises [AttributeError] on the accessor [.dt] of its column of
    starts, and the assembly of the turbine, and with it the whole
    call, raises instead of returning the empty table.  With a lookback
    of thirty days the same call returns the table with no row and the
    four columns. *)
Theorem load_turbine_without_lookback_raises :
  _get_times Readers.day_timedelta
    (Frame.setitem Scenario.target_times "cutoff_time"
       [Stamp (Calendar.timestamp 2020 2 15 0 0 0)]) None
  = Ok [Bare.open_window]
  ∧ listdir Bare.disk "T1" = Ok []
  ∧ load_turbine Bare.disk Readers.log_datetime "" [Bare.open_window] None "T1"
    = Raise (AttributeError "dt")
  ∧ (load Bare.disk Readers.iso_datetime Readers.log_datetime Readers.day_timedelta ""
          (TargetFrame Scenario.caller) SignalsNone None false Scenario.heap).2
    = Raise (AttributeError "dt")
  ∧ (load Bare.disk Readers.iso_datetime Readers.log_datetime Readers.day_timedelta ""
          (TargetFrame Scenario.caller) SignalsNone (Some "30d") false Scenario.heap).2
    = Ok (2%positive, None, Frame.empty canonical_columns).
Proof. repeat split; by vm_compute. Qed.

(** Before the turbine id is attached, the table of such a turbine has
    the three columns of its logs. *)
Example untagged_empty_table :
  _load_turbine_readings (Scenario.disk "2020-02-.csv") Readers.log_datetime ""
    [Scenario.early_window] None
  = Ok (Frame.empty reading_columns).
Proof. by vm_compute. Qed.

(** *** The top-level call *)

Lemma load_run fs to_datetime_text strptime to_timedelta rp target_times signals window_size return_target σ df :
  resolves fs σ target_times df →
  load fs to_datetime_text strptime to_timedelta rp target_times signals window_size
       return_target σ
  = let X := fresh (dom σ) in
    match Frame.getitem df "cutoff_time" ≫= mapM (to_datetime to_datetime_text) with
    | Raise e => (<[X := df]> σ, Raise e)
    | Ok cutoff_time =>
        let df1 := Frame.setitem df "cutoff_time" cutoff_time in
        let σ1 := <[X := df1]> (<[X := df]> σ) in
        match check_duplicates df1 ≫= (λ _,
              normalize_signals fs signals ≫= (λ s,
              _load_readings fs strptime to_timedelta rp df1 s window_size)) with
        | Raise e => (σ1, Raise e)
        | Ok readings =>
            if return_target then
              match Frame.pop df1 "target" with
              | Raise e => (σ1, Raise e)
              | Ok (y, df2) => (<[X := df2]> σ1, Ok (X, Some y, readings))
              end
            else (σ1, Ok (X, None, readings))
        end
    end.
Proof.
  intros Hres. unfold load.
  assert ((match target_times with
           | TargetFrame l => Store.copy l
           | TargetPath path => df ← Store.lift (read_csv fs path); Store.alloc df
           end) σ = (<[fresh (dom σ) := df]> σ, Ok (fresh (dom σ)))) as Halloc.
  { destruct target_times as [l|path]; simpl in Hres.
    - unfold Store.copy, Store.deref, Store.alloc, mbind, Heap_bind. by rewrite Hres.
    - unfold Store.lift, Store.alloc, mbind, Heap_bind. by rewrite Hres. }
  unfold mbind at 1, Heap_bind at 1. rewrite Halloc. clear Halloc.
  set (X := fresh (dom σ)).
  unfold mbind at 1, Heap_bind at 1, Store.deref at 1.
  rewrite lookup_insert_eq. simpl.
  unfold mbind at 1, Heap_bind at 1, Store.lift at 1.
  destruct (Frame.getitem df "cutoff_time") as [cells|e]; simpl; [|done].
  unfold mbind at 1, Heap_bind at 1, Store.lift at 1.
  destruct (mapM (to_datetime to_datetime_text) cells) as [cutoff_time|e]; simpl; [|done].
  unfold mbind at 1, Heap_bind at 1, Store.assign at 1.
  unfold mbind at 1, Heap_bind at 1, Store.deref at 1.
  rewrite lookup_insert_eq. simpl.
  unfold mbind at 1, Heap_bind at 1, Store.lift at 1.
  destruct (check_duplicates _) as [[]|e]; simpl; [|done].
  unfold mbind at 1, Heap_bind at 1, Store.lift at 1.
  destruct (normalize_signals fs signals) as [s|e]; simpl; [|done].
  unfold mbind at 1, Heap_bind at 1, Store.lift at 1.
  destruct (_load_readings _ _ _ _ _ _ _) as [readings|e]; simpl; [|done].
  destruct return_target; [|done].
  unfold mbind at 1, Heap_bind at 1, Store.deref at 1.
  rewrite lookup_insert_eq. simpl.
  unfold mbind at 1, Heap_bind at 1, Store.lift at 1.
  destruct (Frame.pop _ _) as [[y df2]|e]; simpl; done.
Qed.

(** C10: a call given the target events as a table of the caller leaves
    that table, and every other table of the caller, as it was: the
    conversion of the cutoff times and the removal of the target column
    are made on a new table, the one the call returns. *)
Theorem load_leaves_caller_table (fs : FileSystem) (to_datetime_text strptime to_timedelta : string → option Z) (rp : string) (l : loc) (signals : signals_arg) (window_size : option string) (return_target : bool) (σ : gmap loc DataFrame) (df : DataFrame) :
  σ !! l = Some df →
  let run := load fs to_datetime_text strptime to_timedelta rp (TargetFrame l) signals
                  window_size return_target σ in
  run.1 !! l = Some df
  ∧ (∀ l', is_Some (σ !! l') → run.1 !! l' = σ !! l')
  ∧ (∀ X y readings, run.2 = Ok (X, y, readings) →
       X ≠ l ∧ σ !! X = None ∧ is_Some (run.1 !! X)).
Proof.
  intros Hl run.
  assert (σ !! fresh (dom σ) = None) as Hfresh.
  { apply not_elem_of_dom. apply is_fresh. }
  assert (∀ l', is_Some (σ !! l') → fresh (dom σ) ≠ l') as Hne.
  { intros l' [? Hl'] <-. congruence. }
  assert ((∀ l', is_Some (σ !! l') → run.1 !! l' = σ !! l')
          ∧ (∀ X y readings, run.2 = Ok (X, y, readings) →
               X = fresh (dom σ) ∧ is_Some (run.1 !! X))) as [Hframe Hnew].
  { unfold run. rewrite (load_run _ _ _ _ _ _ _ _ _ _ df) by done. simpl.
    destruct (Frame.getitem df "cutoff_time" ≫= _) as [cutoff_time|e]; simpl.
    2:{ split; [|done]. intros l' Hl'. by rewrite lookup_insert_ne by auto. }
    destruct (check_duplicates _ ≫= _) as [readings|e]; simpl.
    2:{ split; [|done]. intros l' Hl'. by rewrite !lookup_insert_ne by auto. }
    destruct return_target.
    - destruct (Frame.pop _ _) as [[y df2]|e]; simpl.
      + split.
        * intros l' Hl'. by rewrite !lookup_insert_ne by auto.
        * intros X y' r [= <- _ _]. by rewrite lookup_insert_eq.
      + split; [|done]. intros l' Hl'. by rewrite !lookup_insert_ne by auto.
    - simpl. split.
      + intros l' Hl'. by rewrite !lookup_insert_ne by auto.
      + intros X y' r [= <- _ _]. by rewrite lookup_insert_eq. }
  split; [|split].
  - rewrite Hframe by eauto. done.
  - done.
  - intros X y readings Hrun. destruct (Hnew _ _ _ Hrun) as [-> HX].
    split; [|done]. apply Hne. eauto.
Qed.

Lemma load_caller_table_witness :
  let run := load Fleet.disk Readers.iso_datetime Readers.log_datetime
                  Readers.day_timedelta "" (TargetFrame Fleet.caller) SignalsNone
                  (Some "30d") true Fleet.heap in
  run.1 !! Fleet.caller = Some Fleet.target_times
  ∧ (∀ l', is_Some (Fleet.heap !! l') → run.1 !! l' = Fleet.heap !! l')
  ∧ (∀ X y readings, run.2 = Ok (X, y, readings) →
       X ≠ Fleet.caller ∧ Fleet.heap !! X = None ∧ is_Some (run.1 !! X)).
Proof.
  apply (load_leaves_caller_table Fleet.disk Readers.iso_datetime Readers.log_datetime
           Readers.day_timedelta "" Fleet.caller SignalsNone (Some "30d") true
           Fleet.heap Fleet.target_times).
  reflexivity.
Defined.

(** The table the call returns has lost its target column; the table of
    the caller still has it. *)
Example fleet_load :
  let run := load Fleet.disk Readers.iso_datetime Readers.log_datetime
                  Readers.day_timedelta "" (TargetFrame Fleet.caller) SignalsNone
                  (Some "30d") true Fleet.heap in
  run.2 = (λ readings, (2%positive, Some [Text "1"; Text "0"], readings))
            <$> Frame.concat [Fleet.reading "T1" "1.5"; Fleet.reading "T2" "2.5"]
  ∧ columns <$> run.1 !! 2%positive = Some ["turbine_id"; "cutoff_time"]
  ∧ columns <$> run.1 !! Fleet.caller = Some ["turbine_id"; "cutoff_time"; "target"].
Proof. by vm_compute. Qed.

(** *** Validation of the target events *)

Lemma length_drop_duplicates {K A} `{EqDecision K} (seen : list K) (l : list (K * A)) :
  (length (Frame.drop_duplicates seen l) ≤ length l)%nat.
Proof.
  revert seen. induction l as [|[k x] l IH]; intros seen; simpl; [done|].
  destruct (decide (k ∈ seen)); simpl.
  - specialize (IH seen). lia.
  - specialize (IH (k :: seen)). lia.
Qed.

Lemma drop_duplicates_keeps_all {K A} `{EqDecision K} (seen : list K) (l : list (K * A)) :
  length (Frame.drop_duplicates seen l) = length l
  ↔ NoDup l.*1 ∧ ∀ k, k ∈ l.*1 → k ∉ seen.
Proof.
  revert seen. induction l as [|[k x] l IH]; intros seen; simpl.
  - split; [|done]. intros _. split; [constructor | by inversion 1].
  - destruct (decide (k ∈ seen)) as [Hk|Hk]; simpl.
    + split.
      * pose proof (length_drop_duplicates seen l). lia.
      * intros [_ Hall]. exfalso. by apply (Hall k); [left|].
    + rewrite NoDup_cons. split.
      * intros [= Hlen]. apply IH in Hlen as [Hnd Hall]. split; [split|].
        -- intros Hin. apply (Hall _ Hin). by left.
        -- done.
        -- intros k' [->|Hin]%elem_of_cons; [done|].
           intros Hs. apply (Hall _ Hin). by right.
      * intros [[Hnot Hnd] Hall]. f_equal. apply IH. split; [done|].
        intros k' Hin [->|Hs]%elem_of_cons; [done|].
        apply (Hall k'); [by right | done].
Qed.

Lemma check_duplicates_spec X cutoffs ids :
  Frame.getitem X "cutoff_time" = Ok cutoffs →
  Frame.getitem X "turbine_id" = Ok ids →
  check_duplicates X
  = if decide (NoDup (zip cutoffs ids)) then Ok () else Raise duplicate_rows.
Proof.
  intros Hc Hi. unfold check_duplicates. rewrite Hc. simpl. rewrite Hi. simpl.
  pose proof (column_length _ _ _ _ Hc) as Lc.
  pose proof (column_length _ _ _ _ Hi) as Li.
  pose proof (drop_duplicates_keeps_all [] (zip (zip cutoffs ids) (rows X))) as Hdd.
  rewrite fst_zip in Hdd by (rewrite length_zip; lia).
  rewrite length_zip, length_zip in Hdd.
  replace ((length cutoffs `min` length ids) `min` length (rows X))%nat
    with (length (rows X)) in Hdd by lia.
  destruct (decide (NoDup (zip cutoffs ids))) as [Hnd|Hnd].
  - rewrite decide_False; [done|]. intros Hne. apply Hne. symmetry. apply Hdd.
    split; [done|]. intros k _. by inversion 1.
  - rewrite decide_True; [done|]. intros Heq. apply Hnd. symmetry in Heq.
    by apply Hdd in Heq as [? _].
Qed.

Lemma zip_fmap_same {A B C} (f : A → B) (g : A → C) (l : list A) :
  zip (f <$> l) (g <$> l) = (λ x, (f x, g x)) <$> l.
Proof. induction l as [|x l IH]; simpl; [done|]. by f_equal. Qed.

Lemma event_pairs_inv to_datetime_text df pairs :
  event_pairs to_datetime_text df = Ok pairs →
  ∃ i j,
    Frame.position "cutoff_time" (columns df) = Some i
    ∧ Frame.position "turbine_id" (columns df) = Some j
    ∧ Forall (λ r : row, succeeds (to_datetime to_datetime_text (Frame.at_position i r.2)))
             (rows df)
    ∧ pairs = pair_of to_datetime_text i j <$> rows df.
Proof.
  unfold event_pairs, Frame.getitem, Frame.column.
  destruct (Frame.position "cutoff_time" (columns df)) as [i|]; [|done].
  destruct (Frame.position "turbine_id" (columns df)) as [j|]; simpl.
  2:{ by destruct (mapM _ _). }
  intros (cutoffs & Hmap & [= <-])%bind_Ok_inv. exists i, j.
  apply mapM_Ok_Forall2 in Hmap. do 2 (split; [done|]).
  revert cutoffs Hmap. induction (rows df) as [|r rs IH]; intros cutoffs Hmap.
  - apply Forall2_nil_inv_l in Hmap as ->. by split.
  - rewrite fmap_cons in Hmap.
    apply Forall2_cons_inv_l in Hmap as (c & cutoffs' & Hc & Hrest & ->).
    destruct (IH _ Hrest) as [Hall Heq]. split.
    + constructor; [by exists c | done].
    + simpl. f_equal; [|exact Heq]. unfold pair_of. by rewrite Hc.
Qed.

Lemma event_pairs_fmap to_datetime_text df i j :
  Frame.position "cutoff_time" (columns df) = Some i →
  Frame.position "turbine_id" (columns df) = Some j →
  Forall (λ r : row, succeeds (to_datetime to_datetime_text (Frame.at_position i r.2)))
         (rows df) →
  event_pairs to_datetime_text df = Ok (pair_of to_datetime_text i j <$> rows df).
Proof.
  intros Hi Hj Hall. unfold event_pairs, Frame.getitem, Frame.column.
  rewrite Hi, Hj. simpl.
  assert (mapM (to_datetime to_datetime_text)
               ((λ r : row, Frame.at_position i r.2) <$> rows df)
          = Ok ((λ r, (pair_of to_datetime_text i j r).1) <$> rows df)) as ->.
  { apply mapM_Ok_Forall2. induction Hall as [|r rs [c Hc] _ IH]; simpl;
      constructor; [|done]. unfold pair_of. simpl. by rewrite Hc. }
  simpl. by rewrite zip_fmap_same.
Qed.

Lemma event_pairs_Permutation to_datetime_text df df' pairs :
  columns df' = columns df → rows df' ≡ₚ rows df →
  event_pairs to_datetime_text df = Ok pairs →
  ∃ pairs', event_pairs to_datetime_text df' = Ok pairs' ∧ pairs' ≡ₚ pairs.
Proof.
  intros Hcols Hrows (i & j & Hi & Hj & Hall & ->)%event_pairs_inv.
  exists (pair_of to_datetime_text i j <$> rows df'). split.
  - apply event_pairs_fmap; rewrite ?Hcols; try done. by rewrite Hrows.
  - by rewrite Hrows.
Qed.

Lemma event_pairs_columns to_datetime_text df pairs :
  event_pairs to_datetime_text df = Ok pairs →
  Frame.getitem df "cutoff_time" ≫= mapM (to_datetime to_datetime_text) = Ok pairs.*1
  ∧ Frame.getitem (Frame.setitem df "cutoff_time" pairs.*1) "cutoff_time" = Ok pairs.*1
  ∧ Frame.getitem (Frame.setitem df "cutoff_time" pairs.*1) "turbine_id" = Ok pairs.*2
  ∧ zip pairs.*1 pairs.*2 = pairs.
Proof.
  unfold event_pairs.
  intros (cells & Hcells & (cutoffs & Hmap & (ids & Hids & [= <-])%bind_Ok_inv)
            %bind_Ok_inv)%bind_Ok_inv.
  pose proof (column_length _ _ _ _ Hcells) as Lcells.
  pose proof (column_length _ _ _ _ Hids) as Lids.
  pose proof (mapM_Ok_length _ _ _ Hmap) as Lmap.
  rewrite fst_zip, snd_zip by lia.
  split; [by rewrite Hcells|]. split; [|split; [|done]].
  - apply column_setitem_eq. lia.
  - unfold Frame.getitem. rewrite column_setitem_ne; [done..|lia].
Qed.

Lemma load_result fs to_datetime_text strptime to_timedelta rp target_times signals window_size return_target σ df pairs :
  resolves fs σ target_times df →
  event_pairs to_datetime_text df = Ok pairs →
  (load fs to_datetime_text strptime to_timedelta rp target_times signals window_size
        return_target σ).2
  = if decide (NoDup pairs) then
      s ← normalize_signals fs signals;
      readings ← _load_readings fs strptime to_timedelta rp
                   (Frame.setitem df "cutoff_time" pairs.*1) s window_size;
      if return_target then
        popped ← Frame.pop (Frame.setitem df "cutoff_time" pairs.*1) "target";
        Ok (fresh (dom σ), Some popped.1, readings)
      else Ok (fresh (dom σ), None, readings)
    else Raise duplicate_rows.
Proof.
  intros Hres (Hconv & Hcut & Hids & Hzip)%event_pairs_columns.
  rewrite (load_run _ _ _ _ _ _ _ _ _ _ df) by done. simpl.
  rewrite Hconv. rewrite (check_duplicates_spec _ _ _ Hcut Hids), Hzip.
  destruct (decide (NoDup pairs)); simpl; [|done].
  destruct (normalize_signals fs signals) as [s|e]; simpl; [|done].
  destruct (_load_readings _ _ _ _ _ _ _) as [readings|e]; simpl; [|done].
  destruct return_target; [|done].
  by destruct (Frame.pop _ _) as [[y df2]|e].
Qed.

Lemma pop_setitem_other df name name' values :
  name ≠ name' → length values = length (rows df) →
  name ∈ columns df → name' ∈ columns df →
  ∃ col rest, Frame.pop (Frame.setitem df name values) name' = Ok (col, rest)
              ∧ Frame.getitem df name' = Ok col.
Proof.
  intros Hne Hlen Hin Hin'. unfold Frame.pop, Frame.getitem.
  rewrite column_setitem_ne by done.
  unfold Frame.column, Frame.delitem.
  rewrite (columns_setitem_present _ _ _ Hin).
  destruct (position_is_Some _ _ Hin') as [j ->]. simpl. eauto.
Qed.

(** C3, as the code has it.  For a table of target events whose cutoff
    times convert, the check of lines 280-282 passes exactly when the
    [(cutoff_time, turbine_id)] pairs are distinct.  When a pair occurs
    twice, the call raises the validation error, and so does the call on
    the same rows in any other order; when the pairs are distinct, the
    call returns the readings as soon as the signals are normalised, the
    readings assemble and, if the target is split off, the table has a
    target column. *)
Theorem load_rejects_exactly_duplicates (fs : FileSystem) (to_datetime_text strptime to_timedelta : string → option Z) (rp : string) (target_times : target_times_arg) (signals : signals_arg) (window_size : option string) (return_target : bool) (σ : gmap loc DataFrame) (df : DataFrame) (pairs : list (cell * cell)) :
  resolves fs σ target_times df →
  event_pairs to_datetime_text df = Ok pairs →
  (NoDup pairs ↔
   check_duplicates (Frame.setitem df "cutoff_time" pairs.*1) = Ok ())
  ∧ (¬ NoDup pairs →
   ∀ σ' target_times' df',
     resolves fs σ' target_times' df' →
     columns df' = columns df → rows df' ≡ₚ rows df →
     (load fs to_datetime_text strptime to_timedelta rp target_times' signals
           window_size return_target σ').2 = Raise duplicate_rows)
  ∧ (NoDup pairs →
     ∀ s readings,
       normalize_signals fs signals = Ok s →
       _load_readings fs strptime to_timedelta rp
         (Frame.setitem df "cutoff_time" pairs.*1) s window_size = Ok readings →
       (return_target = true → "target" ∈ columns df) →
       ∃ y,
         (load fs to_datetime_text strptime to_timedelta rp target_times signals
               window_size return_target σ).2 = Ok (fresh (dom σ), y, readings)
         ∧ if return_target
           then ∃ col, Frame.getitem df "target" = Ok col ∧ y = Some col
           else y = None).
Proof.
  intros Hres Hpairs. split; [|split].
  - destruct (event_pairs_columns _ _ _ Hpairs) as (_ & Hcut & Hids & Hzip).
    rewrite (check_duplicates_spec _ _ _ Hcut Hids), Hzip.
    by destruct (decide (NoDup pairs)).
  - intros Hdup σ' target_times' df' Hres' Hcols Hrows.
    destruct (event_pairs_Permutation _ _ _ _ Hcols Hrows Hpairs) as (pairs' & Hpairs' & Hperm).
    rewrite (load_result _ _ _ _ _ _ _ _ _ _ _ _ Hres' Hpairs').
    rewrite decide_False; [done|]. by rewrite Hperm.
  - intros Hnd s readings Hs Hreadings Htarget.
    rewrite (load_result _ _ _ _ _ _ _ _ _ _ _ _ Hres Hpairs).
    rewrite decide_True by done. rewrite Hs. simpl. rewrite Hreadings. simpl.
    destruct return_target; [|by exists None].
    apply event_pairs_columns in Hpairs as (Hconv & Hcut & _ & _).
    apply bind_Ok_inv in Hconv as (cells & Hcells & Hmap).
    destruct (pop_setitem_other df "cutoff_time" "target" pairs.*1)
      as (col & rest & -> & Hcol); try done.
    + rewrite (mapM_Ok_length _ _ _ Hmap). by eapply column_length.
    + by eapply column_Ok_elem.
    + by apply Htarget.
    + simpl. exists (Some col). split; [done|]. by exists col.
Qed.

(** C3, the claim refuted: one target event, hence distinct pairs, for
    a turbine that has no folder; the call raises the error of
    [os.listdir]. *)
Lemma distinct_pairs_missing_folder :
  ∃ pairs,
    event_pairs Readers.iso_datetime Scenario.target_times = Ok pairs
    ∧ NoDup pairs
    ∧ (load {| directories := ∅; csv_files := ∅ |} Readers.iso_datetime
            Readers.log_datetime Readers.day_timedelta ""
            (TargetFrame Scenario.caller) SignalsNone (Some "30d") false
            Scenario.heap).2
      = Raise (FileNotFoundError "T1").
Proof.
  eexists. split; [by vm_compute|]. split; [|by vm_compute].
  apply NoDup_singleton.
Qed.

Lemma load_validation_witness :
  (NoDup [(Stamp (Calendar.timestamp 2020 2 15 0 0 0), Text "T2");
          (Stamp (Calendar.timestamp 2020 2 15 0 0 0), Text "T1")] ↔
   check_duplicates
     (Frame.setitem Fleet.target_times "cutoff_time"
        [(Stamp (Calendar.timestamp 2020 2 15 0 0 0), Text "T2");
         (Stamp (Calendar.timestamp 2020 2 15 0 0 0), Text "T1")].*1) = Ok ())
  ∧ (¬ NoDup [(Stamp (Calendar.timestamp 2020 2 15 0 0 0), Text "T2");
            (Stamp (Calendar.timestamp 2020 2 15 0 0 0), Text "T1")] →
   ∀ σ' target_times' df',
     resolves Fleet.disk σ' target_times' df' →
     columns df' = columns Fleet.target_times → rows df' ≡ₚ rows Fleet.target_times →
     (load Fleet.disk Readers.iso_datetime Readers.log_datetime Readers.day_timedelta ""
           target_times' SignalsNone (Some "30d") true σ').2 = Raise duplicate_rows)
  ∧ (NoDup [(Stamp (Calendar.timestamp 2020 2 15 0 0 0), Text "T2");
            (Stamp (Calendar.timestamp 2020 2 15 0 0 0), Text "T1")] →
     ∀ s readings,
       normalize_signals Fleet.disk SignalsNone = Ok s →
       _load_readings Fleet.disk Readers.log_datetime Readers.day_timedelta ""
         (Frame.setitem Fleet.target_times "cutoff_time"
            [(Stamp (Calendar.timestamp 2020 2 15 0 0 0), Text "T2");
             (Stamp (Calendar.timestamp 2020 2 15 0 0 0), Text "T1")].*1)
         s (Some "30d") = Ok readings →
       (true = true → "target" ∈ columns Fleet.target_times) →
       ∃ y,
         (load Fleet.disk Readers.iso_datetime Readers.log_datetime
               Readers.day_timedelta "" (TargetFrame Fleet.caller) SignalsNone
               (Some "30d") true Fleet.heap).2
         = Ok (fresh (dom Fleet.heap), y, readings)
         ∧ ∃ col, Frame.getitem Fleet.target_times "target" = Ok col ∧ y = Some col).
Proof.
  apply (load_rejects_exactly_duplicates Fleet.disk Readers.iso_datetime
           Readers.log_datetime Readers.day_timedelta "" (TargetFrame Fleet.caller)
           SignalsNone (Some "30d") true Fleet.heap Fleet.target_times).
  - reflexivity.
  - vm_compute. reflexivity.
Defined.

(** The same event twice: the call raises the validation error. *)
Example duplicated_event_rejected :
  (load Fleet.disk Readers.iso_datetime Readers.log_datetime Readers.day_timedelta ""
        (TargetFrame 1%positive) SignalsNone (Some "30d") false
        {[ 1%positive :=
             {| columns := ["turbine_id"; "cutoff_time"];
                rows := [(0, [Text "T1"; Text "2020-02-15 00:00:00"]);
                         (1, [Text "T2"; Text "2020-02-15 00:00:00"]);
                         (2, [Text "T1"; Stamp (Calendar.timestamp 2020 2 15 0 0 0)])] |} ]}).2
  = Raise duplicate_rows.
Proof. by vm_compute. Qed.

(** A table with no target event has no duplicate, and the final
    [pd.concat] has nothing to concatenate. *)
Example no_event_no_readings :
  (load Fleet.disk Readers.iso_datetime Readers.log_datetime Readers.day_timedelta ""
        (TargetFrame 1%positive) SignalsNone (Some "30d") false
        {[ 1%positive := Frame.empty ["turbine_id"; "cutoff_time"] ]}).2
  = Raise no_objects.
Proof. by vm_compute. Qed.

(** *** The scenario of one turbine and one monthly log *)

(** C1, at the input where the code departs from it: the folder of T1
    holds the log [2020-02.csv], whose first row is of 2020-02-10, inside
    the window from 2020-01-16 to 2020-02-15 of the target event; the
    selection by name yields no file.  The encoded end of the window is
    [2020-02-.csv], and [2020-02.csv] is above it in the order of
    strings. *)
Theorem selector_skips_log_with_row_in_window :
  _get_times Readers.day_timedelta
    (Frame.setitem Scenario.target_times "cutoff_time"
       [Stamp (Calendar.timestamp 2020 2 15 0 0 0)])
    (Some "30d") = Ok [Scenario.window]
  ∧ Readers.log_datetime "02/10/20 00:00:00" = Some (Calendar.timestamp 2020 2 10 0 0 0)
  ∧ inside Scenario.window (Some (Calendar.timestamp 2020 2 10 0 0 0))
  ∧ listdir (Scenario.disk "2020-02.csv") "T1" = Ok ["2020-02.csv"]
  ∧ _filter_by_filename [Scenario.window] (sorted ["2020-02.csv"]) = Ok []
  ∧ Calendar.strftime_Ym_csv (Calendar.timestamp 2020 2 15 0 0 0) = "2020-02-.csv"
  ∧ ¬ str_le "2020-02.csv" "2020-02-.csv".
Proof.
  repeat split; try by vm_compute.
  eexists _, _, _. repeat split; by vm_compute.
Qed.

(** C2, at its own input: with the log stored as [T1/2020-02.csv] the
    call returns a table of readings with no row. *)
Theorem scenario_returns_no_reading :
  (Scenario.run "2020-02.csv").2
  = Ok (2%positive, None, Frame.empty canonical_columns).
Proof. by vm_compute. Qed.

(** With the log stored as [T1/2020-02-.csv] the call returns the row of
    2020-02-10 and not that of 2020-01-01. *)
Example scenario_with_encoded_name :
  (Scenario.run "2020-02-.csv").2
  = Ok (2%positive, None,
        {| columns := canonical_columns;
           rows := [(0, [Stamp (Calendar.timestamp 2020 2 10 0 0 0);
                         Text "S1"; Text "3.2"; Text "T1"])] |}).
Proof. by vm_compute. Qed.

(** ** Further properties of the code *)

(** *** The encoded month of a timestamp *)

Ltac div_lia := Z.to_euclidean_division_equations; lia.

Lemma civil_month_number z :
  let '(y, m, _) := Calendar.civil_from_days z in
  1 ≤ m ≤ 12
  ∧ 12 * y + m
    = 4800 * ((z + 719468) `div` 146097)
      + 12 * (let doe := (z + 719468) `mod` 146097 in
              (doe - doe `div` 1460 + doe `div` 36524 - doe `div` 146096) `div` 365)
      + (let doe := (z + 719468) `mod` 146097 in
         let yoe := (doe - doe `div` 1460 + doe `div` 36524 - doe `div` 146096) `div` 365 in
         (5 * (doe - (365 * yoe + yoe `div` 4 - yoe `div` 100)) + 2) `div` 153)
      + 3.
Proof.
  unfold Calendar.civil_from_days.
  set (z' := z + 719468).
  replace (z' - z' `div` 146097 * 146097) with (z' `mod` 146097) by div_lia.
  set (doe := z' `mod` 146097).
  assert (0 ≤ doe ≤ 146096) as Hdoe by (unfold doe; div_lia).
  cbv zeta.
  set (yoe := (doe - doe `div` 1460 + doe `div` 36524 - doe `div` 146096) `div` 365).
  assert (0 ≤ yoe ≤ 399) as Hyoe by (unfold yoe; div_lia).
  set (doy := doe - (365 * yoe + yoe `div` 4 - yoe `div` 100)).
  assert (0 ≤ doy ≤ 365) as Hdoy by (unfold doy, yoe; div_lia).
  set (mp := (5 * doy + 2) `div` 153).
  assert (0 ≤ mp ≤ 11) as Hmp by (unfold mp; div_lia).
  repeat case_decide; lia.
Qed.

Lemma era_key_mono d1 d2 :
  0 ≤ d1 ≤ d2 → d2 ≤ 146096 →
  12 * ((d1 - d1 `div` 1460 + d1 `div` 36524 - d1 `div` 146096) `div` 365)
  + (let yoe := (d1 - d1 `div` 1460 + d1 `div` 36524 - d1 `div` 146096) `div` 365 in
     (5 * (d1 - (365 * yoe + yoe `div` 4 - yoe `div` 100)) + 2) `div` 153)
  ≤ 12 * ((d2 - d2 `div` 1460 + d2 `div` 36524 - d2 `div` 146096) `div` 365)
    + (let yoe := (d2 - d2 `div` 1460 + d2 `div` 36524 - d2 `div` 146096) `div` 365 in
       (5 * (d2 - (365 * yoe + yoe `div` 4 - yoe `div` 100)) + 2) `div` 153).
Proof.
  intros H1 H2. cbv zeta.
  set (y1 := (d1 - d1 `div` 1460 + d1 `div` 36524 - d1 `div` 146096) `div` 365).
  set (y2 := (d2 - d2 `div` 1460 + d2 `div` 36524 - d2 `div` 146096) `div` 365).
  assert (y1 ≤ y2) as Hy by (unfold y1, y2; div_lia).
  assert (0 ≤ y1 ≤ 399) as Hy1 by (unfold y1; div_lia).
  assert (0 ≤ y2 ≤ 399) as Hy2 by (unfold y2; div_lia).
  set (doy1 := d1 - (365 * y1 + y1 `div` 4 - y1 `div` 100)).
  set (doy2 := d2 - (365 * y2 + y2 `div` 4 - y2 `div` 100)).
  assert (0 ≤ doy1 ≤ 365) as Hd1 by (unfold doy1, y1; div_lia).
  assert (0 ≤ doy2 ≤ 365) as Hd2 by (unfold doy2, y2; div_lia).
  destruct (decide (y1 = y2)) as [E|N].
  - assert (doy1 ≤ doy2) by (unfold doy1, doy2; rewrite E; lia).
    rewrite E. div_lia.
  - div_lia.
Qed.

Lemma civil_month_number_mono z1 z2 :
  z1 ≤ z2 →
  (let '(y, m, _) := Calendar.civil_from_days z1 in 12 * y + m)
  ≤ (let '(y, m, _) := Calendar.civil_from_days z2 in 12 * y + m).
Proof.
  intros Hz.
  pose proof (civil_month_number z1) as H1. pose proof (civil_month_number z2) as H2.
  destruct (Calendar.civil_from_days z1) as [[y1 m1] dd1].
  destruct (Calendar.civil_from_days z2) as [[y2 m2] dd2].
  destruct H1 as [_ ->], H2 as [_ ->].
  set (e1 := (z1 + 719468) `div` 146097). set (e2 := (z2 + 719468) `div` 146097).
  set (d1 := (z1 + 719468) `mod` 146097). set (d2 := (z2 + 719468) `mod` 146097).
  assert (0 ≤ d1 ≤ 146096) as Hd1 by (unfold d1; div_lia).
  assert (0 ≤ d2 ≤ 146096) as Hd2 by (unfold d2; div_lia).
  assert (e1 ≤ e2) as He by (unfold e1, e2; div_lia).
  destruct (decide (e1 = e2)) as [E|N].
  - assert (d1 ≤ d2) by (unfold d1, d2, e1, e2 in *; div_lia).
    pose proof (era_key_mono d1 d2 ltac:(lia) ltac:(lia)). rewrite E. cbv zeta in *. lia.
  - pose proof (era_key_mono d1 146096 ltac:(lia) ltac:(lia)) as Hmax.
    pose proof (era_key_mono 0 d2 ltac:(lia) ltac:(lia)) as Hmin.
    cbv zeta in *.
    change ((146096 - 146096 `div` 1460 + 146096 `div` 36524 - 146096 `div` 146096) `div` 365)
      with 399 in Hmax.
    change ((0 - 0 `div` 1460 + 0 `div` 36524 - 0 `div` 146096) `div` 365) with 0 in Hmin.
    change ((5 * (146096 - (365 * 399 + 399 `div` 4 - 399 `div` 100)) + 2) `div` 153)
      with 11 in Hmax.
    change ((5 * (0 - (365 * 0 + 0 `div` 4 - 0 `div` 100)) + 2) `div` 153) with 0 in Hmin.
    lia.
Qed.

Lemma month_number_mono t1 t2 : t1 ≤ t2 → month_number t1 ≤ month_number t2.
Proof.
  intros Ht. unfold month_number, Calendar.year_month.
  assert (t1 `div` Calendar.ns_per_day ≤ t2 `div` Calendar.ns_per_day) as Hz.
  { apply Z.div_le_mono; [done | lia]. }
  pose proof (civil_month_number_mono _ _ Hz) as H.
  destruct (Calendar.civil_from_days (t1 `div` Calendar.ns_per_day)) as [[y1 m1] dd1].
  destruct (Calendar.civil_from_days (t2 `div` Calendar.ns_per_day)) as [[y2 m2] dd2].
  done.
Qed.

Lemma year_month_range t :
  Calendar.datetime_min ≤ t ≤ datetime_max →
  let '(y, m) := Calendar.year_month t in 1 ≤ y ≤ 9999 ∧ 1 ≤ m ≤ 12.
Proof.
  intros [Hlo Hhi].
  pose proof (month_number_mono _ _ Hlo) as H1.
  pose proof (month_number_mono _ _ Hhi) as H2.
  change (month_number Calendar.datetime_min) with 13 in H1.
  change (month_number datetime_max) with (12 * 9999 + 12) in H2.
  unfold month_number, Calendar.year_month in *.
  pose proof (civil_month_number (t `div` Calendar.ns_per_day)) as Hm.
  destruct (Calendar.civil_from_days (t `div` Calendar.ns_per_day)) as [[y m] dd].
  destruct Hm as [Hm _]. lia.
Qed.

Lemma string_compare_app s1 s2 t1 t2 :
  String.length s1 = String.length s2 →
  String.compare (s1 +:+ t1) (s2 +:+ t2)
  = match String.compare s1 s2 with
    | Eq => String.compare t1 t2
    | c => c
    end.
Proof.
  revert s2. induction s1 as [|c1 s1 IH]; intros [|c2 s2] Hlen; simplify_eq/=; [done|].
  destruct (Ascii.compare c1 c2); [by apply IH | done | done].
Qed.

Lemma string_length_app s t :
  String.length (s +:+ t) = (String.length s + String.length t)%nat.
Proof. induction s as [|c s IH]; simpl; [done|]. by rewrite IH. Qed.

Lemma length_zero_padded w n : String.length (Calendar.zero_padded w n) = w.
Proof.
  revert n. induction w as [|w IH]; intros n; simpl; [done|].
  rewrite string_length_app, IH. simpl. lia.
Qed.

Lemma digit_compare a b :
  Ascii.compare (Calendar.digit a) (Calendar.digit b) = (a `mod` 10 ?= b `mod` 10).
Proof.
  unfold Ascii.compare, Calendar.digit.
  rewrite !N_ascii_embedding by (apply N2Z.inj_lt; rewrite Z2N.id; div_lia).
  rewrite Z2N.inj_compare by div_lia. apply Z.add_compare_mono_l.
Qed.

Lemma zero_padded_compare w a b :
  0 ≤ a < 10 ^ Z.of_nat w → 0 ≤ b < 10 ^ Z.of_nat w →
  String.compare (Calendar.zero_padded w a) (Calendar.zero_padded w b) = (a ?= b).
Proof.
  revert a b. induction w as [|w IH]; intros a b Ha Hb.
  - simpl in *. assert (a = b) as -> by lia. by rewrite Z.compare_refl.
  - rewrite Nat2Z.inj_succ, Z.pow_succ_r in Ha, Hb by lia. simpl.
    rewrite string_compare_app by (by rewrite !length_zero_padded).
    rewrite IH by div_lia. simpl. rewrite digit_compare.
    destruct (Z.compare_spec (a `div` 10) (b `div` 10)) as [E|L|G].
    + destruct (Z.compare_spec (a `mod` 10) (b `mod` 10)) as [E'|L'|G'].
      * symmetry. apply Z.compare_eq_iff. div_lia.
      * symmetry. apply Z.compare_lt_iff. div_lia.
      * symmetry. apply Z.compare_gt_iff. div_lia.
    + symmetry. apply Z.compare_lt_iff. div_lia.
    + symmetry. apply Z.compare_gt_iff. div_lia.
Qed.

(** The names [strftime('%Y-%m-.csv')] gives are ordered like the months
    they encode, for the years of four digits. *)
Lemma strftime_Ym_csv_mono t1 t2 :
  Calendar.datetime_min ≤ t1 → t1 ≤ t2 → t2 ≤ datetime_max →
  str_le (Calendar.strftime_Ym_csv t1) (Calendar.strftime_Ym_csv t2).
Proof.
  intros Hlo Hle Hhi.
  pose proof (year_month_range t1 ltac:(lia)) as R1.
  pose proof (year_month_range t2 ltac:(lia)) as R2.
  pose proof (month_number_mono _ _ Hle) as Hm.
  unfold month_number, Calendar.strftime_Ym_csv in *.
  destruct (Calendar.year_month t1) as [y1 m1], (Calendar.year_month t2) as [y2 m2].
  unfold str_le, String.leb.
  rewrite string_compare_app by (by rewrite !length_zero_padded).
  rewrite zero_padded_compare by (simpl; lia).
  destruct (Z.compare_spec y1 y2) as [E|L|G]; [|done|lia].
  simpl. rewrite !digit_compare.
  destruct (Z.compare_spec ((m1 `div` 10) `mod` 10) ((m2 `div` 10) `mod` 10)) as [E'|L'|G'];
    [|done|div_lia].
  destruct (Z.compare_spec (m1 `mod` 10) (m2 `mod` 10)) as [E''|L''|G'']; [done|done|div_lia].
Qed.

(** *** Selection of the files by name, continued *)

Lemma timestamped_in_bounds X w s e :
  timestamped X → w ∈ X → start w = Some s → end_ w = Some e →
  Calendar.in_bounds s ∧ Calendar.in_bounds e.
Proof.
  intros [Hend Hstart] Hw Hs He. unfold datetimelike in *.
  rewrite Forall_fmap, Forall_forall in Hend, Hstart.
  specialize (Hend w Hw). specialize (Hstart w Hw). simpl in *.
  rewrite He in Hend. rewrite Hs in Hstart. done.
Qed.

Lemma in_bounds_four_digits t :
  Calendar.in_bounds t → Calendar.datetime_min ≤ t ≤ datetime_max.
Proof.
  assert (Calendar.datetime_min ≤ Calendar.timestamp_min) by (by vm_compute).
  assert (Calendar.timestamp_max ≤ datetime_max) by (by vm_compute).
  unfold Calendar.in_bounds. lia.
Qed.

(** X1: for the windows of a call with a lookback (their times are
    timestamps), a log named by [strftime('%Y-%m-.csv')] after the month
    of one of its rows is yielded whenever that row falls within a
    window of the turbine: no such log is skipped. *)
Theorem filter_by_filename_keeps_month_of_row (X : list TimeWindow) (filenames : list string) (w : TimeWindow) (s e τ : Z) :
  timestamped X →
  w ∈ X → start w = Some s → end_ w = Some e →
  s ≤ τ ≤ e →
  Calendar.strftime_Ym_csv τ ∈ filenames →
  ∃ selected,
    _filter_by_filename X filenames = Ok selected
    ∧ Calendar.strftime_Ym_csv τ ∈ selected.
Proof.
  intros HX Hw Hs He [Hsτ Hτe] Hin.
  destruct (timestamped_in_bounds _ _ _ _ HX Hw Hs He) as [Hlo%in_bounds_four_digits
                                                             Hhi%in_bounds_four_digits].
  exists (selection X filenames). split; [by apply filter_by_filename_timestamped|].
  apply elem_of_selection. split; [done|]. exists w. split; [done|].
  exists s, e. repeat split; try done.
  - apply strftime_Ym_csv_mono; lia.
  - apply strftime_Ym_csv_mono; lia.
Qed.

Lemma filter_by_filename_month_witness :
  ∃ selected,
    _filter_by_filename [Scenario.window] ["2020-01-.csv"; "2020-02-.csv"; "2020-03-.csv"]
    = Ok selected
    ∧ Calendar.strftime_Ym_csv (Calendar.timestamp 2020 2 10 0 0 0) ∈ selected.
Proof.
  apply (filter_by_filename_keeps_month_of_row [Scenario.window] _ Scenario.window
           (Calendar.timestamp 2020 1 16 0 0 0) (Calendar.timestamp 2020 2 15 0 0 0)
           (Calendar.timestamp 2020 2 10 0 0 0)).
  - apply (bool_decide_unpack _). vm_compute. reflexivity.
  - left.
  - reflexivity.
  - reflexivity.
  - split; by vm_compute.
  - vm_compute. right. left.
Defined.

(** X2: the order of the windows is irrelevant, for the selection of the
    files and for the selection of the rows alike: two lists holding the
    same windows give the same result. *)
Theorem window_order_is_irrelevant (strptime : string → option Z) (data : DataFrame) (filenames : list string) (X X' : list TimeWindow) :
  X ≡ₚ X' →
  _filter_by_filename X filenames = _filter_by_filename X' filenames
  ∧ _filter_by_timestamp strptime data X = _filter_by_timestamp strptime data X'.
Proof.
  intros Hperm. split.
  - assert (timestamped X ↔ timestamped X') as Hiff.
    { unfold timestamped, datetimelike. by rewrite Hperm. }
    destruct (decide (timestamped X)) as [HX|HX].
    + rewrite !filter_by_filename_timestamped by tauto. f_equal.
      unfold selection. apply list_filter_iff. intros filename.
      rewrite !Is_true_true, !any_window_covers.
      split; intros (w & Hw & Hc); exists w; (split; [|done]);
        [by rewrite <- Hperm | by rewrite Hperm].
    + rewrite !filter_by_filename_objects by tauto. done.
  - unfold _filter_by_timestamp.
    destruct (Frame.getitem data "timestamp") as [column|e]; simpl; [|done].
    destruct (mapM (to_datetime_format strptime) column) as [timestamps|e]; simpl; [|done].
    assert (foldl (related_step timestamps) (replicate (length timestamps) false) X
            = foldl (related_step timestamps) (replicate (length timestamps) false) X')
      as ->.
    { apply list_eq_same_length with (length timestamps);
        try (apply length_related; by rewrite length_replicate).
      intros i b b' Hi Hb Hb'.
      destruct (lookup_lt_is_Some_2 timestamps i Hi) as [t Ht].
      pose proof (related_spec timestamps X i t Ht) as HX.
      pose proof (related_spec timestamps X' i t Ht) as HX'.
      assert ((∃ w, w ∈ X ∧ inside w t) ↔ (∃ w, w ∈ X' ∧ inside w t)) as Hiff.
      { split; intros (w & Hw & Hc); exists w; (split; [|done]);
          [by rewrite <- Hperm | by rewrite Hperm]. }
      destruct b, b'; try done.
      - apply HX, Hiff, HX' in Hb. congruence.
      - apply HX', Hiff, HX in Hb'. congruence. }
    destruct X as [|w X], X' as [|w' X']; try done.
    + by apply Permutation_nil_cons in Hperm.
    + symmetry in Hperm. by apply Permutation_nil_cons in Hperm.
Qed.

Lemma window_order_witness :
  _filter_by_filename [Scenario.window; Scenario.later_window] ["2020-02-.csv"]
  = _filter_by_filename [Scenario.later_window; Scenario.window] ["2020-02-.csv"]
  ∧ _filter_by_timestamp Readers.log_datetime Scenario.data
      [Scenario.window; Scenario.later_window]
    = _filter_by_timestamp Readers.log_datetime Scenario.data
        [Scenario.later_window; Scenario.window].
Proof.
  apply (window_order_is_irrelevant Readers.log_datetime Scenario.data ["2020-02-.csv"]
           [Scenario.window; Scenario.later_window]
           [Scenario.later_window; Scenario.window]).
  apply Permutation_swap.
Defined.

(** *** The signal filter *)

Lemma column_mask e name df cells flags :
  Frame.column e name df = Ok cells →
  Frame.column e name (Frame.mask df flags) = Ok (Frame.select cells flags).
Proof.
  unfold Frame.column, Frame.mask. simpl.
  destruct (Frame.position name (columns df)); [|done]. intros [= <-].
  by rewrite select_fmap.
Qed.

Lemma select_by_predicate {A} (P : A → Prop) `{∀ x, Decision (P x)} (l : list A) :
  Frame.select l ((λ x, bool_decide (P x)) <$> l) = filter P l.
Proof.
  induction l as [|x l IH]; [done|]. rewrite fmap_cons, filter_cons.
  destruct (decide (P x)) as [HP|HP].
  - rewrite bool_decide_eq_true_2 by done. simpl. f_equal. exact IH.
  - rewrite bool_decide_eq_false_2 by done. exact IH.
Qed.

Lemma select_all {A} (l : list A) flags :
  Forall (λ b, b = true) flags → length l = length flags → Frame.select l flags = l.
Proof.
  intros Hall. revert l. induction Hall as [|b flags -> _ IH]; intros [|x l] Hlen;
    simplify_eq/=; [done|]. by rewrite IH.
Qed.

Lemma mapM_succeeds {A B} (f : A → result B) l :
  Forall (λ x, succeeds (f x)) l → succeeds (mapM f l).
Proof.
  induction 1 as [|x l [y Hy] _ [k Hk]]; [by exists []|].
  exists (y :: k). simpl. rewrite Hy. simpl. by rewrite Hk.
Qed.

Lemma filter_by_signal_Ok data signals ids wanted :
  Frame.getattr data "signal_id" = Ok ids →
  Frame.getattr signals "signal_id" = Ok wanted →
  _filter_by_signal data (Some signals)
  = Ok (Frame.mask data ((λ c, bool_decide (c ∈ wanted)) <$> ids)).
Proof. intros Hids Hwanted. unfold _filter_by_signal. by rewrite Hids, Hwanted. Qed.

(** X3: with a set of signals, the filter keeps the rows whose signal is
    in the set and only those, in their order and with their columns;
    the signal column of the result holds the wanted signals of the
    table in their order, and filtering the result again changes
    nothing. *)
Theorem filter_by_signal_keeps_wanted_rows (data signals : DataFrame) (ids wanted : list cell) :
  Frame.getattr data "signal_id" = Ok ids →
  Frame.getattr signals "signal_id" = Ok wanted →
  ∃ out,
    _filter_by_signal data (Some signals) = Ok out
    ∧ columns out = columns data
    ∧ rows out `sublist_of` rows data
    ∧ (∀ r, r ∈ rows out
            ↔ ∃ i c, rows data !! i = Some r ∧ ids !! i = Some c ∧ c ∈ wanted)
    ∧ Frame.getattr out "signal_id" = Ok (filter (λ c, c ∈ wanted) ids)
    ∧ _filter_by_signal out (Some signals) = Ok out.
Proof.
  intros Hids Hwanted.
  rewrite (filter_by_signal_Ok _ _ _ _ Hids Hwanted).
  set (flags := (λ c, bool_decide (c ∈ wanted)) <$> ids).
  assert (Frame.getattr (Frame.mask data flags) "signal_id"
          = Ok (filter (λ c, c ∈ wanted) ids)) as Hout.
  { unfold Frame.getattr. rewrite (column_mask _ _ _ _ _ Hids).
    unfold flags. by rewrite select_by_predicate. }
  eexists. split; [done|]. split; [done|]. split; [apply select_sublist|].
  split; [|split; [done|]].
  - intros r. simpl. rewrite elem_of_select. split.
    + intros (i & Hr & Hf). unfold flags in Hf. rewrite list_lookup_fmap in Hf.
      destruct (ids !! i) as [c|] eqn:Hc; simplify_eq/=.
      exists i, c. repeat split; try done. by eapply bool_decide_eq_true_1.
    + intros (i & c & Hr & Hc & Hin). exists i. split; [done|].
      unfold flags. rewrite list_lookup_fmap, Hc. simpl. f_equal.
      by apply bool_decide_eq_true_2.
  - rewrite (filter_by_signal_Ok _ _ _ _ Hout Hwanted). f_equal.
    unfold Frame.mask. simpl. f_equal. apply select_all.
    + apply Forall_fmap, Forall_forall. intros c Hc. simpl.
      apply list_elem_of_filter in Hc as [Hc _]. by apply bool_decide_eq_true_2.
    + rewrite length_fmap.
      pose proof (column_length _ _ _ _ Hout) as Hlen. simpl in Hlen. done.
Qed.

Lemma filter_by_signal_witness :
  ∃ out,
    _filter_by_signal Mixed.data (Some Mixed.signals) = Ok out
    ∧ columns out = columns Mixed.data
    ∧ rows out `sublist_of` rows Mixed.data
    ∧ (∀ r, r ∈ rows out
            ↔ ∃ i c, rows Mixed.data !! i = Some r
                     ∧ [Text "S1"; Text "S2"; Text "S1"] !! i = Some c
                     ∧ c ∈ [Text "S1"])
    ∧ Frame.getattr out "signal_id"
      = Ok (filter (λ c, c ∈ [Text "S1"]) [Text "S1"; Text "S2"; Text "S1"])
    ∧ _filter_by_signal out (Some Mixed.signals) = Ok out.
Proof.
  apply (filter_by_signal_keeps_wanted_rows Mixed.data Mixed.signals); reflexivity.
Defined.

(** X4: the signals are filtered before the timestamps are read, so a
    timestamp that cannot be read does no harm in a row of a signal that
    is not wanted: when the timestamps of the rows of the wanted signals
    can be read, the two filters in a row succeed. *)
Theorem filter_by_signal_shields_timestamps (strptime : string → option Z) (data signals : DataFrame) (X : list TimeWindow) (ids wanted column : list cell) :
  Frame.getattr data "signal_id" = Ok ids →
  Frame.getattr signals "signal_id" = Ok wanted →
  Frame.getitem data "timestamp" = Ok column →
  (∀ i c t, ids !! i = Some c → c ∈ wanted → column !! i = Some t →
            succeeds (to_datetime_format strptime t)) →
  ∃ kept out,
    _filter_by_signal data (Some signals) = Ok kept
    ∧ _filter_by_timestamp strptime kept X = Ok out.
Proof.
  intros Hids Hwanted Hcol Hparse.
  rewrite (filter_by_signal_Ok _ _ _ _ Hids Hwanted).
  set (flags := (λ c, bool_decide (c ∈ wanted)) <$> ids).
  eexists. 
  assert (Frame.getitem (Frame.mask data flags) "timestamp"
          = Ok (Frame.select column flags)) as Hkept.
  { unfold Frame.getitem. by apply column_mask. }
  destruct (mapM_succeeds (to_datetime_format strptime) (Frame.select column flags))
    as [timestamps Hts].
  { apply Forall_forall. intros t Ht. apply elem_of_select in Ht as (i & Ht & Hf).
    unfold flags in Hf. rewrite list_lookup_fmap in Hf.
    destruct (ids !! i) as [c|] eqn:Hc; simplify_eq/=.
    eapply Hparse; [done| |done]. by eapply bool_decide_eq_true_1. }
  destruct (filter_by_timestamp_Ok strptime _ X _ _ Hkept Hts) as (out & Hout & _).
  exists out. split; [done|]. done.
Qed.

Lemma filter_by_signal_shield_witness :
  ∃ kept out,
    _filter_by_signal Mixed.data (Some Mixed.signals) = Ok kept
    ∧ _filter_by_timestamp Readers.log_datetime kept [Scenario.window] = Ok out.
Proof.
  apply (filter_by_signal_shields_timestamps Readers.log_datetime Mixed.data Mixed.signals
           [Scenario.window] [Text "S1"; Text "S2"; Text "S1"] [Text "S1"]
           [Text "02/10/20 00:00:00"; Text "2020-02-11"; Text "02/12/20 00:00:00"]).
  - reflexivity.
  - reflexivity.
  - reflexivity.
  - intros [|[|[|i]]] c t Hc Hin Ht; simplify_eq/=.
    + by eexists.
    + apply list_elem_of_singleton in Hin. discriminate.
    + by eexists.
Defined.

(** *** The window filter, continued *)

Lemma to_datetime_format_fails strptime c :
  ¬ succeeds (to_datetime_format strptime c) →
  to_datetime_format strptime c = Raise bad_time_data.
Proof.
  destruct c as [|s|t]; simpl; [by intros []; eexists| |by intros []; eexists].
  destruct (strptime s) as [t|]; simpl; [|done]. by intros []; eexists.
Qed.

Lemma mapM_Raise_any {A B} (f : A → result B) l e :
  (∀ x, ¬ succeeds (f x) → f x = Raise e) →
  Exists (λ x, ¬ succeeds (f x)) l → mapM f l = Raise e.
Proof.
  intros Hf. induction 1 as [x l Hx|x l _ IH]; simpl.
  - by rewrite (Hf x Hx).
  - destruct (f x) as [y|e'] eqn:Hy; simpl.
    + by rewrite IH.
    + assert (f x = Raise e) as He by (apply Hf; rewrite Hy; by intros [? ?]).
      rewrite Hy in He. by injection He as ->.
Qed.

(** X5: one timestamp that cannot be read makes the window filter raise
    the error of the conversion, whatever the windows are and wherever
    the row is: no row is skipped silently. *)
Theorem filter_by_timestamp_malformed_is_fatal (strptime : string → option Z) (data : DataFrame) (X : list TimeWindow) (column : list cell) :
  Frame.getitem data "timestamp" = Ok column →
  Exists (λ c, ¬ succeeds (to_datetime_format strptime c)) column →
  _filter_by_timestamp strptime data X = Raise bad_time_data.
Proof.
  intros Hcol Hbad. unfold _filter_by_timestamp. rewrite Hcol. simpl.
  rewrite (mapM_Raise_any _ _ bad_time_data); [done| |done].
  intros c. apply to_datetime_format_fails.
Qed.

Lemma filter_by_timestamp_malformed_witness :
  _filter_by_timestamp Readers.log_datetime Mixed.data [] = Raise bad_time_data.
Proof.
  apply (filter_by_timestamp_malformed_is_fatal Readers.log_datetime Mixed.data []
           [Text "02/10/20 00:00:00"; Text "2020-02-11"; Text "02/12/20 00:00:00"]).
  - reflexivity.
  - right. left. intros [t Ht]. vm_compute in Ht. discriminate.
Defined.

(** *** The readings of one turbine, continued *)

Lemma mapM_ext {A B} (f g : A → result B) l :
  (∀ x, x ∈ l → f x = g x) → mapM f l = mapM g l.
Proof.
  induction l as [|x l IH]; intros H; simpl; [done|].
  rewrite (H x) by left. rewrite IH; [done|]. intros y Hy. apply H. by right.
Qed.

Lemma StronglySorted_filter {A} (R : relation A) (P : A → Prop) `{∀ x, Decision (P x)} l :
  StronglySorted R l → StronglySorted R (filter P l).
Proof.
  induction 1 as [|x l Hs IH Hx]; [constructor|].
  rewrite filter_cons. destruct (decide (P x)); [|done].
  constructor; [done|]. apply Forall_forall. intros y [_ Hy]%list_elem_of_filter.
  rewrite Forall_forall in Hx. by apply Hx.
Qed.

(** X6: a file whose name is not selected is never opened: two file
    systems that list the same names in the folder of the turbine and
    hold the same content under the selected names give the same
    readings, or the same exception. *)
Theorem load_turbine_readings_reads_selected_only (fs fs' : FileSystem) (strptime : string → option Z) (rp : string) (X : list TimeWindow) (signals : option DataFrame) (first : TimeWindow) (id : string) :
  head X = Some first → turbine_id first = Text id →
  directories fs !! path_join rp id = directories fs' !! path_join rp id →
  (∀ names selected f,
     directories fs !! path_join rp id = Some names →
     _filter_by_filename X (sorted names) = Ok selected →
     f ∈ selected →
     csv_files fs !! path_join (path_join rp id) f
     = csv_files fs' !! path_join (path_join rp id) f) →
  _load_turbine_readings fs strptime rp X signals
  = _load_turbine_readings fs' strptime rp X signals.
Proof.
  intros Hhead Hid Hdir Hfiles. unfold _load_turbine_readings.
  rewrite Hhead. simpl. rewrite Hid. simpl. unfold listdir. rewrite <- Hdir.
  destruct (directories fs !! path_join rp id) as [names|] eqn:Hnames; simpl; [|done].
  destruct (_filter_by_filename X (sorted names)) as [selected|e] eqn:Hsel; simpl; [|done].
  rewrite (mapM_ext (load_file fs strptime (path_join rp id) X signals)
                    (load_file fs' strptime (path_join rp id) X signals)); [done|].
  intros f Hf. unfold load_file, _load_readings_file, read_csv.
  by rewrite (Hfiles names selected f).
Qed.

Lemma load_turbine_readings_selected_witness :
  _load_turbine_readings Cluttered.disk Readers.log_datetime "" [Scenario.window] None
  = _load_turbine_readings Cluttered.dangling Readers.log_datetime "" [Scenario.window] None.
Proof.
  apply (load_turbine_readings_reads_selected_only Cluttered.disk Cluttered.dangling
           Readers.log_datetime "" [Scenario.window] None Scenario.window "T1").
  - reflexivity.
  - reflexivity.
  - reflexivity.
  - intros names selected f Hnames Hselected Hf.
    vm_compute in Hnames. injection Hnames as <-.
    assert (_filter_by_filename [Scenario.window] (sorted ["2020-02-.csv"; "2019-07-.csv"])
            = Ok ["2020-02-.csv"]) as Hsel by (by vm_compute).
    rewrite Hsel in Hselected. injection Hselected as <-.
    apply list_elem_of_singleton in Hf as ->. reflexivity.
Defined.

(** X7: the selected files of a turbine are read in the increasing
    order of their names.  When all of them load, the readings of the
    turbine are the concatenation of their tables in that order; when
    one fails after all the smaller ones loaded, the exception is that
    of this file; and when the selector itself raises, no file is read
    and its exception is that of the call. *)
Theorem load_turbine_readings_in_name_order (fs : FileSystem) (strptime : string → option Z) (rp : string) (X : list TimeWindow) (signals : option DataFrame) (first : TimeWindow) (id : string) (names : list string) :
  head X = Some first → turbine_id first = Text id →
  listdir fs (path_join rp id) = Ok names →
  (∀ selected,
     _filter_by_filename X (sorted names) = Ok selected →
     StronglySorted str_le selected
     ∧ (∀ tables,
          Forall2 (λ f t, load_file fs strptime (path_join rp id) X signals f = Ok t)
                  selected tables →
          tables ≠ [] →
          ∃ out,
            _load_turbine_readings fs strptime rp X signals = Ok out
            ∧ Frame.concat tables = Ok out
            ∧ Frame.index out = mjoin (Frame.index <$> tables))
     ∧ (∀ before f after e,
          selected = before ++ f :: after →
          Forall (λ f', succeeds (load_file fs strptime (path_join rp id) X signals f'))
                 before →
          load_file fs strptime (path_join rp id) X signals f = Raise e →
          _load_turbine_readings fs strptime rp X signals = Raise e))
  ∧ (∀ e,
       _filter_by_filename X (sorted names) = Raise e →
       _load_turbine_readings fs strptime rp X signals = Raise e).
Proof.
  intros Hhead Hid Hdir.
  assert (_load_turbine_readings fs strptime rp X signals
          = _filter_by_filename X (sorted names) ≫= λ selected,
            mapM (load_file fs strptime (path_join rp id) X signals) selected
            ≫= λ readings, match readings with
                           | [] => mret (Frame.empty canonical_columns)
                           | _ => Frame.concat readings
                           end) as Hrun.
  { unfold _load_turbine_readings.
    rewrite Hhead. simpl. rewrite Hid. simpl. by rewrite Hdir. }
  split; [|by intros e He; rewrite Hrun, He].
  intros selected Hselected. rewrite Hrun, Hselected. simpl.
  apply filter_by_filename_Ok in Hselected as [_ ->].
  split; [|split].
  - unfold selection. apply StronglySorted_filter, sorted_StronglySorted.
  - intros tables Htables Hne.
    apply mapM_Ok_Forall2 in Htables. rewrite Htables.
    destruct tables as [|t tables]; [done|].
    change (Ok (t :: tables) ≫= _) with (Frame.concat (t :: tables)).
    rewrite concat_Ok by done. eexists. split; [done|]. split; [done|].
    exact (concat_rows_index _ _).
  - intros before f after e Hsel Hbefore Hf.
    rewrite Hsel. by rewrite (mapM_Raise_first _ _ _ _ _ Hbefore Hf).
Qed.

Lemma load_turbine_readings_order_witness :
  (∀ selected,
     _filter_by_filename [Cluttered.long_window] (sorted ["2020-02-.csv"; "2019-07-.csv"])
     = Ok selected →
     StronglySorted str_le selected
     ∧ (∀ tables,
          Forall2 (λ f t, load_file Cluttered.disk Readers.log_datetime "T1"
                            [Cluttered.long_window] None f = Ok t)
                  selected tables →
          tables ≠ [] →
          ∃ out,
            _load_turbine_readings Cluttered.disk Readers.log_datetime ""
              [Cluttered.long_window] None = Ok out
            ∧ Frame.concat tables = Ok out
            ∧ Frame.index out = mjoin (Frame.index <$> tables))
     ∧ (∀ before f after e,
          selected = before ++ f :: after →
          Forall (λ f', succeeds (load_file Cluttered.disk Readers.log_datetime "T1"
                                    [Cluttered.long_window] None f')) before →
          load_file Cluttered.disk Readers.log_datetime "T1" [Cluttered.long_window] None f
          = Raise e →
          _load_turbine_readings Cluttered.disk Readers.log_datetime ""
            [Cluttered.long_window] None = Raise e))
  ∧ (∀ e,
       _filter_by_filename [Cluttered.long_window] (sorted ["2020-02-.csv"; "2019-07-.csv"])
       = Raise e →
       _load_turbine_readings Cluttered.disk Readers.log_datetime ""
         [Cluttered.long_window] None = Raise e).
Proof.
  apply (load_turbine_readings_in_name_order Cluttered.disk Readers.log_datetime ""
           [Cluttered.long_window] None Cluttered.long_window "T1"
           ["2020-02-.csv"; "2019-07-.csv"]); reflexivity.
Defined.

(** The broken log of July 2019 comes first and decides the exception. *)
Example broken_log_is_read_first :
  _load_turbine_readings Cluttered.disk Readers.log_datetime "" [Cluttered.long_window] None
  = Raise (ParserError "T1/2019-07-.csv").
Proof. by vm_compute. Qed.

(** *** The ingestion of one log *)

Lemma lower_ascii_idemp c : lower_ascii (lower_ascii c) = lower_ascii c.
Proof. destruct c as [[] [] [] [] [] [] [] []]; reflexivity. Qed.

Lemma lower_idemp s : lower (lower s) = lower s.
Proof. induction s as [|c s IH]; simpl; [done|]. by rewrite lower_ascii_idemp, IH. Qed.

Lemma log_columns_normal header :
  Forall (λ c, lower c = c ∧ c ≠ "signal") (log_columns header).
Proof.
  unfold log_columns.
  set (cols := (λ c, if decide (c = "signal") then "signal_id" else c) <$> (lower <$> header)).
  assert (Forall (λ c, lower c = c ∧ c ≠ "signal") cols) as Hall.
  { unfold cols. apply Forall_fmap, Forall_fmap, Forall_true. intros c. simpl.
    destruct (decide (lower c = "signal")) as [E|N]; [by split|].
    split; [apply lower_idemp | done]. }
  destruct (Frame.position "unnamed: 0" cols) as [i|]; [|done].
  apply Forall_forall. intros c Hc. rewrite Forall_forall in Hall. apply Hall.
  eapply elem_of_sublist; [done|]. apply sublist_delete.
Qed.

Lemma index_read_csv fs path df :
  read_csv fs path = Ok df →
  ∃ file, csv_files fs !! path = Some file
          ∧ Frame.index df = Z.of_nat <$> seq 0 (length (records file)).
Proof.
  unfold read_csv. intros (file & Hfile%from_option_Ok & Hdf)%bind_Ok_inv.
  exists file. split; [done|]. destruct (decide (Forall _ _)); [|done].
  injection Hdf as <-. unfold Frame.index. simpl.
  apply list_eq. intros i.
  rewrite !list_lookup_fmap, list_lookup_imap.
  destruct (decide (i < length (records file))%nat) as [Hi|Hi].
  - destruct (lookup_lt_is_Some_2 (records file) i Hi) as [r ->].
    by rewrite lookup_seq_lt.
  - rewrite (lookup_ge_None_2 (records file)) by lia. by rewrite lookup_seq_ge by lia.
Qed.

Lemma load_readings_file_plain fs path file :
  csv_files fs !! path = Some file → plain file →
  succeeds (_load_readings_file fs path).
Proof.
  intros Hfile (_ & _ & Hfits). unfold _load_readings_file, read_csv.
  rewrite Hfile. simpl. rewrite decide_True by done. simpl.
  destruct (decide (_ ∈ _)) as [Hin|Hnot]; [|by eexists].
  unfold Frame.delitem. simpl in *.
  destruct (position_is_Some _ _ Hin) as [i ->]. by eexists.
Qed.

(** X8: a log with an ASCII header of names that are distinct in lower
    case and with no record longer than the header is read: the table
    has its columns named in lower case, none of them [signal] (the
    column of the signals is [signal_id]), and its rows are labelled
    0, 1, ... in the order of the file. *)
Theorem load_readings_file_normalises (fs : FileSystem) (path : string) (file : CsvFile) :
  csv_files fs !! path = Some file →
  plain file →
  ∃ data,
    _load_readings_file fs path = Ok data
    ∧ Forall (λ c, lower c = c ∧ c ≠ "signal") (columns data)
    ∧ ("signal" ∈ lower <$> header file → "signal_id" ∈ columns data)
    ∧ Frame.index data = Z.of_nat <$> seq 0 (length (records file)).
Proof.
  intros Hfile Hplain.
  destruct (load_readings_file_plain _ _ _ Hfile Hplain) as [data Hload].
  exists data. split; [done|].
  destruct (load_readings_file_columns _ _ _ Hload) as (file' & Hfile' & Hcols).
  assert (file' = file) as -> by congruence.
  split; [rewrite Hcols; apply log_columns_normal|].
  split.
  - intros Hsig. rewrite Hcols. unfold log_columns.
    set (cols := (λ c, if decide (c = "signal") then "signal_id" else c)
                   <$> (lower <$> header file)).
    assert ("signal_id" ∈ cols) as Hin.
    { unfold cols. apply list_elem_of_fmap. exists "signal". by split. }
    destruct (Frame.position "unnamed: 0" cols) as [i|] eqn:Hpos; [|done].
    apply position_Some in Hpos.
    apply list_elem_of_lookup in Hin as [j Hj].
    assert (i ≠ j) by (intros ->; congruence).
    apply list_elem_of_lookup.
    destruct (decide (j < i)%nat).
    + exists j. by rewrite list_lookup_delete_lt.
    + exists (pred j). rewrite list_lookup_delete_ge by lia.
      by replace (S (pred j)) with j by lia.
  - unfold _load_readings_file in Hload.
    apply bind_Ok_inv in Hload as (df & Hread & Hdata).
    destruct (index_read_csv _ _ _ Hread) as (file' & Hfile'' & Hindex).
    assert (file' = file) as -> by congruence.
    rewrite <- Hindex. simpl in Hdata.
    destruct (decide (_ ∈ _)); [|by injection Hdata as <-].
    unfold Frame.delitem in Hdata. simpl in Hdata.
    destruct (Frame.position _ _); [|done]. injection Hdata as <-.
    unfold Frame.index. simpl. by rewrite <- list_fmap_compose.
Qed.

Lemma load_readings_file_witness :
  ∃ data,
    _load_readings_file Indexed.disk "T1/2020-02-.csv" = Ok data
    ∧ Forall (λ c, lower c = c ∧ c ≠ "signal") (columns data)
    ∧ ("signal" ∈ lower <$> header Indexed.log → "signal_id" ∈ columns data)
    ∧ Frame.index data = Z.of_nat <$> seq 0 (length (records Indexed.log)).
Proof.
  apply (load_readings_file_normalises Indexed.disk "T1/2020-02-.csv" Indexed.log).
  - reflexivity.
  - apply (bool_decide_unpack _). vm_compute. reflexivity.
Defined.

Lemma Forall_length_zip_with_cons {A} (n : nat) (idx : list A) (recs : list (list A)) :
  length idx = length recs →
  Forall (λ r, (length r ≤ S n)%nat) (zip_with cons idx recs)
  ↔ Forall (λ r, (length r ≤ n)%nat) recs.
Proof.
  revert recs. induction idx as [|c idx IH]; intros [|r recs] Hlen; simplify_eq/=;
    [done|].
  rewrite !Forall_cons, IH by done. simpl. split; intros [? ?]; split; auto; lia.
Qed.

(** X9: a log saved with its index (a first column that pandas names
    [Unnamed: 0], one more field at the head of each record) is read as
    the same table as the log without it, for a log with an ASCII
    header of names that are distinct in lower case, none of them
    [unnamed: 0], and with no record longer than the header. *)
Theorem load_readings_file_forgets_index
    (fs fs' : FileSystem) (path : string) (file : CsvFile)
    (name : string) (idx : list (option string)) :
  csv_files fs !! path = Some file →
  csv_files fs' !! path
    = Some {| header := name :: header file;
              records := zip_with cons idx (records file) |} →
  lower name = "unnamed: 0" →
  length idx = length (records file) →
  plain file →
  "unnamed: 0" ∉ lower <$> header file →
  ∃ data,
    _load_readings_file fs path = Ok data
    ∧ _load_readings_file fs' path = Ok data.
Proof.
  intros Hfile Hfile' Hname Hlen Hplain Hfresh.
  destruct (load_readings_file_plain _ _ _ Hfile Hplain) as [data Hload].
  exists data. split; [done|]. rewrite <- Hload.
  destruct Hplain as (_ & _ & Hok).
  unfold _load_readings_file, read_csv. rewrite Hfile, Hfile'. simpl.
  rewrite (decide_True (P := Forall _ (records file))) by done.
  rewrite decide_True by by apply Forall_length_zip_with_cons.
  simpl. rewrite Hname. simpl.
  rewrite decide_False.
  2:{ intros Hin. apply Hfresh. apply list_elem_of_fmap in Hin as (c & Hc & Hin).
      destruct (decide (c = "signal")); [done|]. by subst. }
  unfold Frame.delitem, Frame.rename. simpl.
  change (list_fmap string string) with (@fmap list _ string string).
  unfold mret, result_ret. do 2 f_equal.
  rewrite !length_fmap. apply list_eq. intros i.
  rewrite list_lookup_fmap, !list_lookup_imap, lookup_zip_with.
  destruct (records file !! i) as [r|] eqn:Hr.
  - destruct (lookup_lt_is_Some_2 idx i) as [c Hc].
    { rewrite Hlen. by eapply lookup_lt_Some. }
    rewrite Hc. simpl. by rewrite resize_idemp.
  - by destruct (idx !! i).
Qed.

Lemma load_readings_file_index_witness :
  ∃ data,
    _load_readings_file (Scenario.disk "2020-02-.csv") "T1/2020-02-.csv" = Ok data
    ∧ _load_readings_file Indexed.disk "T1/2020-02-.csv" = Ok data.
Proof.
  apply (load_readings_file_forgets_index (Scenario.disk "2020-02-.csv") Indexed.disk
           "T1/2020-02-.csv" Scenario.log "Unnamed: 0" [Some "0"; Some "1"]);
    [reflexivity | reflexivity | reflexivity | reflexivity | |].
  - apply (bool_decide_unpack _). vm_compute. reflexivity.
  - apply (bool_decide_unpack _). vm_compute. reflexivity.
Defined.

(** *** A table without target events *)

Lemma load_readings_no_rows fs strptime to_timedelta rp X signals window_size d :
  rows X = [] →
  "cutoff_time" ∈ columns X → "turbine_id" ∈ columns X →
  lookback to_timedelta window_size = Ok d →
  _load_readings fs strptime to_timedelta rp X signals window_size = Raise no_objects.
Proof.
  intros Hrows [i Hi]%position_is_Some [j Hj]%position_is_Some Hd.
  unfold _load_readings, _get_times, Frame.getattr, Frame.column, Frame.index.
  rewrite Hi, Hj, Hrows. simpl.
  destruct window_size as [[|c s]|]; simpl; try done.
  simpl in Hd. by destruct (to_timedelta (String c s)).
Qed.

(** X10: a table of target events that has the two columns and no row
    passes the check of duplicates, and the call then fails in the final
    [pd.concat], which has nothing to concatenate: whatever the signals,
    the lookback and the files are, the call raises and returns no empty
    table of readings. *)
Theorem load_without_events_raises
    (fs : FileSystem) (to_datetime_text strptime to_timedelta : string → option Z)
    (rp : string) (target_times : target_times_arg) (signals : signals_arg)
    (window_size : option string) (return_target : bool)
    (σ : gmap loc DataFrame) (df : DataFrame) (s : option DataFrame) (d : option Z) :
  resolves fs σ target_times df →
  rows df = [] →
  "cutoff_time" ∈ columns df → "turbine_id" ∈ columns df →
  normalize_signals fs signals = Ok s →
  lookback to_timedelta window_size = Ok d →
  (load fs to_datetime_text strptime to_timedelta rp target_times signals window_size
        return_target σ).2
  = Raise no_objects.
Proof.
  intros Hres Hrows Hcut Hid Hs Hd.
  destruct (position_is_Some _ _ Hcut) as [i Hi].
  destruct (position_is_Some _ _ Hid) as [j Hj].
  assert (event_pairs to_datetime_text df = Ok []) as Hpairs.
  { rewrite (event_pairs_fmap _ _ _ _ Hi Hj); rewrite Hrows; [done|constructor]. }
  rewrite (load_result _ _ _ _ _ _ _ _ _ _ _ _ Hres Hpairs).
  rewrite decide_True by constructor. rewrite Hs. simpl.
  rewrite (load_readings_no_rows _ _ _ _ _ _ _ d); try done.
  - unfold Frame.setitem. rewrite Hi. simpl. by rewrite Hrows.
  - by rewrite columns_setitem_present.
  - by rewrite columns_setitem_present.
Qed.

Lemma load_without_events_witness :
  (load Fleet.disk Readers.iso_datetime Readers.log_datetime Readers.day_timedelta ""
        (TargetFrame 1%positive) (SignalsList [Text "S1"]) (Some "30d") true
        {[ 1%positive := Frame.empty ["turbine_id"; "cutoff_time"; "target"] ]}).2
  = Raise no_objects.
Proof.
  apply (load_without_events_raises Fleet.disk Readers.iso_datetime Readers.log_datetime
           Readers.day_timedelta "" (TargetFrame 1%positive) (SignalsList [Text "S1"])
           (Some "30d") true
           {[ 1%positive := Frame.empty ["turbine_id"; "cutoff_time"; "target"] ]}
           (Frame.empty ["turbine_id"; "cutoff_time"; "target"])
           (Some (Frame.of_column "signal_id" [Text "S1"])) (Some (30 * Calendar.ns_per_day)));
    try reflexivity.
  - apply (bool_decide_unpack _). vm_compute. reflexivity.
  - apply (bool_decide_unpack _). vm_compute. reflexivity.
Defined.

(** *** The columns of the readings *)

Lemma load_turbine_readings_columns fs strptime rp X signals t :
  map_Forall (λ _ file, log_columns (header file) = reading_columns) (csv_files fs) →
  _load_turbine_readings fs strptime rp X signals = Ok t →
  columns t = canonical_columns ∨ columns t = reading_columns.
Proof.
  intros Hdoc Hload. unfold _load_turbine_readings in Hload.
  apply bind_Ok_inv in Hload as (first & Hfirst%from_option_Ok & Hload).
  apply bind_Ok_inv in Hload as (id & Hid & Hload).
  apply bind_Ok_inv in Hload as (names & Hnames & Hload).
  apply bind_Ok_inv in Hload as (selected & Hselected & Hload).
  apply bind_Ok_inv in Hload as (readings & Hreadings & Hload).
  assert (X ≠ []) as HX by (by intros ->).
  destruct readings as [|r readings]; [injection Hload as <-; by left|].
  right. rewrite concat_Ok in Hload by done. injection Hload as <-. simpl.
  apply union_columns_same; [by apply (bool_decide_unpack _)|done|].
  apply mapM_Ok_Forall2 in Hreadings.
  apply Forall_forall. intros t' [k Hk]%list_elem_of_lookup.
  destruct (Forall2_lookup_r _ _ _ _ _ Hreadings Hk) as (f & _ & Hf).
  apply load_file_columns in Hf as (file & Hfile & ->); [|done].
  exact (Hdoc _ _ Hfile).
Qed.

(** X11: when every log has the three documented columns (in any case,
    with or without the leftover index), the table of readings the
    loader assembles has exactly the four columns [timestamp],
    [signal_id], [value] and [turbine_id], in this order, whether
    turbines had readings or not. *)
Theorem load_readings_canonical_columns
    (fs : FileSystem) (strptime to_timedelta : string → option Z) (rp : string)
    (X : DataFrame) (signals : option DataFrame) (window_size : option string)
    (readings : DataFrame) :
  map_Forall (λ _ file, log_columns (header file) = reading_columns) (csv_files fs) →
  _load_readings fs strptime to_timedelta rp X signals window_size = Ok readings →
  columns readings = canonical_columns.
Proof.
  intros Hdoc Hload. unfold _load_readings in Hload.
  apply bind_Ok_inv in Hload as (ids & _ & Hload).
  apply bind_Ok_inv in Hload as (windows & _ & Hload).
  apply bind_Ok_inv in Hload as (names & _ & Hload).
  apply bind_Ok_inv in Hload as (tables & Htables & Hload).
  destruct tables as [|t tables]; [done|].
  rewrite concat_Ok in Hload by done. injection Hload as <-. simpl.
  apply union_columns_same; [by apply (bool_decide_unpack _)|done|].
  apply mapM_Ok_Forall2 in Htables.
  apply Forall_forall. intros t' [k Hk]%list_elem_of_lookup.
  destruct (Forall2_lookup_r _ _ _ _ _ Htables Hk) as (id & _ & Hid).
  unfold load_turbine in Hid.
  apply bind_Ok_inv in Hid as (r & Hr & Ht'). injection Ht' as <-.
  apply (load_turbine_readings_columns _ _ _ _ _ _ Hdoc) in Hr as [Hr|Hr].
  - unfold Frame.setitem_scalar. rewrite columns_setitem_present; [done|].
    rewrite Hr. apply (bool_decide_unpack _). by vm_compute.
  - unfold Frame.setitem_scalar, Frame.setitem. rewrite Hr. reflexivity.
Qed.

Lemma load_readings_columns_witness :
  ∃ readings,
    _load_readings Fleet.disk Readers.log_datetime Readers.day_timedelta ""
      Fleet.target_times None (Some "30d") = Ok readings
    ∧ columns readings = canonical_columns.
Proof.
  eexists. split; [vm_compute; reflexivity|].
  apply (load_readings_canonical_columns Fleet.disk Readers.log_datetime
           Readers.day_timedelta "" Fleet.target_times None (Some "30d")).
  - apply (bool_decide_unpack _). vm_compute. reflexivity.
  - vm_compute. reflexivity.
Defined.

(** *** The table of target events the call returns *)

Lemma position_cons name c cols :
  Frame.position name (c :: cols)
  = if decide (c = name) then Some 0%nat else S <$> Frame.position name cols.
Proof.
  unfold Frame.position. simpl. destruct (decide (c = name)); [done|].
  by destruct (list_find _ cols) as [[? ?]|].
Qed.

Lemma position_delete name name' cols i :
  cols !! i = Some name → name ≠ name' →
  Frame.position name' (delete i cols)
  = (λ j, if decide (j < i)%nat then j else pred j) <$> Frame.position name' cols.
Proof.
  revert i. induction cols as [|c cols IH]; intros i Hi Hne; [done|].
  destruct i as [|i]; simpl in Hi.
  - injection Hi as ->. simpl. rewrite position_cons, decide_False by done.
    destruct (Frame.position name' cols); [|done]. simpl. done.
  - change (delete (S i) (c :: cols)) with (c :: delete i cols).
    rewrite !position_cons. destruct (decide (c = name')); [done|].
    rewrite (IH i) by done.
    destruct (Frame.position name' cols) as [j|] eqn:Hj; [|done]. simpl. f_equal.
    apply position_Some in Hj.
    assert (j ≠ i) by (intros ->; congruence).
    destruct (decide (j < i)%nat), (decide (S j < S i)%nat); lia.
Qed.

Lemma delitem_Ok df name df' :
  Frame.delitem df name = Ok df' →
  ∃ i, Frame.position name (columns df) = Some i
       ∧ df' = {| columns := delete i (columns df);
                  rows := (λ r : row, (r.1, delete i (resize (length (columns df)) NA r.2)))
                            <$> rows df |}.
Proof.
  unfold Frame.delitem. destruct (Frame.position _ _) as [i|]; [|done].
  intros [= <-]. eauto.
Qed.

Lemma index_delitem df name df' :
  Frame.delitem df name = Ok df' → Frame.index df' = Frame.index df.
Proof.
  intros (i & _ & ->)%delitem_Ok. unfold Frame.index. simpl.
  by rewrite <- list_fmap_compose.
Qed.

Lemma column_delitem_ne e df name name' df' :
  Frame.delitem df name = Ok df' → name ≠ name' →
  Frame.column e name' df' = Frame.column e name' df.
Proof.
  intros (i & Hi & ->)%delitem_Ok Hne. unfold Frame.column. simpl.
  pose proof (position_Some _ _ _ Hi) as Hname.
  rewrite (position_delete _ _ _ _ Hname Hne).
  destruct (Frame.position name' (columns df)) as [j|] eqn:Hj; [|done]. simpl.
  f_equal. rewrite <- list_fmap_compose. apply list_fmap_ext. intros _ r _. simpl.
  pose proof (position_lt _ _ _ Hj) as Hlt.
  assert (j ≠ i).
  { intros ->. apply position_Some in Hj. congruence. }
  unfold Frame.at_position. destruct (decide (j < i)%nat).
  - rewrite list_lookup_delete_lt by done.
    by apply (at_position_resize j (length (columns df)) r.2).
  - rewrite list_lookup_delete_ge by lia. replace (S (pred j)) with j by lia.
    by apply (at_position_resize j (length (columns df)) r.2).
Qed.

Lemma delete_NoDup_filter {A} `{EqDecision A} (l : list A) i x :
  NoDup l → l !! i = Some x → delete i l = filter (λ y, y ≠ x) l.
Proof.
  revert i. induction l as [|y l IH]; intros i Hnd Hi; [done|].
  apply NoDup_cons in Hnd as [Hy Hnd]. destruct i as [|i]; simpl in Hi.
  - injection Hi as ->. rewrite filter_cons_False by (intros ?; done). simpl.
    symmetry. apply filter_all. apply Forall_forall. intros z Hz ->. done.
  - assert (y ≠ x).
    { intros ->. apply Hy. by eapply list_elem_of_lookup_2. }
    rewrite filter_cons_True by done.
    change (delete (S i) (y :: l)) with (y :: delete i l). f_equal. by apply IH.
Qed.

Lemma converted_length (f : cell → result cell) df cutoff :
  Frame.getitem df "cutoff_time" ≫= mapM f = Ok cutoff →
  length cutoff = length (rows df) ∧ "cutoff_time" ∈ columns df.
Proof.
  intros (cells & Hcells & Hconv)%bind_Ok_inv.
  apply mapM_Ok_length in Hconv. pose proof (column_length _ _ _ _ Hcells).
  split; [congruence|]. by eapply column_Ok_elem.
Qed.

(** X12: the table of target events a successful call returns.  It has
    the labels of the rows of the table given, in the same order; its
    cutoff times are the converted ones; every other column (the target
    apart when it is split off) holds the cells it held; and, for a
    table whose columns have distinct names, its columns are those of
    the table given, without [target] when the target is split off. *)
Theorem load_returns_converted_table
    (fs : FileSystem) (to_datetime_text strptime to_timedelta : string → option Z)
    (rp : string) (target_times : target_times_arg) (signals : signals_arg)
    (window_size : option string) (return_target : bool)
    (σ : gmap loc DataFrame) (df : DataFrame)
    (X : loc) (y : option (list cell)) (readings : DataFrame) :
  resolves fs σ target_times df →
  (load fs to_datetime_text strptime to_timedelta rp target_times signals window_size
        return_target σ).2 = Ok (X, y, readings) →
  ∃ cutoff table,
    Frame.getitem df "cutoff_time" ≫= mapM (to_datetime to_datetime_text) = Ok cutoff
    ∧ (load fs to_datetime_text strptime to_timedelta rp target_times signals
            window_size return_target σ).1 !! X = Some table
    ∧ Frame.index table = Frame.index df
    ∧ Frame.getitem table "cutoff_time" = Ok cutoff
    ∧ (∀ e name, name ≠ "cutoff_time" → (return_target = true → name ≠ "target") →
         Frame.column e name table = Frame.column e name df)
    ∧ (NoDup (columns df) →
         columns table = if return_target then filter (λ c, c ≠ "target") (columns df)
                         else columns df).
Proof.
  intros Hres. rewrite (load_run _ _ _ _ _ _ _ _ _ _ df) by done. simpl.
  destruct (Frame.getitem df "cutoff_time" ≫= _) as [cutoff|e] eqn:Hconv; [|done].
  destruct (converted_length _ _ _ Hconv) as [Hlen Hin].
  simpl. destruct (check_duplicates _ ≫= _) as [readings'|e]; [|done].
  destruct return_target.
  - destruct (Frame.pop _ _) as [[y' df2]|e] eqn:Hpop; [|done].
    simpl. intros [= <- _ _]. exists cutoff, df2.
    rewrite lookup_insert_eq.
    unfold Frame.pop in Hpop.
    apply bind_Ok_inv in Hpop as (values & _ & Hpop).
    apply bind_Ok_inv in Hpop as (df' & Hdel & Hpop). injection Hpop as _ ->.
    split; [reflexivity|]. split; [reflexivity|]. split; [|split; [|split]].
    + rewrite (index_delitem _ _ _ Hdel). by apply index_setitem.
    + unfold Frame.getitem. rewrite (column_delitem_ne _ _ _ _ _ Hdel) by done.
      by apply column_setitem_eq.
    + intros e name Hne Hne'.
      rewrite (column_delitem_ne _ _ _ _ _ Hdel) by (intros <-; by apply Hne').
      by apply column_setitem_ne.
    + intros Hnd. apply delitem_Ok in Hdel as (i & Hi & ->). simpl.
      rewrite columns_setitem_present in * by done.
      apply delete_NoDup_filter; [done|]. by apply position_Some.
  - simpl. intros [= <- _ _]. exists cutoff, (Frame.setitem df "cutoff_time" cutoff).
    rewrite lookup_insert_eq.
    split; [done|]. split; [done|]. split; [|split; [|split]].
    + by apply index_setitem.
    + by apply column_setitem_eq.
    + intros e name Hne _. by apply column_setitem_ne.
    + intros _. by apply columns_setitem_present.
Qed.

Lemma load_returns_table_witness :
  ∃ cutoff table,
    Frame.getitem Fleet.target_times "cutoff_time"
      ≫= mapM (to_datetime Readers.iso_datetime) = Ok cutoff
    ∧ (load Fleet.disk Readers.iso_datetime Readers.log_datetime Readers.day_timedelta
            "" (TargetFrame Fleet.caller) SignalsNone (Some "30d") true Fleet.heap).1
        !! 2%positive = Some table
    ∧ Frame.index table = Frame.index Fleet.target_times
    ∧ Frame.getitem table "cutoff_time" = Ok cutoff
    ∧ (∀ e name, name ≠ "cutoff_time" → (true = true → name ≠ "target") →
         Frame.column e name table = Frame.column e name Fleet.target_times)
    ∧ (NoDup (columns Fleet.target_times) →
         columns table = filter (λ c, c ≠ "target") (columns Fleet.target_times)).
Proof.
  apply (load_returns_converted_table Fleet.disk Readers.iso_datetime
           Readers.log_datetime Readers.day_timedelta "" (TargetFrame Fleet.caller)
           SignalsNone (Some "30d") true Fleet.heap Fleet.target_times 2%positive
           (Some [Text "1"; Text "0"])
           {| columns := canonical_columns;
              rows := rows (Fleet.reading "T1" "1.5") ++ rows (Fleet.reading "T2" "2.5") |}).
  - reflexivity.
  - vm_compute. reflexivity.
Defined.

(** X13: the target column is looked for last.  For a table without a
    [target] column whose events are distinct and whose readings
    assemble, the call that splits the target off raises [KeyError] once
    all the readings are loaded, and the call that does not returns
    them. *)
Theorem load_missing_target_raises_last
    (fs : FileSystem) (to_datetime_text strptime to_timedelta : string → option Z)
    (rp : string) (target_times : target_times_arg) (signals : signals_arg)
    (window_size : option string) (σ : gmap loc DataFrame) (df : DataFrame)
    (pairs : list (cell * cell)) (s : option DataFrame) (readings : DataFrame) :
  resolves fs σ target_times df →
  event_pairs to_datetime_text df = Ok pairs →
  NoDup pairs →
  normalize_signals fs signals = Ok s →
  _load_readings fs strptime to_timedelta rp
    (Frame.setitem df "cutoff_time" pairs.*1) s window_size = Ok readings →
  "target" ∉ columns df →
  (load fs to_datetime_text strptime to_timedelta rp target_times signals window_size
        true σ).2 = Raise (KeyError "target")
  ∧ (load fs to_datetime_text strptime to_timedelta rp target_times signals window_size
          false σ).2 = Ok (fresh (dom σ), None, readings).
Proof.
  intros Hres Hpairs Hnd Hs Hreadings Hmissing.
  rewrite !(load_result _ _ _ _ _ _ _ _ _ _ _ _ Hres Hpairs).
  rewrite !decide_True by done. rewrite Hs. simpl. rewrite Hreadings. simpl.
  split; [|done].
  destruct (event_pairs_columns _ _ _ Hpairs) as (Hconv & _).
  destruct (converted_length _ _ _ Hconv) as [Hlen _].
  unfold Frame.pop, Frame.getitem. rewrite column_setitem_ne by done.
  unfold Frame.column. apply position_None in Hmissing. by rewrite Hmissing.
Qed.

Lemma load_missing_target_witness :
  (load (Scenario.disk "2020-02-.csv") Readers.iso_datetime Readers.log_datetime
        Readers.day_timedelta "" (TargetFrame Scenario.caller) SignalsNone (Some "30d")
        true Scenario.heap).2 = Raise (KeyError "target")
  ∧ (load (Scenario.disk "2020-02-.csv") Readers.iso_datetime Readers.log_datetime
          Readers.day_timedelta "" (TargetFrame Scenario.caller) SignalsNone (Some "30d")
          false Scenario.heap).2
    = Ok (fresh (dom Scenario.heap), None,
          {| columns := canonical_columns;
             rows := [(0, [Stamp (Calendar.timestamp 2020 2 10 0 0 0); Text "S1";
                           Text "3.2"; Text "T1"])] |}).
Proof.
  apply (load_missing_target_raises_last (Scenario.disk "2020-02-.csv")
           Readers.iso_datetime Readers.log_datetime Readers.day_timedelta ""
           (TargetFrame Scenario.caller) SignalsNone (Some "30d") Scenario.heap
           Scenario.target_times
           [(Stamp (Calendar.timestamp 2020 2 15 0 0 0), Text "T1")] None).
  - reflexivity.
  - vm_compute. reflexivity.
  - apply NoDup_singleton.
  - reflexivity.
  - vm_compute. reflexivity.
  - apply (bool_decide_unpack _). vm_compute. reflexivity.
Defined.

(** *** GreenGuardLoader *)

Lemma prefix_refl s : String.prefix s s = true.
Proof. induction s as [|c s IH]; simpl; [done|]. by destruct (ascii_dec c c). Qed.

Lemma prefix_app s t u : String.prefix s t = true → String.prefix s (t +:+ u) = true.
Proof.
  revert t. induction s as [|c s IH]; intros [|c' t]; simpl; try done.
  - by destruct u.
  - destruct (ascii_dec c c'); [apply IH|done].
Qed.

Lemma contains_app_l sub s t : contains sub s = true → contains sub (s +:+ t) = true.
Proof.
  induction s as [|c s IH]; simpl.
  - rewrite orb_false_r. intros H. destruct sub; [|done]. by destruct t.
  - intros [H|H]%orb_true_iff; apply orb_true_iff.
    + left. by apply (prefix_app sub (String c s) t).
    + right. by apply IH.
Qed.

Lemma contains_app_r sub s : contains sub (s +:+ sub) = true.
Proof.
  induction s as [|c s IH].
  - simpl. destruct sub; [done|]. apply orb_true_iff. left. apply prefix_refl.
  - change (String c s +:+ sub) with (String c (s +:+ sub)).
    simpl. apply orb_true_iff. by right.
Qed.

(** X14: the name under which a table is read always contains [.csv];
    resolving a resolved name changes nothing; and a name that already
    contains [.csv] is read as it is, so that on such a name the [gzip]
    flag (and every attribute but the path of the dataset) has no
    effect: no [.gz] is appended. *)
Theorem table_file_resolution (self : GreenGuardLoader.t) (table : string) :
  contains ".csv" (GreenGuardLoader.table_file self table) = true
  ∧ GreenGuardLoader.table_file self (GreenGuardLoader.table_file self table)
    = GreenGuardLoader.table_file self table
  ∧ (contains ".csv" table = true →
     ∀ pd_read_csv self' timestamp,
       GreenGuardLoader._dataset_path self' = GreenGuardLoader._dataset_path self →
       GreenGuardLoader._read_csv pd_read_csv self' table timestamp
       = pd_read_csv (path_join (GreenGuardLoader._dataset_path self) table)
                     (truthy timestamp)).
Proof.
  assert (contains ".csv" (GreenGuardLoader.table_file self table) = true) as Hcsv.
  { unfold GreenGuardLoader.table_file.
    destruct (contains ".csv" table) eqn:Hc; [done|].
    destruct (GreenGuardLoader._gzip self).
    - apply contains_app_l, contains_app_r.
    - apply contains_app_r. }
  split; [done|]. split.
  - unfold GreenGuardLoader.table_file at 1. by rewrite Hcsv.
  - intros Hc pd_read_csv self' timestamp Hpath.
    unfold GreenGuardLoader._read_csv, GreenGuardLoader.table_file.
    by rewrite Hc, Hpath.
Qed.

(** With [gzip=True] the table [readings.csv] is read from
    [readings.csv], and the table [readings] from [readings.csv.gz]. *)
Example gzip_flag_and_extension :
  let self := GreenGuardLoader.__init__ "data" None None None None None (Some true) in
  GreenGuardLoader.table_file self "readings.csv" = "readings.csv"
  ∧ GreenGuardLoader.table_file self "readings" = "readings.csv.gz"
  ∧ GreenGuardLoader.table_file self "readings.csv.zip" = "readings.csv.zip".
Proof. by vm_compute. Qed.

(** X15: what a successful [load] returns.  The dictionary has the key
    [readings], then [signals] and [turbines] when the loader was given
    such a table, in this order and no other key; each entry is the
    table read under that name; the first component is the table of
    target events, without the target column when the target is split
    off, and the second is that column. *)
Theorem loader_load_returns
    (pd_read_csv : string → option string → result DataFrame)
    (self : GreenGuardLoader.t) (return_target : bool)
    (X : DataFrame) (y : option (list cell)) (tables : dict DataFrame) :
  GreenGuardLoader.load pd_read_csv self return_target = Ok (X, y, tables) →
  tables.*1 = "readings"
              :: (if truthy (GreenGuardLoader._signals self) is Some _
                  then ["signals"] else [])
              ++ (if truthy (GreenGuardLoader._turbines self) is Some _
                  then ["turbines"] else [])
  ∧ dict_getitem tables "readings"
    = GreenGuardLoader._read_csv pd_read_csv self (GreenGuardLoader._readings self)
        (Some "timestamp")
  ∧ (∀ s, truthy (GreenGuardLoader._signals self) = Some s →
          dict_getitem tables "signals" = GreenGuardLoader._read_csv pd_read_csv self s None)
  ∧ (∀ s, truthy (GreenGuardLoader._turbines self) = Some s →
          dict_getitem tables "turbines" = GreenGuardLoader._read_csv pd_read_csv self s None)
  ∧ ∃ T, GreenGuardLoader._read_csv pd_read_csv self (GreenGuardLoader._target_times self)
           (Some "cutoff_time") = Ok T
         ∧ if return_target
           then ∃ col, y = Some col
                       ∧ Frame.pop T (GreenGuardLoader._target_column self) = Ok (col, X)
           else y = None ∧ X = T.
Proof.
  unfold GreenGuardLoader.load. intros Hload.
  apply bind_Ok_inv in Hload as (readings & Hreadings & Hload).
  apply bind_Ok_inv in Hload as (tables1 & Htables1 & Hload).
  apply bind_Ok_inv in Hload as (tables2 & Htables2 & Hload).
  apply bind_Ok_inv in Hload as (T & HT & Hload).
  assert (tables2 = tables ∧
          if return_target
          then ∃ col, y = Some col
                      ∧ Frame.pop T (GreenGuardLoader._target_column self) = Ok (col, X)
          else y = None ∧ X = T) as [-> Hy].
  { destruct return_target.
    - apply bind_Ok_inv in Hload as ([col X'] & Hpop & Hret).
      injection Hret as -> <- ->. eauto.
    - by injection Hload as -> <- ->. }
  rewrite Hreadings.
  destruct (truthy (GreenGuardLoader._signals self)) as [s|] eqn:Hs.
  - apply bind_Ok_inv in Htables1 as (signals & Hsignals & Htables1).
    injection Htables1 as <-.
    destruct (truthy (GreenGuardLoader._turbines self)) as [u|] eqn:Hu.
    + apply bind_Ok_inv in Htables2 as (turbines & Hturbines & Htables2).
      injection Htables2 as <-.
      repeat split; try done; try (by intros ? [= <-]). by exists T.
    + injection Htables2 as <-.
      repeat split; try done; try (by intros ? [= <-]). by exists T.
  - injection Htables1 as <-.
    destruct (truthy (GreenGuardLoader._turbines self)) as [u|] eqn:Hu.
    + apply bind_Ok_inv in Htables2 as (turbines & Hturbines & Htables2).
      injection Htables2 as <-.
      repeat split; try done; try (by intros ? [= <-]). by exists T.
    + injection Htables2 as <-.
      repeat split; try done; try (by intros ? [= <-]). by exists T.
Qed.

Lemma loader_load_witness :
  ∃ X y tables,
    GreenGuardLoader.load (Cache.pd_read_csv Cache.filled)
      (GreenGuardLoader.__init__ "/greenguard/demo" None None None None
         (Some "readings.csv.gz") (Some true)) true = Ok (X, y, tables)
    ∧ tables.*1 = ["readings"; "signals"]
    ∧ dict_getitem tables "readings" = Ok (Fleet.reading "T1" "1.5")
    ∧ dict_getitem tables "signals"
      = Ok {| columns := canonical_columns;
              rows := [(0, [Text "2020-02-10"; Text "S1"; Text "1.5"; Text "T1"])] |}
    ∧ y = Some [Text "1"; Text "0"].
Proof.
  eexists _, _, _. split; [vm_compute; reflexivity|].
  destruct (loader_load_returns (Cache.pd_read_csv Cache.filled)
              (GreenGuardLoader.__init__ "/greenguard/demo" None None None None
                 (Some "readings.csv.gz") (Some true)) true
              {| columns := ["turbine_id"; "cutoff_time"];
                 rows := [(0, [Text "T2"; Stamp (Calendar.timestamp 2020 2 15 0 0 0)]);
                          (1, [Text "T1"; Stamp (Calendar.timestamp 2020 2 15 0 0 0)])] |}
              (Some [Text "1"; Text "0"])
              [("readings", Fleet.reading "T1" "1.5");
               ("signals",
                {| columns := canonical_columns;
                   rows := [(0, [Text "2020-02-10"; Text "S1"; Text "1.5"; Text "T1"])] |})])
    as (Hkeys & Hreadings & Hsignals & _).
  - vm_compute. reflexivity.
  - split; [exact Hkeys|]. split; [|split; [|reflexivity]].
    + etrans; [exact Hreadings|]. vm_compute. reflexivity.
    + etrans; [exact (Hsignals "readings.csv.gz" eq_refl)|]. vm_compute. reflexivity.
Defined.

(** *** load_demo *)

(** X16: the first use of [load_demo].  When the folder of the demo
    does not exist, the call creates it, fails on the call of [load]
    with the keyword [target], which [load] does not have, removes the
    folder and raises: it never returns, reads no table and writes none,
    whatever the disk and the network hold.  The exception is the
    [TypeError] of the call unless making or removing the folder raises
    first. *)
Theorem load_demo_first_use_raises
    (Disk : Type) (exists_ : Disk → string → bool) (mkdir rmtree : string → OS Disk unit)
    (to_csv : DataFrame → string → OS Disk unit)
    (pd_read_csv : Disk → string → option string → result DataFrame)
    (module_path : string) (d : Disk) :
  exists_ d (path_join module_path "demo") = false →
  load_demo Disk exists_ mkdir rmtree to_csv pd_read_csv module_path d
  = (mkdir (path_join module_path "demo");;
     rmtree (path_join module_path "demo");;
     Os.lift (Raise TypeError)) d
  ∧ ∀ r, (load_demo Disk exists_ mkdir rmtree to_csv pd_read_csv module_path d).2 ≠ Ok r.
Proof.
  intros Hnew.
  assert (load_demo Disk exists_ mkdir rmtree to_csv pd_read_csv module_path d
          = (mkdir (path_join module_path "demo");;
             rmtree (path_join module_path "demo");;
             Os.lift (Raise TypeError)) d) as Hrun.
  { unfold load_demo. rewrite Hnew.
    unfold mbind, OS_bind. destruct (mkdir _ d) as [d1 [[]|e]]; [|done].
    unfold Os.try_except, Os.read, Os.lift. simpl. done. }
  split; [done|]. rewrite Hrun. intros r.
  unfold mbind, OS_bind, Os.lift.
  destruct (mkdir _ d) as [d1 [[]|e]]; [|done].
  by destruct (rmtree _ d1) as [d2 [[]|e]].
Qed.

Lemma load_demo_first_use_witness :
  load_demo Cache.Disk Cache.exists_ Cache.mkdir Cache.rmtree Cache.to_csv
    Cache.pd_read_csv "/greenguard" Cache.blank
  = (Cache.blank, Raise TypeError).
Proof.
  destruct (load_demo_first_use_raises Cache.Disk Cache.exists_ Cache.mkdir Cache.rmtree
              Cache.to_csv Cache.pd_read_csv "/greenguard" Cache.blank) as [-> _].
  - reflexivity.
  - vm_compute. reflexivity.
Defined.

(** X17: the later uses of [load_demo].  When the folder of the demo
    exists, the call leaves the disk as it is and reads two tables from
    the folder, [readings.csv.gz] and then [target_times.csv.gz]; it
    returns the target events without their [target] column, that
    column, and the readings, and it raises what the first failing step
    raises. *)
Theorem load_demo_reads_cache
    (Disk : Type) (exists_ : Disk → string → bool) (mkdir rmtree : string → OS Disk unit)
    (to_csv : DataFrame → string → OS Disk unit)
    (pd_read_csv : Disk → string → option string → result DataFrame)
    (module_path : string) (d : Disk) :
  exists_ d (path_join module_path "demo") = true →
  load_demo Disk exists_ mkdir rmtree to_csv pd_read_csv module_path d
  = (d,
     readings ← pd_read_csv d (path_join (path_join module_path "demo") "readings.csv.gz")
                  (Some "timestamp");
     X ← pd_read_csv d (path_join (path_join module_path "demo") "target_times.csv.gz")
           (Some "cutoff_time");
     '(y, X) ← Frame.pop X "target";
     mret (X, y, readings)).
Proof.
  intros Hcached. unfold load_demo. rewrite Hcached.
  unfold mbind at 1, OS_bind at 1, Os.read at 1. f_equal.
  unfold GreenGuardLoader.call_load, GreenGuardLoader.load, GreenGuardLoader._read_csv.
  simpl.
  destruct (pd_read_csv d _ (Some "timestamp")) as [readings|e]; [|done]. simpl.
  destruct (pd_read_csv d _ (Some "cutoff_time")) as [X|e]; [|done]. simpl.
  by destruct (Frame.pop X "target") as [[y X']|e].
Qed.

Lemma load_demo_cache_witness :
  load_demo Cache.Disk Cache.exists_ Cache.mkdir Cache.rmtree Cache.to_csv
    Cache.pd_read_csv "/greenguard" Cache.filled
  = (Cache.filled,
     Ok ({| columns := ["turbine_id"; "cutoff_time"];
            rows := [(0, [Text "T2"; Stamp (Calendar.timestamp 2020 2 15 0 0 0)]);
                     (1, [Text "T1"; Stamp (Calendar.timestamp 2020 2 15 0 0 0)])] |},
         [Text "1"; Text "0"], Fleet.reading "T1" "1.5")).
Proof.
  rewrite (load_demo_reads_cache Cache.Disk Cache.exists_ Cache.mkdir Cache.rmtree
             Cache.to_csv Cache.pd_read_csv "/greenguard" Cache.filled).
  - vm_compute. reflexivity.
  - reflexivity.
Defined.

(** *** A call without lookback *)

Lemma get_times_without_lookback to_timedelta X window_size windows w :
  lookback to_timedelta window_size = Ok None →
  _get_times to_timedelta X window_size = Ok windows →
  w ∈ windows → start w = Some Calendar.datetime_min.
Proof.
  intros Hd%lookback_cases Hget Hw. unfold _get_times in Hget.
  apply bind_Ok_inv in Hget as (cells & _ & Hget).
  assert (∃ ids cutoff_times,
            windows = zip_with (λ '(i, id) '(lo, hi),
                          {| w_index := i; turbine_id := id; start := lo; end_ := hi |})
                        (zip (Frame.index X) ids)
                        (zip (replicate (length cells) (Some Calendar.datetime_min))
                             cutoff_times)) as (ids & cutoff_times & ->).
  { destruct Hd as [-> | ->]; simpl in Hget;
      apply bind_Ok_inv in Hget as (ids & _ & Hget);
      apply bind_Ok_inv in Hget as (cutoff_times & _ & Hget);
      injection Hget as <-; eauto. }
  apply list_elem_of_lookup in Hw as [k Hk].
  apply lookup_zip_with_Some in Hk as ([i id] & [lo hi] & -> & _ & Hk).
  apply lookup_zip_with_Some in Hk as (lo' & hi' & [= <- <-] & Hlo & _).
  apply lookup_replicate in Hlo as [-> _]. done.
Qed.

Lemma datetime_min_is_no_timestamp : ¬ Calendar.in_bounds Calendar.datetime_min.
Proof. intros [Hlo _]. revert Hlo. by vm_compute. Qed.

Lemma load_turbine_readings_objects fs strptime rp X signals :
  Forall (λ w, start w = Some Calendar.datetime_min) X →
  ¬ succeeds (_load_turbine_readings fs strptime rp X signals).
Proof.
  intros Hall [t Hload]. unfold _load_turbine_readings in Hload.
  apply bind_Ok_inv in Hload as (first & Hfirst%from_option_Ok & Hload).
  apply bind_Ok_inv in Hload as (id & _ & Hload).
  apply bind_Ok_inv in Hload as (names & _ & Hload).
  apply bind_Ok_inv in Hload as (selected & Hselected & _).
  apply filter_by_filename_Ok in Hselected as [[_ Hstart] _].
  destruct X as [|w X]; simplify_eq/=.
  apply Forall_cons in Hall as [Hw _]. apply Forall_cons in Hstart as [Hw' _].
  rewrite Hw in Hw'. by apply datetime_min_is_no_timestamp.
Qed.

Lemma load_readings_without_lookback fs strptime to_timedelta rp X signals window_size :
  lookback to_timedelta window_size = Ok None →
  ¬ succeeds (_load_readings fs strptime to_timedelta rp X signals window_size).
Proof.
  intros Hd [readings Hload]. unfold _load_readings in Hload.
  apply bind_Ok_inv in Hload as (ids & _ & Hload).
  apply bind_Ok_inv in Hload as (windows & Hwindows & Hload).
  apply bind_Ok_inv in Hload as (names & _ & Hload).
  apply bind_Ok_inv in Hload as (tables & Htables & Hload).
  destruct tables as [|t tables]; [done|].
  apply mapM_Ok_Forall2 in Htables.
  destruct (sorted names) as [|id sorted_names]; [by inversion Htables|].
  apply Forall2_cons in Htables as [Ht _]. unfold load_turbine in Ht.
  apply bind_Ok_inv in Ht as (r & Hr & _).
  apply (load_turbine_readings_objects fs strptime rp
           (filter (has_turbine_id (Text id)) windows) signals); [|by exists r].
  apply Forall_forall. intros w [_ Hw]%list_elem_of_filter.
  by eapply get_times_without_lookback.
Qed.

(** X19: a call of [load] without lookback ([window_size] left to its
    default [None], or empty) never returns.  The windows then start at
    [datetime.min], which no datetime64 column holds, and the selection
    of the files raises on the accessor [.dt] for the first turbine
    whose folder is listed, unless the call has failed before (no
    target event, a turbine without folder). *)
Theorem load_without_lookback_never_returns
    (fs : FileSystem) (to_datetime_text strptime to_timedelta : string → option Z)
    (rp : string) (target_times : target_times_arg) (signals : signals_arg)
    (window_size : option string) (return_target : bool) (σ : gmap loc DataFrame) :
  lookback to_timedelta window_size = Ok None →
  ¬ succeeds (load fs to_datetime_text strptime to_timedelta rp target_times signals
                   window_size return_target σ).2.
Proof.
  intros Hd [out Hout].
  assert (∃ df, resolves fs σ target_times df) as [df Hres].
  { destruct target_times as [l|path]; simpl.
    - destruct (σ !! l) as [df|] eqn:Hl; [by exists df|].
      revert Hout. unfold load, Store.copy, Store.deref, mbind, Heap_bind.
      by rewrite Hl.
    - destruct (read_csv fs path) as [df|e] eqn:Hread; [by exists df|].
      revert Hout. unfold load, Store.lift, mbind, Heap_bind. by rewrite Hread. }
  rewrite (load_run _ _ _ _ _ _ _ _ _ _ df) in Hout by done. simpl in Hout.
  destruct (Frame.getitem df "cutoff_time" ≫= _) as [cutoff_time|e]; [|done].
  simpl in Hout.
  destruct (check_duplicates _ ≫= _) as [readings|e] eqn:Hreadings; [|done].
  apply bind_Ok_inv in Hreadings as (? & _ & Hreadings).
  apply bind_Ok_inv in Hreadings as (s & _ & Hreadings).
  apply (load_readings_without_lookback fs strptime to_timedelta rp
           (Frame.setitem df "cutoff_time" cutoff_time) s window_size Hd).
  by exists readings.
Qed.

Lemma load_without_lookback_witness :
  ¬ succeeds (load Fleet.disk Readers.iso_datetime Readers.log_datetime
                   Readers.day_timedelta "" (TargetFrame Fleet.caller) SignalsNone
                   None true Fleet.heap).2.
Proof.
  apply (load_without_lookback_never_returns Fleet.disk Readers.iso_datetime
           Readers.log_datetime Readers.day_timedelta "" (TargetFrame Fleet.caller)
           SignalsNone None true Fleet.heap).
  reflexivity.
Defined.

(** The two turbines have their logs, and the call without lookback
    raises on the first of them. *)
Example fleet_without_lookback :
  (load Fleet.disk Readers.iso_datetime Readers.log_datetime Readers.day_timedelta ""
        (TargetFrame Fleet.caller) SignalsNone None true Fleet.heap).2
  = Raise (AttributeError "dt").
Proof. by vm_compute. Qed.

(** *** The readers and the disk of the examples *)

(** The reader of the timestamps of the logs takes fields of one digit
    and a run of blanks, and no year of four digits. *)
Example log_datetime_fields :
  Readers.log_datetime "2/10/20 0:00:00" = Some (Calendar.timestamp 2020 2 10 0 0 0)
  ∧ Readers.log_datetime "02/10/20  00:00:00" = Some (Calendar.timestamp 2020 2 10 0 0 0)
  ∧ Readers.log_datetime "02/10/2020 00:00:00" = None
  ∧ Readers.log_datetime "02/30/20 00:00:00" = None.
Proof. repeat split; by vm_compute. Qed.

(** A table written to the disk of the examples is read back with its
    times when the column is named in [parse_dates], and with their
    texts when it is not. *)
Example cache_round_trip :
  let d := (Cache.to_csv Fleet.target_times "/greenguard/t.csv" Cache.blank).1 in
  Cache.pd_read_csv d "/greenguard/t.csv" (Some "cutoff_time") = Ok Fleet.target_times
  ∧ Cache.pd_read_csv d "/greenguard/t.csv" None
    = Ok {| columns := ["turbine_id"; "cutoff_time"; "target"];
            rows := [(0, [Text "T2"; Text "2020-02-15"; Text "1"]);
                     (1, [Text "T1"; Text "2020-02-15"; Text "0"])] |}.
Proof. split; by vm_compute. Qed.
